(** * Document vectorizer: vector stores, orchestrator and utilities

    A shallow embedding of [app/connections.py] (classes
    [MongoVectorStore] and [RedisVectorStore]) together with the two
    servers they talk to, of [app/main.py] (class [DocumentVectorizer]
    and [get_documents_from_path]) and of [getConfigs], [mylogger] and
    [echo_config] of [app/utils.py], and the properties of the
    extraction / storage / search / statistics protocol proved about
    them.

    Conventions.
    - Python [float] and numpy [float64] are IEEE binary64 numbers: the
      primitive [float] of the standard library, NaN included.
    - A call that may raise returns an [outcome]; code that talks to a
      server is a function of the state of the world.
    - The servers (MongoDB, Redis with its search module) are outside
      the repository.  Their state and the commands the code issues are
      modelled next to the code that uses them; every command may also be
      made to fail through a script of injected faults.
    - The files, the libraries that read them, the embedding model and
      the environment variables are parameters of the code that uses
      them. *)

From Stdlib Require Import Floats Ascii.
From stdpp Require Import gmap strings list pretty sorting.

Set Default Proof Using "Type".

(** ** Exceptions *)

(** The exception classes the code names or can receive. *)
Inductive ExnClass : Type :=
  | ValueError
  | TypeError
  | PyMongo_ServerSelectionTimeoutError
  | PyMongo_ConnectionFailure
  | PyMongo_OperationFailure
  | PyMongo_ConfigurationError
  | Redis_ConnectionError
  | Redis_AuthenticationError
  | Redis_TimeoutError
  | Redis_ResponseError
  | DatabaseConnectionError
  | DatabaseOperationError.

Record PyExn : Type := mkExn { exn_class : ExnClass; exn_msg : string }.

Global Instance ExnClass_eq_dec : EqDecision ExnClass.
Proof. solve_decision. Defined.

(** [except pymongo.errors.ConnectionFailure]:
    [ServerSelectionTimeoutError] derives from [AutoReconnect], which
    derives from [ConnectionFailure]. *)
Definition isinstance_ConnectionFailure (e : PyExn) : bool :=
  match exn_class e with
  | PyMongo_ConnectionFailure | PyMongo_ServerSelectionTimeoutError => true
  | _ => false
  end.

Definition isinstance_ServerSelectionTimeoutError (e : PyExn) : bool :=
  match exn_class e with
  | PyMongo_ServerSelectionTimeoutError => true
  | _ => false
  end.

(** [except redis.exceptions.ConnectionError]: [AuthenticationError]
    derives from [ConnectionError]; [TimeoutError] and [ResponseError]
    derive from [RedisError] only. *)
Definition isinstance_redis_ConnectionError (e : PyExn) : bool :=
  match exn_class e with
  | Redis_ConnectionError | Redis_AuthenticationError => true
  | _ => false
  end.

(** ** Computations on a world: state, exceptions *)

Inductive outcome (A : Type) : Type :=
  | Ok (a : A)
  | Raise (e : PyExn).
Arguments Ok {A} a.
Arguments Raise {A} e.

Definition is_ok {A} (o : outcome A) : bool :=
  match o with Ok _ => true | Raise _ => false end.

(** A computation reads and changes the world and either returns or
    raises; the changes made before a [raise] stay. *)
Definition M (W A : Type) : Type := W → outcome A * W.

Definition ret {W A} (a : A) : M W A := λ w, (Ok a, w).
Definition raise {W A} (e : PyExn) : M W A := λ w, (Raise e, w).
Definition bind {W A B} (m : M W A) (k : A → M W B) : M W B :=
  λ w, match m w with
       | (Ok a, w') => k a w'
       | (Raise e, w') => (Raise e, w')
       end.
(** A computation that leaves the world alone. *)
Definition lift {W A} (o : outcome A) : M W A := λ w, (o, w).

(** [try: m except Exception as e: h e] *)
Definition try_except {W A} (m : M W A) (h : PyExn → M W A) : M W A :=
  λ w, match m w with
       | (Ok a, w') => (Ok a, w')
       | (Raise e, w') => h e w'
       end.

Notation "'let!' x := m 'in' k" := (bind m (λ x, k))
  (at level 10, x name, m at level 200, k at level 200,
   format "'[v' 'let!'  x  :=  m  'in' '/' k ']'").
Notation "m ;; k" := (bind m (λ _, k))
  (at level 100, k at level 200, right associativity).

(** A [for] loop whose body talks to the world: the bodies run in order,
    the first exception ends the loop. *)
Fixpoint for_each {W A B} (body : A → M W B) (l : list A) : M W (list B) :=
  match l with
  | [] => ret []
  | x :: l' =>
      let! y := body x in
      let! ys := for_each body l' in
      ret (y :: ys)
  end.

(** ** Logging *)

Inductive LogLevel : Type := INFO | ERROR.
Definition LogRecord : Type := LogLevel * string.

(** ** Floats: the order of Python's [<] and [<=] *)


(** ** numpy on one-dimensional [float64] arrays *)

(** A vector.  numpy computes in the dtype of its arguments; the arrays
    here have dtype [float64], as [np.array(doc['embedding'])] has. *)
Definition ndarray : Type := list float.

(** The accumulation behind [np.dot] of two vectors of one length. *)
Definition sum_products (x y : ndarray) : float :=
  foldl (λ acc p, PrimFloat.add acc (PrimFloat.mul p.1 p.2)) 0%float (zip x y).

(** [np.dot(x, y)] raises [ValueError] unless the shapes are aligned. *)
Definition np_dot (x y : ndarray) : outcome float :=
  if decide (length x = length y) then Ok (sum_products x y)
  else Raise (mkExn ValueError "shapes not aligned").

(** [np.linalg.norm(x)] is [sqrt(x.dot(x))]. *)
Definition np_linalg_norm (x : ndarray) : float :=
  PrimFloat.sqrt (sum_products x x).

(** Cosine similarity in the words of the design:
    [dot(q, v) / (norm(q) * norm(v))], the norm of a vector being the
    square root of the sum of its squares. *)
Definition cosine_similarity (q v : ndarray) : float :=
  PrimFloat.div (sum_products q v)
    (PrimFloat.mul (PrimFloat.sqrt (sum_products q q))
                   (PrimFloat.sqrt (sum_products v v))).

(** [x.astype(np.float32)], element by element: rounding to nearest even
    in binary32 (24 bits of precision, [emax = 128]). *)
Definition astype_float32 (x : float) : float :=
  match Prim2SF x with
  | S754_finite s m e => SF2Prim (binary_round 24 128 s m e)
  | _ => x
  end.

(** ** Python lists *)

(** [l[:k]] *)
Definition slice_to {A} (l : list A) (k : Z) : list A :=
  if (0 <=? k)%Z then take (Z.to_nat k) l
  else take (length l - Z.to_nat (- k)) l.

(** [enumerate(l)] *)
Definition enumerate {A} (l : list A) : list (nat * A) :=
  zip (seq 0 (length l)) l.

(** A stable ascending sort that only asks [lt], as [list.sort] does:
    [x], which came before the elements of the sorted [l], goes after
    those strictly below it.  On keys that [lt] orders totally every
    stable sort returns this list; on other keys (NaN) the outcome depends
    on the algorithm, and on a list in which no element is [lt] its
    predecessor CPython's run detection, like these insertions, moves
    nothing. *)
Fixpoint insert_by {A} (lt : A → A → bool) (x : A) (l : list A) : list A :=
  match l with
  | [] => [x]
  | y :: l' => if lt y x then y :: insert_by lt x l' else x :: l
  end.

Definition stable_sort {A} (lt : A → A → bool) (l : list A) : list A :=
  foldr (insert_by lt) [] l.

Definition reversed {A} (l : list A) : list A := reverse l.

(** [l.sort(key=key, reverse=reverse)] on float keys.  With [reverse] the
    list is reversed, sorted ascending and stable, and reversed again, so
    that elements with equal keys keep their order. *)
Definition list_sort {A} (key : A → float) (reverse : bool) (l : list A)
    : list A :=
  let lt a b := PrimFloat.ltb (key a) (key b) in
  if reverse then reversed (stable_sort lt (reversed l)) else stable_sort lt l.

(** Truth value of an optional string: [None] and [''] are false. *)
Definition truthy_str (s : option string) : bool :=
  match s with
  | Some s => negb (String.eqb s "")
  | None => false
  end.

(** ** Data model *)

(** A chunk as the extractors build it. *)
Record Chunk : Type := mkChunk {
  text : string;
  page_number : option Z;
  chunk_index : Z;
  source : string;
  file_type : string
}.

Record SearchResult : Type := mkSearchResult {
  r_text : string;
  r_document_name : string;
  r_page_number : option Z;
  r_file_type : string;
  similarity_score : float;
  r_id : string
}.

Record Statistics : Type := mkStatistics {
  total_chunks : Z;
  by_file_type : gmap string Z
}.

(** The entries of [config_params] the stores read.  [MONGO_PORT] is the
    value of [int(config_params["MONGO_PORT"])]. *)
Record Config : Type := mkConfig {
  EMBEDDING_DIM : Z;
  MONGO_ROOT : string;
  MONGO_HOST : string;
  MONGO_PORT : Z;
  MONGO_USERNAME : string;
  MONGO_PASSWORD : string;
  MONGO_DIRECT : string;
  MONGO_DATASTORE : string;
  MONGO_COLLECTION : string;
  REDIS_HOST : string;
  REDIS_PORT : Z;
  REDIS_DB : Z;
  REDIS_INDEX_NAME : string;
  REDIS_DOC_PREFIX : string
}.

(** The file types the statistics loop over. *)
Definition known_file_types : list string := ["pdf"; "txt"; "docx"].

(** * The exact-scan backend: [MongoVectorStore] *)

Module Mongo.

(** The document [store_embeddings] builds for one pair. *)
Record Doc : Type := mkDoc {
  doc_document_name : string;
  doc_text : string;
  doc_page_number : option Z;
  doc_chunk_index : Z;
  doc_source : string;
  doc_file_type : string;
  doc_embedding : list float;
  doc_embedding_model : string;
  doc_embedding_dimension : Z;
  doc_created_at : string
}.

(** The world of this backend: the collection on the server (documents
    in insertion order, each with its [_id]), the next [_id] the driver
    hands out, the faults still to be injected (one entry is consumed by
    each call that reaches for the server), the log and the clock. *)
Record World : Type := mkWorld {
  collection : list (N * Doc);
  next_id : N;
  faults : list (option PyExn);
  log : list LogRecord;
  clock : string
}.

Definition with_faults (fs : list (option PyExn)) (w : World) : World :=
  mkWorld (collection w) (next_id w) fs (log w) (clock w).

Definition server_call {A} (exec : M World A) : M World A := λ w,
  match faults w with
  | Some e :: fs => (Raise e, with_faults fs w)
  | None :: fs => exec (with_faults fs w)
  | [] => exec w
  end.

Definition mylogger (level : LogLevel) (msg : string) : M World unit := λ w,
  (Ok (), mkWorld (collection w) (next_id w) (faults w)
                  (log w ++ [(level, msg)]) (clock w)).

(** [datetime.now().strftime(...)] *)
Definition now : M World string := λ w, (Ok (clock w), w).

(** *** The driver *)

(** [MongoClient(uri)]: whatever makes it raise is a fault of the
    world. *)
Definition MongoClient (uri : string) : M World unit := server_call (ret ()).

(** The [_id]s the driver hands out for a batch of [n] documents. *)
Definition fresh_ids (w : World) (n : nat) : list N :=
  (λ i, (next_id w + N.of_nat i)%N) <$> seq 0 n.

(** [collection.insert_many(documents)]: the driver refuses an empty
    batch with [TypeError] before it talks to the server; otherwise every
    document gets a fresh [_id] and [inserted_ids] lists them in the order
    of [documents]. *)
Definition insert_many (documents : list Doc) : M World (list N) :=
  match documents with
  | [] => raise (mkExn TypeError "documents must be a non-empty list")
  | _ =>
      server_call (λ w,
        let ids := fresh_ids w (length documents) in
        (Ok ids,
         mkWorld (collection w ++ zip ids documents)
                 (next_id w + N.of_nat (length documents))%N
                 (faults w) (log w) (clock w)))
  end.

(** The filter document: [{}] or [{'file_type': t}]. *)
Definition matches (filter_query : option string) (d : N * Doc) : bool :=
  match filter_query with
  | None => true
  | Some t => String.eqb (doc_file_type d.2) t
  end.

(** [list(collection.find(filter_query))] *)
Definition find (filter_query : option string) : M World (list (N * Doc)) :=
  server_call (λ w, (Ok (List.filter (matches filter_query) (collection w)), w)).

(** [collection.count_documents(filter_query)] *)
Definition count_documents (filter_query : option string) : M World Z :=
  server_call (λ w,
    (Ok (Z.of_nat (length (List.filter (matches filter_query) (collection w)))), w)).

(** *** [MongoVectorStore] *)

Record Store : Type := mkStore {
  config_params : Config;
  embedding_dim : Z;
  is_connected : bool
}.

Definition _build_uri (c : Config) : string :=
  let root := MONGO_ROOT c in
  let host := MONGO_HOST c in
  let port := MONGO_PORT c in
  let username := MONGO_USERNAME c in
  let password := MONGO_PASSWORD c in
  let direct := MONGO_DIRECT c in
  if String.eqb root "mongodb" then
    if negb (String.eqb username "") then
      root +:+ "://" +:+ username +:+ ":" +:+ password +:+ "@" +:+ host
           +:+ ":" +:+ pretty port +:+ "/?" +:+ direct
    else
      root +:+ "://" +:+ host +:+ ":" +:+ pretty port +:+ "/?" +:+ direct
  else
    if negb (String.eqb username "") then
      root +:+ "://" +:+ username +:+ ":" +:+ password +:+ "@" +:+ host
    else
      root +:+ "://" +:+ host.

Definition __init__ (c : Config) : M World Store :=
  try_except
    (MongoClient (_build_uri c);;
     mylogger INFO ("MongoDB vector store initialized: " +:+ MONGO_HOST c
                    +:+ " " +:+ MONGO_DATASTORE c);;
     ret (mkStore c (EMBEDDING_DIM c) true))
    (λ err,
      if isinstance_ServerSelectionTimeoutError err then
        mylogger ERROR ("MongoDB connection failed: " +:+ MONGO_HOST c +:+ " "
                        +:+ MONGO_DATASTORE c +:+ " " +:+ exn_msg err);;
        raise (mkExn DatabaseConnectionError
                     ("MongoDB connection failed: " +:+ exn_msg err))
      else if isinstance_ConnectionFailure err then
        mylogger ERROR ("MongoDB connection failed: " +:+ MONGO_HOST c +:+ " "
                        +:+ MONGO_DATASTORE c +:+ " " +:+ exn_msg err);;
        raise (mkExn DatabaseConnectionError
                     ("MongoDB connection failed: " +:+ exn_msg err))
      else
        mylogger ERROR ("MongoDB connection error: " +:+ MONGO_HOST c +:+ " "
                        +:+ MONGO_DATASTORE c +:+ " " +:+ exn_msg err);;
        raise (mkExn DatabaseConnectionError
                     ("MongoDB connection error: " +:+ exn_msg err))).

(** The loop body of [store_embeddings]. *)
Definition make_doc (document_name created_at : string)
    (pair : Chunk * ndarray) : Doc :=
  let '(chunk, embedding) := pair in
  mkDoc document_name (text chunk) (page_number chunk) (chunk_index chunk)
        (source chunk) (file_type chunk) embedding "all-MiniLM-L6-v2"
        (Z.of_nat (length embedding)) created_at.

(** The clock stands still during a call: [created_at] is read once.
    Printing the document is left out. *)
Definition store_embeddings (chunks : list Chunk) (embeddings : list ndarray)
    (document_name : string) : M World (list string) :=
  let! created_at := now in
  let documents := make_doc document_name created_at <$> zip chunks embeddings in
  let! inserted_ids := insert_many documents in
  ret (pretty <$> inserted_ids).

(** [filter_query = {}; if file_type_filter: filter_query['file_type'] = ...] *)
Definition filter_query (file_type_filter : option string) : option string :=
  if truthy_str file_type_filter then file_type_filter else None.

(** The documents a search scans: those [find] returns for the filter. *)
Definition candidates (file_type_filter : option string) (w : World)
    : list (N * Doc) :=
  List.filter (matches (filter_query file_type_filter)) (collection w).

(** The result the design asks for a candidate: its fields and its
    cosine similarity to the query. *)
Definition scored (q : ndarray) (doc : N * Doc) : SearchResult :=
  mkSearchResult (doc_text doc.2) (doc_document_name doc.2)
                 (doc_page_number doc.2) (doc_file_type doc.2)
                 (cosine_similarity q (doc_embedding doc.2)) (pretty doc.1).

(** The loop body of [similarity_search]. *)
Definition score_doc (query_embedding : ndarray) (doc : N * Doc)
    : outcome SearchResult :=
  let doc_embedding := doc_embedding doc.2 in
  match np_dot query_embedding doc_embedding with
  | Raise e => Raise e
  | Ok dot =>
      let similarity :=
        PrimFloat.div dot
          (PrimFloat.mul (np_linalg_norm query_embedding)
                         (np_linalg_norm doc_embedding)) in
      Ok (mkSearchResult (doc_text doc.2) (doc_document_name doc.2)
            (doc_page_number doc.2) (doc_file_type doc.2) similarity
            (pretty doc.1))
  end.

Definition similarity_search (query_embedding : ndarray) (top_k : Z)
    (file_type_filter : option string) : M World (list SearchResult) :=
  let! all_docs := find (filter_query file_type_filter) in
  match all_docs with
  | [] => ret []
  | _ =>
      let! results := for_each (λ doc, lift (score_doc query_embedding doc)) all_docs in
      ret (slice_to (list_sort similarity_score true results) top_k)
  end.

(** The loop body of [get_statistics]. *)
Definition count_type (by_type : gmap string Z) (file_type : string)
    : M World (gmap string Z) :=
  let! count := count_documents (Some file_type) in
  ret (if (0 <? count)%Z then <[file_type := count]> by_type else by_type).

Fixpoint count_types (types : list string) (by_type : gmap string Z)
    : M World (gmap string Z) :=
  match types with
  | [] => ret by_type
  | t :: types' =>
      let! by_type' := count_type by_type t in
      count_types types' by_type'
  end.

Definition get_statistics : M World Statistics :=
  let! total_docs := count_documents None in
  let! by_type := count_types known_file_types ∅ in
  ret (mkStatistics total_docs by_type).

(** The orchestrator stores one batch per document. *)
Definition store_all (batches : list (list Chunk * list ndarray * string))
    : M World (list (list string)) :=
  for_each (λ b, store_embeddings b.1.1 b.1.2 b.2) batches.

End Mongo.

(** * The ANN-index backend: [RedisVectorStore] *)

Module Redis.

(** The mapping [store_embeddings] writes under one key.  The embedding
    is the sequence of binary32 values behind [tobytes()]. *)
Record Hash : Type := mkHash {
  h_document_name : string;
  h_text : string;
  h_page_number : Z;
  h_chunk_index : Z;
  h_source : string;
  h_file_type : string;
  h_embedding_model : string;
  h_embedding_dimension : Z;
  h_created_at : string;
  h_embedding : list float
}.

(** What [_create_index] fixes of an index: the key prefix of its
    [IndexDefinition] and the [DIM] of its [FLAT] vector field. *)
Record IndexDescriptor : Type := mkIndex {
  ix_prefix : string;
  ix_dim : Z
}.

Inductive Command : Type :=
  | PING
  | FT_INFO (index_name : string)
  | FT_CREATE (index_name : string)
  | HSET (key : string)
  | FT_SEARCH (index_name : string).

Global Instance Command_eq_dec : EqDecision Command.
Proof. solve_decision. Defined.

(** The world of this backend: the hashes of the key space, the search
    indexes by name, the distance the engine computes between a query
    vector and a stored one, the faults still to be injected, the
    commands sent so far, the log and the clock. *)
Record World : Type := mkWorld {
  hashes : gmap string Hash;
  indexes : gmap string IndexDescriptor;
  knn_distance : list float → list float → float;
  faults : list (option PyExn);
  trace : list Command;
  log : list LogRecord;
  clock : string
}.

Definition mylogger (level : LogLevel) (msg : string) : M World unit := λ w,
  (Ok (), mkWorld (hashes w) (indexes w) (knn_distance w) (faults w) (trace w)
                  (log w ++ [(level, msg)]) (clock w)).

Definition now : M World string := λ w, (Ok (clock w), w).

(** Sending [cmd]: it is recorded, the next fault entry is consumed, and
    unless that entry makes the command fail the server executes it. *)
Definition sent (cmd : Command) (fs : list (option PyExn)) (w : World) : World :=
  mkWorld (hashes w) (indexes w) (knn_distance w) fs (trace w ++ [cmd])
          (log w) (clock w).

Definition server_call {A} (cmd : Command) (exec : M World A) : M World A := λ w,
  match faults w with
  | Some e :: fs => (Raise e, sent cmd fs w)
  | None :: fs => exec (sent cmd fs w)
  | [] => exec (sent cmd [] w)
  end.

(** *** The server *)

(** The hashes an index covers: those under its prefix whose vector has
    the dimension of the index. *)
Definition covers (ix : IndexDescriptor) (kh : string * Hash) : bool :=
  String.prefix (ix_prefix ix) kh.1
  && (Z.of_nat (length (h_embedding kh.2)) =? ix_dim ix)%Z.

Definition indexed (ix : IndexDescriptor) (hs : gmap string Hash)
    : list (string * Hash) :=
  List.filter (covers ix) (map_to_list hs).

Definition has_tag (t : option string) (kh : string * Hash) : bool :=
  match t with
  | None => true
  | Some t => String.eqb (h_file_type kh.2) t
  end.

Definition ping : M World unit := server_call PING (ret ()).

(** [client.ft(name).info()]: the reply, of which the code reads
    [num_docs]; an unknown index name is an error. *)
Definition ft_info (name : string) : M World Z :=
  server_call (FT_INFO name) (λ w,
    match indexes w !! name with
    | None => (Raise (mkExn Redis_ResponseError "Unknown index name"), w)
    | Some ix => (Ok (Z.of_nat (length (indexed ix (hashes w)))), w)
    end).

(** [client.ft(name).create_index(schema, definition=definition)] *)
Definition ft_create (name : string) (ix : IndexDescriptor) : M World unit :=
  server_call (FT_CREATE name) (λ w,
    match indexes w !! name with
    | Some _ => (Raise (mkExn Redis_ResponseError "Index already exists"), w)
    | None =>
        (Ok (), mkWorld (hashes w) (<[name := ix]> (indexes w)) (knn_distance w)
                        (faults w) (trace w) (log w) (clock w))
    end).

(** [client.hset(key, mapping=h)]: every field of the mapping is set, so
    a hash already under [key] is replaced. *)
Definition hset (key : string) (h : Hash) : M World unit :=
  server_call (HSET key) (λ w,
    (Ok (), mkWorld (<[key := h]> (hashes w)) (indexes w) (knn_distance w)
                    (faults w) (trace w) (log w) (clock w))).

(** The two queries the code builds. *)
Inductive Query : Type :=
  (** [Query("<base>=>[KNN k @embedding $vec AS score]")
        .return_fields(...).sort_by("score").paging(0, k).dialect(2)],
      [base] being ["*"] or ["(@file_type:{t})"] *)
  | KnnQuery (base_query : option string) (top_k : Z)
  (** [Query("@file_type:{t}").no_content()] *)
  | TagQuery (t : string).

Record ReplyDoc : Type := mkReplyDoc {
  d_id : string;
  d_document_name : string;
  d_text : string;
  d_page_number : Z;
  d_file_type : string;
  d_score : float
}.

Record Reply : Type := mkReply {
  total : Z;
  reply_docs : list ReplyDoc
}.

Definition score_hash (distance : list float → list float → float)
    (vec : list float) (kh : string * Hash) : ReplyDoc :=
  mkReplyDoc kh.1 (h_document_name kh.2) (h_text kh.2) (h_page_number kh.2)
             (h_file_type kh.2) (distance vec (h_embedding kh.2)).

Definition by_score (a b : ReplyDoc) : bool := PrimFloat.ltb (d_score a) (d_score b).

(** [client.ft(name).search(q, query_params={"vec": vec})].  The engine
    rejects an unknown index, a KNN query for less than one neighbour and
    a query vector of another size than the index has.  A KNN query keeps
    the [top_k] covered hashes (with the tag, if one is asked for) nearest
    to [vec], sorts them by ascending [score] and pages [0, top_k]; a tag
    query without content reports how many covered hashes carry the tag. *)
Definition ft_search (name : string) (q : Query) (vec : list float)
    : M World Reply :=
  server_call (FT_SEARCH name) (λ w,
    match indexes w !! name with
    | None => (Raise (mkExn Redis_ResponseError "No such index"), w)
    | Some ix =>
        match q with
        | TagQuery t =>
            let hits := List.filter (has_tag (Some t)) (indexed ix (hashes w)) in
            (Ok (mkReply (Z.of_nat (length hits)) []), w)
        | KnnQuery base_query top_k =>
            if (top_k <=? 0)%Z then
              (Raise (mkExn Redis_ResponseError "Syntax error"), w)
            else if negb (Z.of_nat (length vec) =? ix_dim ix)%Z then
              (Raise (mkExn Redis_ResponseError
                            "query vector blob size does not match"), w)
            else
              let hits := List.filter (has_tag base_query) (indexed ix (hashes w)) in
              let scored := score_hash (knn_distance w) vec <$> hits in
              let nearest := take (Z.to_nat top_k) (stable_sort by_score scored) in
              let page := take (Z.to_nat top_k) (stable_sort by_score nearest) in
              (Ok (mkReply (Z.of_nat (length nearest)) page), w)
        end
    end).

(** *** [RedisVectorStore] *)

Record Store : Type := mkStore {
  config_params : Config;
  embedding_dim : Z;
  index_name : string;
  prefix : string;
  is_connected : bool
}.

Definition connected (self : Store) : Store :=
  mkStore (config_params self) (embedding_dim self) (index_name self)
          (prefix self) true.

Definition _create_index (self : Store) : M World unit :=
  try_except
    (ft_info (index_name self);;
     ft_info (index_name self);;
     mylogger ERROR "  Index already exists")
    (λ _,
      ft_create (index_name self) (mkIndex (prefix self) (embedding_dim self));;
      mylogger INFO "Created new search index").

(** The two [except] clauses of [__init__]: only the first raises. *)
Definition connect_failed (self : Store) (err : PyExn) : M World Store :=
  let c := config_params self in
  if isinstance_redis_ConnectionError err then
    mylogger ERROR ("Redis connection failed: " +:+ REDIS_HOST c +:+ ":"
                    +:+ pretty (REDIS_PORT c) +:+ " " +:+ exn_msg err);;
    raise (mkExn DatabaseConnectionError
                 ("Redis connection failed: " +:+ exn_msg err))
  else
    mylogger ERROR ("Redis connection failed: " +:+ REDIS_HOST c +:+ ":"
                    +:+ pretty (REDIS_PORT c) +:+ " " +:+ exn_msg err);;
    ret self.

(** [__init__]: one [try] block; [_is_connected] is set between [ping]
    and [_create_index], so the handler leaves the object as the block
    left it. *)
Definition __init__ (c : Config) : M World Store := λ w,
  let self := mkStore c (EMBEDDING_DIM c) (REDIS_INDEX_NAME c)
                      (REDIS_DOC_PREFIX c) false in
  match ping w with
  | (Raise err, w1) => connect_failed self err w1
  | (Ok _, w1) =>
      match (_create_index (connected self);;
             mylogger INFO ("Redis vector store initialized: " +:+ REDIS_HOST c
                            +:+ ":" +:+ pretty (REDIS_PORT c) +:+ "/"
                            +:+ pretty (REDIS_DB c))) w1 with
      | (Raise err, w2) => connect_failed (connected self) err w2
      | (Ok _, w2) => (Ok (connected self), w2)
      end
  end.

(** The key of the pair at position [i]. *)
Definition doc_id (self : Store) (document_name : string) (i : nat)
    (chunk : Chunk) : string :=
  prefix self +:+ document_name +:+ ":" +:+ pretty (chunk_index chunk)
              +:+ ":" +:+ pretty i.

(** [chunk['page_number'] if chunk['page_number'] else -1] *)
Definition page_or_sentinel (p : option Z) : Z :=
  match p with
  | Some n => if (n =? 0)%Z then (-1)%Z else n
  | None => (-1)%Z
  end.

Definition doc_data (document_name created_at : string) (chunk : Chunk)
    (embedding : ndarray) : Hash :=
  mkHash document_name (text chunk) (page_or_sentinel (page_number chunk))
         (chunk_index chunk) (source chunk) (file_type chunk)
         "all-MiniLM-L6-v2" (Z.of_nat (length embedding)) created_at
         (astype_float32 <$> embedding).

(** The loop body of [store_embeddings]. *)
Definition store_pair (self : Store) (document_name : string)
    (item : nat * (Chunk * ndarray)) : M World string :=
  let '(i, (chunk, embedding)) := item in
  let key := doc_id self document_name i chunk in
  let! created_at := now in
  hset key (doc_data document_name created_at chunk embedding);;
  ret key.

Definition store_embeddings (self : Store) (chunks : list Chunk)
    (embeddings : list ndarray) (document_name : string)
    : M World (list string) :=
  for_each (store_pair self document_name) (enumerate (zip chunks embeddings)).

(** The loop body of [similarity_search]. *)
Definition to_result (doc : ReplyDoc) : SearchResult :=
  let page_num :=
    if negb (d_page_number doc =? -1)%Z then Some (d_page_number doc) else None in
  mkSearchResult (d_text doc) (d_document_name doc) page_num (d_file_type doc)
                 (PrimFloat.sub 1%float (d_score doc)) (d_id doc).

Definition similarity_search (self : Store) (query_embedding : ndarray)
    (top_k : Z) (file_type_filter : option string)
    : M World (list SearchResult) :=
  let query_vector := astype_float32 <$> query_embedding in
  let base_query := if truthy_str file_type_filter then file_type_filter else None in
  let q := KnnQuery base_query top_k in
  try_except
    (let! results := ft_search (index_name self) q query_vector in
     ret (to_result <$> reply_docs results))
    (λ e, mylogger ERROR ("Search error: " +:+ exn_msg e);; ret []).

(** The loop body of [get_statistics]. *)
Definition count_type (self : Store) (by_type : gmap string Z)
    (file_type : string) : M World (gmap string Z) :=
  let! results := ft_search (index_name self) (TagQuery file_type) [] in
  ret (if (0 <? total results)%Z then <[file_type := total results]> by_type
       else by_type).

Fixpoint count_types (self : Store) (types : list string)
    (by_type : gmap string Z) : M World (gmap string Z) :=
  match types with
  | [] => ret by_type
  | t :: types' =>
      let! by_type' := count_type self by_type t in
      count_types self types' by_type'
  end.

Definition get_statistics (self : Store) : M World Statistics :=
  try_except
    (let! total_docs := ft_info (index_name self) in
     let! by_type := count_types self known_file_types ∅ in
     ret (mkStatistics total_docs by_type))
    (λ e, mylogger ERROR ("Statistics error: " +:+ exn_msg e);;
          ret (mkStatistics 0 ∅)).

(** The orchestrator stores one batch per document. *)
Definition store_all (self : Store)
    (batches : list (list Chunk * list ndarray * string))
    : M World (list (list string)) :=
  for_each (λ b, store_embeddings self b.1.1 b.1.2 b.2) batches.

End Redis.

(** * Python [str], [os.path], [int] and [repr] *)

(** ** [str] and [os.path] *)

(** A [str] is the [string] of its code points; those of the paths, the
    texts and the configuration values considered are below 256.  Literal
    text outside that range is written in UTF-8. *)

Definition LF : ascii := "010"%char.

(** [c.isspace()] *)
Definition isspace (c : ascii) : bool :=
  let n := nat_of_ascii c in
  (9 <=? n) && (n <=? 13) || (28 <=? n) && (n <=? 32) || (n =? 133) || (n =? 160).

(** Dropping the characters [space] accepts from the left end, from the
    right end and from both. *)
Fixpoint lstrip_by (space : ascii → bool) (s : string) : string :=
  match s with
  | EmptyString => EmptyString
  | String c s' => if space c then lstrip_by space s' else s
  end.

Fixpoint rstrip_by (space : ascii → bool) (s : string) : string :=
  match s with
  | EmptyString => EmptyString
  | String c s' =>
      match rstrip_by space s' with
      | EmptyString => if space c then EmptyString else String c EmptyString
      | r => String c r
      end
  end.

(** [s.lstrip()], [s.rstrip()], [s.strip()] *)
Definition lstrip (s : string) : string := lstrip_by isspace s.
Definition rstrip (s : string) : string := rstrip_by isspace s.
Definition strip (s : string) : string := lstrip (rstrip s).

(** [s.lstrip(".")] *)
Fixpoint lstrip_dots (s : string) : string :=
  match s with
  | EmptyString => EmptyString
  | String c s' => if Ascii.eqb c "." then lstrip_dots s' else s
  end.

(** [s.lower()] and [s.upper()], character by character.  The upper
    cases of the code points 181, 223 and 255 lie outside the range. *)
Definition lower_char (c : ascii) : ascii :=
  let n := nat_of_ascii c in
  if (65 <=? n) && (n <=? 90) || (192 <=? n) && (n <=? 222) && negb (n =? 215)
  then ascii_of_nat (n + 32) else c.

Definition upper_char (c : ascii) : ascii :=
  let n := nat_of_ascii c in
  if (97 <=? n) && (n <=? 122) || (224 <=? n) && (n <=? 254) && negb (n =? 247)
  then ascii_of_nat (n - 32) else c.

Fixpoint map_chars (f : ascii → ascii) (s : string) : string :=
  match s with
  | EmptyString => EmptyString
  | String c s' => String (f c) (map_chars f s')
  end.

Definition lower (s : string) : string := map_chars lower_char s.
Definition upper (s : string) : string := map_chars upper_char s.

(** [s.split(sep)] for a separator that is not empty: the first piece
    and the pieces after it.  [skip] counts the characters of a separator
    just found that are still to be passed over. *)
Fixpoint split_from (sep : string) (skip : nat) (s : string) : string * list string :=
  match s with
  | EmptyString => (EmptyString, [])
  | String c s' =>
      match skip with
      | S k => split_from sep k s'
      | O =>
          if String.prefix sep s then
            let '(piece, pieces) := split_from sep (String.length sep - 1) s' in
            (EmptyString, piece :: pieces)
          else
            let '(piece, pieces) := split_from sep 0 s' in
            (String c piece, pieces)
      end
  end.

Definition split (sep : string) (s : string) : list string :=
  let '(piece, pieces) := split_from sep 0 s in piece :: pieces.

(** The separator of paragraphs, ['\n\n']. *)
Definition blank_line : string := String LF (String LF EmptyString).

(** Truth value of a [str]. *)
Definition truthy (s : string) : bool := negb (String.eqb s "").

(** [s.rfind(c)] for a character: the last index of [c], or [-1]. *)
Fixpoint rfind_from (c : ascii) (s : string) (i last : Z) : Z :=
  match s with
  | EmptyString => last
  | String d s' => rfind_from c s' (i + 1) (if Ascii.eqb d c then i else last)
  end.

Definition rfind (c : ascii) (s : string) : Z := rfind_from c s 0 (-1).

(** [s[:n]] and [s[n:]] for [0 ≤ n] *)
Fixpoint str_take (n : nat) (s : string) : string :=
  match n, s with
  | S n', String c s' => String c (str_take n' s')
  | _, _ => EmptyString
  end.

Fixpoint str_drop (n : nat) (s : string) : string :=
  match n, s with
  | S n', String _ s' => str_drop n' s'
  | _, _ => s
  end.

Fixpoint all_dots (s : string) : bool :=
  match s with
  | EmptyString => true
  | String c s' => Ascii.eqb c "." && all_dots s'
  end.

(** [os.path.splitext(p)] of [posixpath]: the extension starts at the
    last dot, provided that dot comes after the last slash and after a
    character of the file name that is not a dot. *)
Definition os_path_splitext (p : string) : string * string :=
  let sepIndex := rfind "/" p in
  let dotIndex := rfind "." p in
  if (sepIndex <? dotIndex)%Z then
    let leading := str_take (Z.to_nat (dotIndex - (sepIndex + 1)))
                            (str_drop (Z.to_nat (sepIndex + 1)) p) in
    if all_dots leading then (p, EmptyString)
    else (str_take (Z.to_nat dotIndex) p, str_drop (Z.to_nat dotIndex) p)
  else (p, EmptyString).

(** [os.path.basename(p)] of [posixpath] *)
Definition os_path_basename (p : string) : string :=
  str_drop (Z.to_nat (rfind "/" p + 1)) p.

(** [s.endswith("/")] *)
Fixpoint ends_with_slash (s : string) : bool :=
  match s with
  | EmptyString => false
  | String c EmptyString => Ascii.eqb c "/"
  | String _ s' => ends_with_slash s'
  end.

(** [os.path.join(a, b)] of [posixpath] *)
Definition os_path_join (a b : string) : string :=
  if String.prefix "/" b then b
  else if String.eqb a "" || ends_with_slash a then a +:+ b
  else a +:+ "/" +:+ b.

(** [sorted(l)] for a list of [str]: stable, ascending by code points. *)
Definition sorted (l : list string) : list string := stable_sort String.ltb l.

(** ** Exceptions and results *)

(** What can be raised in [main.py] and [utils.py]: the exceptions of
    [connections.py]
    and [ValueError] ([Py]), the builtin ones the code raises or runs
    into, and whatever a library raises ([open], [PyPDF2], [docx],
    [sentence_transformers]). *)
Inductive Exn : Type :=
  | Py (e : PyExn)
  | FileNotFoundError (msg : string)
  | AttributeError (msg : string)
  | KeyError (key : string)
  | LibraryError (msg : string).

(** [str(e)] *)
Definition str (e : Exn) : string :=
  match e with
  | Py e => exn_msg e
  | FileNotFoundError msg => msg
  | AttributeError msg => msg
  | KeyError key => "'" +:+ key +:+ "'"
  | LibraryError msg => msg
  end.

Inductive result (A : Type) : Type :=
  | Return (a : A)
  | Throw (e : Exn).
Arguments Return {A} a.
Arguments Throw {A} e.

Definition of_outcome {A} (o : outcome A) : result A :=
  match o with
  | Ok a => Return a
  | Raise e => Throw (Py e)
  end.

(** ** [int] and [repr] of a [str] *)

Definition is_digit (c : ascii) : bool :=
  let n := nat_of_ascii c in (48 <=? n) && (n <=? 57).

Definition digit_value (c : ascii) : Z := (Z.of_nat (nat_of_ascii c) - 48)%Z.

(** Decimal digits, single underscores allowed between two of them. *)
Fixpoint parse_digits (s : string) (acc : Z) (after_digit : bool) : option Z :=
  match s with
  | EmptyString => if after_digit then Some acc else None
  | String c s' =>
      if is_digit c then parse_digits s' (10 * acc + digit_value c)%Z true
      else if Ascii.eqb c "_" then
        if after_digit then parse_digits s' acc false else None
      else None
  end.

(** The white space [int] passes over: that of ASCII without the
    separators 28 to 31, and the two of the range above. *)
Definition int_space (c : ascii) : bool :=
  let n := nat_of_ascii c in
  (9 <=? n) && (n <=? 13) || (n =? 32) || (n =? 133) || (n =? 160).

(** [int(s)] when it returns: white space around, a sign, digits. *)
Definition parse_int (s : string) : option Z :=
  match lstrip_by int_space (rstrip_by int_space s) with
  | String "+" digits => parse_digits digits 0 false
  | String "-" digits => Z.opp <$> parse_digits digits 0 false
  | digits => parse_digits digits 0 false
  end.

Definition hex_digit (n : nat) : ascii :=
  ascii_of_nat (if n <? 10 then 48 + n else 87 + n).

Definition double_quote : ascii := "034"%char.
Definition backslash : ascii := "092"%char.

Fixpoint contains (c : ascii) (s : string) : bool :=
  match s with
  | EmptyString => false
  | String d s' => Ascii.eqb d c || contains c s'
  end.

(** How [repr] writes one character between quotes [quote]. *)
Definition repr_char (quote c : ascii) : string :=
  let n := nat_of_ascii c in
  if Ascii.eqb c quote || Ascii.eqb c backslash then String backslash (String c "")
  else if n =? 9 then String backslash "t"
  else if n =? 10 then String backslash "n"
  else if n =? 13 then String backslash "r"
  else if (n <? 32) || (n =? 127) || (128 <=? n) && (n <=? 160) || (n =? 173) then
    String backslash (String "x" (String (hex_digit (n / 16))
                                         (String (hex_digit (n mod 16)) "")))
  else String c "".

Fixpoint repr_chars (quote : ascii) (s : string) : string :=
  match s with
  | EmptyString => EmptyString
  | String c s' => repr_char quote c +:+ repr_chars quote s'
  end.

(** [repr(s)] *)
Definition repr (s : string) : string :=
  let quote :=
    if contains "'" s && negb (contains double_quote s) then double_quote else "'"%char in
  String quote (repr_chars quote s) +:+ String quote "".

(** [int(s)] *)
Definition int (s : string) : result Z :=
  match parse_int s with
  | Some n => Return n
  | None => Throw (Py (mkExn ValueError
                         ("invalid literal for int() with base 10: " +:+ repr s)))
  end.

Definition result_bind {A B} (r : result A) (k : A → result B) : result B :=
  match r with
  | Return a => k a
  | Throw e => Throw e
  end.

Notation "'let?' x := r 'in' k" := (result_bind r (λ x, k))
  (at level 10, x name, r at level 200, k at level 200,
   format "'[v' 'let?'  x  :=  r  'in' '/' k ']'").

(** [[f(x) for x in l]] *)
Fixpoint for_list {A B} (f : A → result B) (l : list A) : result (list B) :=
  match l with
  | [] => Return []
  | x :: l' =>
      let? y := f x in
      let? ys := for_list f l' in
      Return (y :: ys)
  end.

(** * The utilities: [app/utils.py] *)

Module Utils.

(** The values of [config_params]. *)
Inductive Value : Type :=
  | VInt (n : Z)
  | VStr (s : string)
  | VBool (b : bool)
  | VList (l : list Z).

Section utils.

(** The environment variables, and the time of the call as
    [datetime.now().strftime("%Y-%m-%d_%H:%M:%S")] writes it. *)
Variable environ : gmap string string.
Variable now : string.

(** [os.environ[key]] *)
Definition os_environ (key : string) : result string :=
  match environ !! key with
  | Some value => Return value
  | None => Throw (KeyError key)
  end.

(** [config_params[key] = int(os.environ[key])] and
    [config_params[key] = os.environ[key]] *)
Definition set_int (key : string) (config_params : gmap string Value)
    : result (gmap string Value) :=
  let? value := os_environ key in
  let? n := int value in
  Return (<[key := VInt n]> config_params).

Definition set_str (key : string) (config_params : gmap string Value)
    : result (gmap string Value) :=
  let? value := os_environ key in
  Return (<[key := VStr value]> config_params).

(** [config_params[key]] *)
Definition get (config_params : gmap string Value) (key : string) : result Value :=
  match config_params !! key with
  | Some value => Return value
  | None => Throw (KeyError key)
  end.

(** Printing is left out. *)
Definition getConfigs : result (gmap string Value) :=
  let config_params : gmap string Value := ∅ in
  let? config_params := set_int "ECHOCONFIG" config_params in
  let? config_params := set_int "ECHORECORDS" config_params in
  let? config_params := set_int "CONSOLE_DEBUGLEVEL" config_params in
  let? config_params := set_int "FILE_DEBUGLEVEL" config_params in
  let? config_params := set_str "SOURCEDIR" config_params in
  let? config_params := set_str "LOGDIR" config_params in
  let? logdir := os_environ "LOGDIR" in
  let config_params :=
    <["LOGGINGFILE" := VStr (os_path_join logdir (now +:+ ".log"))]> config_params in
  let? config_params := set_str "VECTOR_STORE" config_params in
  let? config_params := set_int "EMBEDDING_DIM" config_params in
  let? targets := os_environ "TARGETS" in
  let? targets := for_list int (split "," targets) in
  let config_params := <["TARGETS" := VList targets]> config_params in
  let? config_params :=
    if bool_decide (1%Z ∈ targets) then
      let? config_params := set_str "MONGO_HOST" config_params in
      let? config_params := set_str "MONGO_PORT" config_params in
      let? config_params := set_str "MONGO_DIRECT" config_params in
      let? config_params := set_str "MONGO_ROOT" config_params in
      let? config_params := set_str "MONGO_USERNAME" config_params in
      let? config_params := set_str "MONGO_PASSWORD" config_params in
      let? config_params := set_str "MONGO_DATASTORE" config_params in
      set_str "MONGO_COLLECTION" config_params
    else Return config_params in
  if bool_decide (3%Z ∈ targets) then
    let? config_params := set_str "REDIS_HOST" config_params in
    let? config_params := set_int "REDIS_PORT" config_params in
    let? config_params := set_int "REDIS_DB" config_params in
    let? config_params := set_str "REDIS_PASSWORD" config_params in
    let? config_params := set_str "REDIS_INDEX_NAME" config_params in
    let? config_params := set_str "REDIS_DOC_PREFIX" config_params in
    let? ssl := os_environ "REDIS_SSL" in
    let? ssl := int ssl in
    if (ssl =? 0)%Z then
      Return (<["REDIS_SSL" := VBool false]> config_params)
    else
      let? _ := get config_params "REDIS_SSL" in
      let config_params := <["REDIS_SSL" := VBool true]> config_params in
      let? config_params := set_str "REDIS_SSL_CERT" config_params in
      let? config_params := set_str "REDIS_SSL_KEY" config_params in
      set_str "REDIS_SSL_CA" config_params
  else Return config_params.

(** ** [echo_config] *)

(** [str(value)] *)
Definition str_of (value : Value) : string :=
  match value with
  | VInt n => pretty n
  | VStr s => s
  | VBool b => if b then "True" else "False"
  | VList l => "[" +:+ String.concat ", " (pretty <$> l) +:+ "]"
  end.

Definition type_name (value : Value) : string :=
  match value with
  | VInt _ => "int"
  | VStr _ => "str"
  | VBool _ => "bool"
  | VList _ => "list"
  end.

(** [prefix + value] *)
Definition add (prefix : string) (value : Value) : result string :=
  match value with
  | VStr s => Return (prefix +:+ s)
  | _ =>
      Throw (Py (mkExn TypeError
                   ("can only concatenate str (not "
                    +:+ String double_quote (type_name value)
                    +:+ String double_quote ") to str")))
  end.

(** [value == n] *)
Definition equals_int (value : Value) (n : Z) : bool :=
  match value with
  | VInt m => (m =? n)%Z
  | VBool b => ((if b then 1 else 0) =? n)%Z
  | VStr _ | VList _ => false
  end.

(** [n in value] *)
Definition has_int (n : Z) (value : Value) : result bool :=
  match value with
  | VList l => Return (bool_decide (n ∈ l))
  | VStr _ =>
      Throw (Py (mkExn TypeError
                   "'in <string>' requires string as left operand, not int"))
  | VInt _ | VBool _ =>
      Throw (Py (mkExn TypeError
                   ("argument of type '" +:+ type_name value +:+ "' is not iterable")))
  end.

(** Code that calls [mylogger.info]: its result, and the messages it
    passed before it returned or raised, in order. *)
Definition Logging (A : Type) : Type := result A * list string.

Definition value {A} (r : result A) : Logging A := (r, []).

Definition next {A B} (m : Logging A) (k : A → Logging B) : Logging B :=
  match m with
  | (Return a, msgs) => let (r, msgs') := k a in (r, msgs ++ msgs')
  | (Throw e, msgs) => (Throw e, msgs)
  end.

Notation "'let+' x := m 'in' k" := (next m (λ x, k))
  (at level 10, x name, m at level 200, k at level 200,
   format "'[v' 'let+'  x  :=  m  'in' '/' k ']'").
Notation "m ;+ k" := (next m (λ _, k))
  (at level 100, k at level 200, right associativity,
   format "'[v' m  ;+ '/' k ']'").

(** [mylogger.info(msg)] *)
Definition info (msg : string) : Logging unit := (Return (), [msg]).

(** [mylogger.info(prefix + str(config_params[key]))] and
    [mylogger.info(prefix + config_params[key])] *)
Definition info_str (config_params : gmap string Value) (prefix key : string)
    : Logging unit :=
  let+ v := value (get config_params key) in
  info (prefix +:+ str_of v).

Definition info_add (config_params : gmap string Value) (prefix key : string)
    : Logging unit :=
  let+ v := value (get config_params key) in
  let+ msg := value (add prefix v) in
  info msg.

Definition echo_config (config_params : gmap string Value) : Logging unit :=
  let+ echo := value (get config_params "ECHOCONFIG") in
  if equals_int echo 1 then
    info "***********************************************************" ;+
    info "* " ;+
    info "*          Python ...." ;+
    info "* " ;+
    info "***********************************************************" ;+
    info "* General" ;+
    info "* " ;+
    info_str config_params "* Console Debuglevel               : " "CONSOLE_DEBUGLEVEL" ;+
    info_str config_params "* File Debuglevel                  : " "FILE_DEBUGLEVEL" ;+
    info "* " ;+
    info "* " ;+
    info_add config_params "* Log Directory                    : " "LOGDIR" ;+
    info_add config_params "* Log File                         : " "LOGGINGFILE" ;+
    info "* " ;+
    info_str config_params "* Embedding Dimensions             : " "EMBEDDING_DIM" ;+
    info_str config_params "* DB Targets Specified             : " "TARGETS" ;+
    info "* " ;+
    let+ targets := value (get config_params "TARGETS") in
    let+ mongo := value (has_int 1 targets) in
    (if mongo then
       info "* " ;+
       info "* Target                           : MogoDB" ;+
       info_add config_params "* Mongo Root                       : " "MONGO_ROOT" ;+
       info_add config_params "* Mongo host                       : " "MONGO_HOST" ;+
       info_str config_params "* Mongo Port                       : " "MONGO_PORT" ;+
       info_add config_params "* Mongo Direct                     : " "MONGO_DIRECT" ;+
       info_add config_params "* Mongo Datastore                  : " "MONGO_DATASTORE"
     else value (Return ())) ;+
    let+ targets := value (get config_params "TARGETS") in
    let+ redis := value (has_int 3 targets) in
    (if redis then
       info "* " ;+
       info "* Target                           : Redis" ;+
       info_add config_params "* Redis Host                       : " "REDIS_HOST" ;+
       info_str config_params "* Redis Port                       : " "REDIS_PORT" ;+
       info_str config_params "* Redis DB                         : " "REDIS_DB" ;+
       info_add config_params "* Redis Index Name                 : " "REDIS_INDEX_NAME" ;+
       info_add config_params "* Redis Doc Prefix                 : " "REDIS_DOC_PREFIX" ;+
       info_str config_params "* Redis SSL                        : " "REDIS_SSL" ;+
       let+ ssl := value (os_environ "REDIS_SSL") in
       let+ ssl := value (int ssl) in
       if negb (ssl =? 0)%Z then
         info_add config_params "* Redis SSL Cert                   : " "REDIS_SSL_CERT" ;+
         info_add config_params "* Redis SSL Key                    : " "REDIS_SSL_KEY" ;+
         info_add config_params "* Redis SSL CA                     : " "REDIS_SSL_CA"
       else value (Return ())
     else value (Return ())) ;+
    info "* " ;+
    info "***********************************************************" ;+
    info ""
  else value (Return ()).

End utils.

(** ** [mylogger] *)

(** What [mylogger] fixes of the logger it returns: the level of the
    logger and the levels of its two handlers. *)
Record Logger : Type := mkLogger {
  logger_level : Z;
  console_handler_level : Z;
  file_handler_level : Z;
  file_name : string
}.

(** The [if]/[elif] chain that sets the level of a handler. *)
Definition handler_level (level : Z) : Z :=
  if (level =? 10)%Z then 10%Z
  else if (level =? 20)%Z then 20%Z
  else if (level =? 30)%Z then 30%Z
  else if (level =? 40)%Z then 40%Z
  else if (level =? 50)%Z then 50%Z
  else 20%Z.

Section logger.

(** What [logging.FileHandler(filename)] raises, if it raises. *)
Variable FileHandler_fails : string → option Exn.

(** Both chains test [console_level].  The logger is the one of the
    first call: it has no handlers before. *)
Definition mylogger (filename : string) (console_level file_level : Z)
    : result Logger :=
  let lowest_level := Z.min console_level file_level in
  match FileHandler_fails filename with
  | Some e => Throw e
  | None =>
      Return (mkLogger lowest_level (handler_level console_level)
                       (handler_level console_level) filename)
  end.

End logger.

(** [logging]: a record of level [levelno] passes a logger whose
    effective level it reaches (a logger of level [NOTSET] has the
    effective level of its parent, here [parent_level]) and then each
    handler whose level it reaches. *)
Definition effective_level (parent_level : Z) (logger : Logger) : Z :=
  if (logger_level logger =? 0)%Z then parent_level else logger_level logger.

Definition reaches_console (parent_level : Z) (logger : Logger) (levelno : Z) : bool :=
  (effective_level parent_level logger <=? levelno)%Z
  && (console_handler_level logger <=? levelno)%Z.

Definition reaches_file (parent_level : Z) (logger : Logger) (levelno : Z) : bool :=
  (effective_level parent_level logger <=? levelno)%Z
  && (file_handler_level logger <=? levelno)%Z.

End Utils.

(** * The orchestrator: [app/main.py] *)

Module Main.

(** ** Computations *)

Inductive Level : Type := DEBUG | INFO | ERROR.

(** The world of the orchestrator: the two servers and the records it
    logs itself (those of a store are in the world of its server). *)
Record World : Type := mkWorld {
  mongo : Mongo.World;
  redis : Redis.World;
  log : list (Level * string)
}.

Definition Prog (A : Type) : Type := World → result A * World.

Definition pure {A} (a : A) : Prog A := λ w, (Return a, w).
Definition throw {A} (e : Exn) : Prog A := λ w, (Throw e, w).
Definition and_then {A B} (m : Prog A) (k : A → Prog B) : Prog B :=
  λ w, match m w with
       | (Return a, w') => k a w'
       | (Throw e, w') => (Throw e, w')
       end.
Definition returning {A} (r : result A) : Prog A := λ w, (r, w).

(** [try: m except Exception as e: h e] *)
Definition try_catch {A} (m : Prog A) (h : Exn → Prog A) : Prog A :=
  λ w, match m w with
       | (Return a, w') => (Return a, w')
       | (Throw e, w') => h e w'
       end.

Notation "'let*' x := m 'in' k" := (and_then m (λ x, k))
  (at level 10, x name, m at level 200, k at level 200,
   format "'[v' 'let*'  x  :=  m  'in' '/' k ']'").
Notation "m ;;; k" := (and_then m (λ _, k))
  (at level 100, k at level 200, right associativity).

(** A call into [connections.py] runs on the world of its server. *)
Definition in_mongo {A} (m : M Mongo.World A) : Prog A := λ w,
  let '(o, mw) := m (mongo w) in (of_outcome o, mkWorld mw (redis w) (log w)).

Definition in_redis {A} (m : M Redis.World A) : Prog A := λ w,
  let '(o, rw) := m (redis w) in (of_outcome o, mkWorld (mongo w) rw (log w)).

Definition mylogger (level : Level) (msg : string) : Prog unit := λ w,
  (Return (), mkWorld (mongo w) (redis w) (log w ++ [(level, msg)])).

(** ** What lies outside the program *)

(** A two-dimensional array: its rows and [shape[1]]. *)
Record ndarray2 : Type := mkArray {
  rows : list ndarray;
  shape1 : Z
}.

(** A loaded model: [model.encode(texts)]. *)
Definition Encoder : Type := list string → ndarray2.

(** The files and the libraries that read them: [os.path.exists],
    [os.path.isdir], [os.path.isfile], [os.listdir], the triples
    [(root, dirs, files)] of [os.walk], what [open] raises if it raises,
    [file.read()] in text mode, the texts of the pages of
    [PyPDF2.PdfReader(file)], the texts of the paragraphs of
    [docx.Document(file_path)], and [SentenceTransformer(name)]. *)
Record Env : Type := mkEnv {
  os_path_exists : string → bool;
  os_path_isdir : string → bool;
  os_path_isfile : string → bool;
  os_listdir : string → result (list string);
  os_walk : string → list (string * list string * list string);
  open_fails : string → option Exn;
  file_read : string → result string;
  pdf_page_texts : string → result (list string);
  docx_paragraph_texts : string → result (list string);
  SentenceTransformer : string → result Encoder
}.

(** [config_params]: the entries the stores read, and ["VECTOR_STORE"]
    if the key is there. *)
Record Settings : Type := mkSettings {
  stores : Config;
  VECTOR_STORE : option string
}.

Inductive Client : Type :=
  | MongoVectorStore (store : Mongo.Store)
  | RedisVectorStore (store : Redis.Store).

(** The attributes of a [DocumentVectorizer] that are read; [model] and
    [vector_store_type] do not exist before they are assigned. *)
Record DocumentVectorizer : Type := mkDocumentVectorizer {
  config_params : Settings;
  model : option Encoder;
  vector_store_type : option string;
  client : option Client
}.

(** The dictionary [process_document] returns. *)
Record Summary : Type := mkSummary {
  s_document_name : string;
  s_file_type : string;
  s_total_chunks : Z;
  s_inserted_ids : list string;
  s_embedding_dimension : Z;
  s_vector_store : string
}.

Section main.

Variable env : Env.

(** [with open(file_path, ...) as file] *)
Definition open (file_path : string) : Prog unit :=
  match open_fails env file_path with
  | Some e => throw e
  | None => pure ()
  end.

(** ** [DocumentVectorizer] *)

Definition init_failed (self : DocumentVectorizer) (e : Exn)
    : Prog DocumentVectorizer :=
  mylogger ERROR ("Error initializing DocumentVectorizer: " +:+ str e);;;
  pure self.

(** [__init__]: one [try] block around everything after the first
    assignments; the handler logs and returns, so the object keeps the
    attributes assigned before the exception. *)
Definition __init__ (config_params : Settings) : Prog DocumentVectorizer :=
  mylogger INFO "Loading embedding model...";;;
  match SentenceTransformer env "all-MiniLM-L6-v2" with
  | Throw e => init_failed (mkDocumentVectorizer config_params None None None) e
  | Return model =>
      match VECTOR_STORE config_params with
      | None =>
          init_failed (mkDocumentVectorizer config_params (Some model) None None)
                      (KeyError "VECTOR_STORE")
      | Some vector_store_type =>
          try_catch
            (let* client :=
               if String.eqb (lower vector_store_type) "mongodb" then
                 let* store := in_mongo (Mongo.__init__ (stores config_params)) in
                 pure (MongoVectorStore store)
               else if String.eqb (lower vector_store_type) "redis" then
                 let* store := in_redis (Redis.__init__ (stores config_params)) in
                 pure (RedisVectorStore store)
               else
                 throw (Py (mkExn ValueError
                              ("Unsupported vector store: " +:+ vector_store_type
                               +:+ ". Use 'mongodb' or 'redis'"))) in
             mylogger INFO ("✓ Using " +:+ upper vector_store_type
                            +:+ " as vector store");;;
             pure (mkDocumentVectorizer config_params (Some model)
                     (Some vector_store_type) (Some client)))
            (init_failed (mkDocumentVectorizer config_params (Some model)
                            (Some vector_store_type) None))
      end
  end.

(** The loop body of the three extractors: a paragraph that is not
    blank becomes a chunk. *)
Definition chunk_of (page_number : option Z) (file_path file_type : string)
    (item : nat * string) : option Chunk :=
  let '(para_num, paragraph) := item in
  if truthy (strip paragraph) then
    Some (mkChunk (strip paragraph) page_number (Z.of_nat para_num)
                  file_path file_type)
  else None.

Definition extract_text_from_pdf (file_path : string) : Prog (list Chunk) :=
  open file_path;;;
  mylogger INFO ("File Opened: " +:+ file_path);;;
  let* pages := returning (pdf_page_texts env file_path) in
  pure (concat (imap (λ page_num page_text,
                        omap (chunk_of (Some (Z.of_nat page_num + 1)%Z) file_path "pdf")
                             (enumerate (split blank_line page_text)))
                     pages)).

Definition extract_text_from_txt (file_path : string) : Prog (list Chunk) :=
  open file_path;;;
  mylogger INFO ("File Opened: " +:+ file_path);;;
  let* content := returning (file_read env file_path) in
  let paragraphs := split blank_line content in
  pure (omap (chunk_of None file_path "txt") (enumerate paragraphs)).

Definition extract_text_from_docx (file_path : string) : Prog (list Chunk) :=
  let* paragraphs := returning (docx_paragraph_texts env file_path) in
  mylogger INFO ("File Opened: " +:+ file_path);;;
  pure (omap (chunk_of None file_path "docx") (enumerate paragraphs)).

Definition extract_text (file_path : string) : Prog (list Chunk) :=
  let extension := lower (os_path_splitext file_path).2 in
  if String.eqb extension ".pdf" then
    mylogger INFO ("Processing PDF file: " +:+ file_path);;;
    extract_text_from_pdf file_path
  else if String.eqb extension ".txt" then
    mylogger INFO ("Processing TXT file: " +:+ file_path);;;
    extract_text_from_txt file_path
  else if String.eqb extension ".docx" || String.eqb extension ".doc" then
    (if String.eqb extension ".doc" then
       mylogger ERROR "Warning: .doc format detected. Only .docx is fully supported."
     else pure ());;;
    mylogger INFO ("Processing DOCX file: " +:+ file_path);;;
    extract_text_from_docx file_path
  else
    throw (Py (mkExn ValueError ("Unsupported file type: " +:+ extension))).

Definition generate_embeddings (self : DocumentVectorizer) (texts : list string)
    : Prog ndarray2 :=
  match model self with
  | None => throw (AttributeError
                     "'DocumentVectorizer' object has no attribute 'model'")
  | Some model => pure (model texts)
  end.

(** [self.vector_store_type] *)
Definition get_vector_store_type (self : DocumentVectorizer) : Prog string :=
  match vector_store_type self with
  | None => throw (AttributeError
                     "'DocumentVectorizer' object has no attribute 'vector_store_type'")
  | Some t => pure t
  end.

(** [self.client.store_embeddings(chunks, embeddings, document_name)]:
    the client iterates over the rows of [embeddings]. *)
Definition client_store_embeddings (self : DocumentVectorizer)
    (chunks : list Chunk) (embeddings : ndarray2) (document_name : string)
    : Prog (list string) :=
  match client self with
  | None => throw (AttributeError
                     "'NoneType' object has no attribute 'store_embeddings'")
  | Some (MongoVectorStore _) =>
      in_mongo (Mongo.store_embeddings chunks (rows embeddings) document_name)
  | Some (RedisVectorStore store) =>
      in_redis (Redis.store_embeddings store chunks (rows embeddings) document_name)
  end.

(** Printing is left out. *)
Definition process_document (self : DocumentVectorizer) (file_path : string)
    (document_name : option string) : Prog Summary :=
  if negb (os_path_exists env file_path) then
    throw (FileNotFoundError ("File not found: " +:+ file_path))
  else
    let document_name := default (os_path_basename file_path) document_name in
    mylogger INFO "Extracting text from document...";;;
    let* chunks := extract_text file_path in
    mylogger DEBUG ("✓ Extracted " +:+ pretty (length chunks) +:+ " text chunks");;;
    match chunks with
    | [] => throw (Py (mkExn ValueError "No text content found in document"))
    | first_chunk :: _ =>
        mylogger INFO "Generating embeddings...";;;
        let texts := text <$> chunks in
        let* embeddings := generate_embeddings self texts in
        mylogger INFO ("✓ Generated embeddings with dimension "
                       +:+ pretty (shape1 embeddings));;;
        let* store_type := get_vector_store_type self in
        mylogger INFO ("✓ Storing in " +:+ store_type +:+ "...");;;
        let* doc_ids := client_store_embeddings self chunks embeddings document_name in
        mylogger INFO ("✓ Successfully stored " +:+ pretty (length doc_ids)
                       +:+ " chunks");;;
        let* store_type := get_vector_store_type self in
        pure (mkSummary document_name (file_type first_chunk)
                        (Z.of_nat (length chunks)) (slice_to doc_ids 3)
                        (shape1 embeddings) store_type)
    end.

(** [self.client.get_statistics()] *)
Definition get_statistics (self : DocumentVectorizer) : Prog Statistics :=
  match client self with
  | None => throw (AttributeError
                     "'NoneType' object has no attribute 'get_statistics'")
  | Some (MongoVectorStore _) => in_mongo Mongo.get_statistics
  | Some (RedisVectorStore store) => in_redis (Redis.get_statistics store)
  end.

(** ** [get_documents_from_path] *)

(** [f'.{ext.lower().lstrip(".")}'] *)
Definition normalize_extension (ext : string) : string :=
  "." +:+ lstrip_dots (lower ext).

Definition get_documents_from_path (path : string)
    (file_types : option (list string)) (recursive : bool)
    : result (list string) :=
  let file_types := default ["pdf"; "txt"; "docx"; "doc"] file_types in
  let extensions := normalize_extension <$> file_types in
  let wanted (file : string) : bool :=
    bool_decide (lower (os_path_splitext file).2 ∈ extensions) in
  if negb (os_path_exists env path) then
    Throw (FileNotFoundError ("Path not found: " +:+ path))
  else if negb (os_path_isdir env path) then
    Throw (Py (mkExn ValueError ("Path is not a directory: " +:+ path)))
  else if recursive then
    Return (sorted (concat ((λ '(root, dirs, files),
                               os_path_join root <$> List.filter wanted files)
                            <$> os_walk env path)))
  else
    match os_listdir env path with
    | Throw e => Throw e
    | Return items =>
        Return (sorted (omap (λ item,
                                let full_path := os_path_join path item in
                                if os_path_isfile env full_path && wanted item
                                then Some full_path else None)
                             items))
    end.

End main.

End Main.

(** ** Vocabulary of the properties *)

(** How many of the chunks have file type [t]. *)
Definition chunks_of_type (t : string) (chunks : list Chunk) : Z :=
  Z.of_nat (length (List.filter (λ c, String.eqb (file_type c) t) chunks)).

(** The chunks of a sequence of batches, in the order they are stored. *)
Definition all_chunks (batches : list (list Chunk * list ndarray * string))
    : list Chunk :=
  concat ((λ b, b.1.1) <$> batches).

(** A batch as the contract wants it: not empty, one embedding per chunk. *)
Definition aligned (b : list Chunk * list ndarray * string) : Prop :=
  b.1.1 ≠ [] ∧ length b.1.1 = length b.1.2.

(** The breakdown the statistics owe for the chunks stored: each type
    with its count, zero counts left out. *)
Definition breakdown (chunks : list Chunk) (t : string) : option Z :=
  if (0 <? chunks_of_type t chunks)%Z then Some (chunks_of_type t chunks)
  else None.

(** The key and the hash [store_embeddings] writes for the pair at a
    position. *)
Definition written (self : Redis.Store) (document_name created_at : string)
    (item : nat * (Chunk * ndarray)) : string * Redis.Hash :=
  (Redis.doc_id self document_name item.1 item.2.1,
   Redis.doc_data document_name created_at item.2.1 item.2.2).

Definition write_all (kvs : list (string * Redis.Hash))
    (m : gmap string Redis.Hash) : gmap string Redis.Hash :=
  foldl (λ m kv, <[kv.1 := kv.2]> m) m kvs.

(** Everything the batches write, in order. *)
Definition all_written (self : Redis.Store) (created_at : string)
    (batches : list (list Chunk * list ndarray * string))
    : list (string * Redis.Hash) :=
  concat ((λ b, written self b.2 created_at <$> enumerate (zip b.1.1 b.1.2))
            <$> batches).

(** The hashes a search of the store's index looks at: those the index
    covers that carry the tag asked for. *)
Definition redis_hits (self : Redis.Store) (file_type_filter : option string)
    (w : Redis.World) : list (string * Redis.Hash) :=
  match Redis.indexes w !! Redis.index_name self with
  | Some ix =>
      List.filter (Redis.has_tag (if truthy_str file_type_filter
                                  then file_type_filter else None))
                  (Redis.indexed ix (Redis.hashes w))
  | None => []
  end.


(** The page the engine answers a KNN query with, when it answers. *)
Definition redis_page (self : Redis.Store) (q : ndarray) (top_k : Z)
    (file_type_filter : option string) (w : Redis.World) : list Redis.ReplyDoc :=
  let scored :=
    Redis.score_hash (Redis.knn_distance w) (astype_float32 <$> q)
      <$> redis_hits self file_type_filter w in
  take (Z.to_nat top_k)
       (stable_sort Redis.by_score
          (take (Z.to_nat top_k) (stable_sort Redis.by_score scored))).


(** The breakdown a loop over [types] builds from the counts [cnt]. *)
Definition tally (cnt : string → Z) (types : list string) (m : gmap string Z)
    : gmap string Z :=
  foldl (λ m t, if (0 <? cnt t)%Z then <[t := cnt t]> m else m) m types.

(** The file types of the documents of the collection. *)
Definition mongo_types (w : Mongo.World) : list string :=
  (λ d, Mongo.doc_file_type d.2) <$> Mongo.collection w.

Definition count_in (types : list string) (t : string) : Z :=
  Z.of_nat (length (List.filter (λ ft, String.eqb ft t) types)).

(** What a tag query counts. *)
Definition redis_count (ix : Redis.IndexDescriptor) (hs : gmap string Redis.Hash)
    (t : string) : Z :=
  Z.of_nat (length (List.filter (Redis.has_tag (Some t)) (Redis.indexed ix hs))).

(** Strings without a colon, as the decimal numerals are. *)
Fixpoint colon_free (s : string) : bool :=
  match s with
  | EmptyString => true
  | String c s' => negb (Ascii.eqb c ":"%char) && colon_free s'
  end.

(** What an insertion of the stable sort establishes between neighbours. *)
Definition placed {A} (lt : A → A → bool) (a b : A) : Prop :=
  lt a b = true ∨ lt b a = false.

(** Ascending and descending order of float keys. *)
Definition ascending {A} (key : A → float) (a b : A) : Prop :=
  PrimFloat.leb (key a) (key b) = true.
Definition descending {A} (key : A → float) (a b : A) : Prop :=
  PrimFloat.leb (key b) (key a) = true.


(** The part of the Redis world only [HSET] and [FT.CREATE] change. *)
Definition same_data (w w' : Redis.World) : Prop :=
  Redis.hashes w' = Redis.hashes w ∧ Redis.indexes w' = Redis.indexes w
  ∧ Redis.knn_distance w' = Redis.knn_distance w ∧ Redis.clock w' = Redis.clock w.

(** The page of a chunk, [0] standing for none, and the order in which
    an extractor emits chunks: by page, then by paragraph. *)
Definition page_of (c : Chunk) : Z := default 0%Z (page_number c).

Definition precedes (a b : Chunk) : Prop :=
  (page_of a < page_of b)%Z
  ∨ (page_of a = page_of b ∧ (chunk_index a < chunk_index b)%Z).


(** Names without a slash, as the entries of a directory are. *)
Fixpoint no_slash (s : string) : bool :=
  match s with
  | EmptyString => true
  | String c s' => negb (Ascii.eqb c "/") && no_slash s'
  end.

(** The extensions [extract_text] has an extractor for. *)
Definition extractable : list string := [".pdf"; ".txt"; ".docx"; ".doc"].

(** The keys [getConfigs] reads for target [1] and for target [3]. *)
Definition mongo_keys : list string :=
  ["MONGO_HOST"; "MONGO_PORT"; "MONGO_DIRECT"; "MONGO_ROOT"; "MONGO_USERNAME";
   "MONGO_PASSWORD"; "MONGO_DATASTORE"; "MONGO_COLLECTION"].

Definition redis_str_keys : list string :=
  ["REDIS_HOST"; "REDIS_PASSWORD"; "REDIS_INDEX_NAME"; "REDIS_DOC_PREFIX"].

Definition redis_int_keys : list string := ["REDIS_PORT"; "REDIS_DB"].

Definition redis_ssl_keys : list string :=
  ["REDIS_SSL_CERT"; "REDIS_SSL_KEY"; "REDIS_SSL_CA"].

(** The configuration keys [echo_config] reads, and the environment
    variables none of its messages is made of. *)
Definition echoed_keys : list string :=
  ["ECHOCONFIG"; "CONSOLE_DEBUGLEVEL"; "FILE_DEBUGLEVEL"; "LOGDIR"; "LOGGINGFILE";
   "EMBEDDING_DIM"; "TARGETS"; "MONGO_ROOT"; "MONGO_HOST"; "MONGO_PORT";
   "MONGO_DIRECT"; "MONGO_DATASTORE"; "REDIS_HOST"; "REDIS_PORT"; "REDIS_DB";
   "REDIS_INDEX_NAME"; "REDIS_DOC_PREFIX"; "REDIS_SSL"; "REDIS_SSL_CERT";
   "REDIS_SSL_KEY"; "REDIS_SSL_CA"].

Definition not_echoed : list string :=
  ["ECHORECORDS"; "SOURCEDIR"; "VECTOR_STORE"; "MONGO_USERNAME"; "MONGO_PASSWORD";
   "MONGO_COLLECTION"; "REDIS_PASSWORD"].

(** ** Sample data *)

Definition sample_config : Config :=
  mkConfig 384 "mongodb" "localhost" 27017 "" "" "directConnection=true"
           "vectors" "chunks" "localhost" 6379 0 "doc_index" "doc:".

(** The same deployment with vectors of two components. *)
Definition small_config : Config :=
  mkConfig 2 "mongodb" "localhost" 27017 "" "" "directConnection=true"
           "vectors" "chunks" "localhost" 6379 0 "doc_index" "doc:".

Definition sample_chunk (t : string) (i : Z) : Chunk :=
  mkChunk "lorem ipsum" None i "docs/a.txt" t.

Definition sample_clock : string := "2025-10-20 10:00:00.000000".

Definition empty_mongo : Mongo.World := Mongo.mkWorld [] 0 [] [] sample_clock.

(** An engine whose distance is one minus the cosine. *)
Definition cosine_distance (q v : list float) : float :=
  PrimFloat.sub 1%float (cosine_similarity q v).

Definition empty_redis : Redis.World :=
  Redis.mkWorld ∅ ∅ cosine_distance [] [] [] sample_clock.

Definition sample_store : Redis.Store :=
  Redis.mkStore sample_config 384 "doc_index" "doc:" true.

Definition small_store : Redis.Store :=
  Redis.mkStore small_config 2 "doc_index" "doc:" true.

(** The world a computation leaves. *)
Definition after {W A} (m : M W A) (w : W) : W := (m w).2.

Definition three_chunks : list Chunk :=
  [sample_chunk "txt" 0; sample_chunk "txt" 1; sample_chunk "pdf" 2].

(** Three vectors of two components, none of norm zero. *)
Definition three_vectors : list ndarray :=
  [[1%float; 0%float]; [1%float; 1%float]; [0%float; 1%float]].


Definition mongo_three : Mongo.World :=
  after (Mongo.store_embeddings three_chunks three_vectors "a.txt") empty_mongo.


(** A server that stops answering. *)
Definition mongo_down : Mongo.World :=
  Mongo.mkWorld (Mongo.collection mongo_three) (Mongo.next_id mongo_three)
    [Some (mkExn PyMongo_ServerSelectionTimeoutError "No servers found yet")]
    [] sample_clock.

Definition redis_ready : Redis.World := after (Redis.__init__ small_config) empty_redis.

Definition redis_three : Redis.World :=
  after (Redis.store_embeddings small_store three_chunks three_vectors "a.txt")
        redis_ready.

(** The index server with the three hashes, when it stops answering. *)
Definition redis_down : Redis.World :=
  Redis.mkWorld (Redis.hashes redis_three) (Redis.indexes redis_three)
    cosine_distance [Some (mkExn Redis_TimeoutError "Timeout reading from socket")]
    [] [] sample_clock.

(** The index server in place, answering [PING] and then failing the
    probe of the index. *)
Definition redis_probe_fails : Redis.World :=
  Redis.mkWorld (Redis.hashes redis_ready) (Redis.indexes redis_ready)
    cosine_distance
    [None; Some (mkExn Redis_TimeoutError "Timeout reading from socket")]
    [] [] sample_clock.

(** A host that drops the packets, and one that refuses the connection. *)
Definition redis_unreachable : Redis.World :=
  Redis.mkWorld ∅ ∅ cosine_distance
    [Some (mkExn Redis_TimeoutError "Timeout connecting to server")]
    [] [] sample_clock.

Definition redis_refusing : Redis.World :=
  Redis.mkWorld ∅ ∅ cosine_distance
    [Some (mkExn Redis_ConnectionError "Connection refused")]
    [] [] sample_clock.

Definition two_batches : list (list Chunk * list ndarray * string) :=
  [([sample_chunk "txt" 0; sample_chunk "txt" 1],
    [[1%float; 0%float]; [0%float; 1%float]], "a.txt");
   ([sample_chunk "pdf" 0], [[1%float; 1%float]], "b.pdf")].

(** One document stored twice under its name. *)
Definition same_batch_twice : list (list Chunk * list ndarray * string) :=
  [([sample_chunk "txt" 0], [[1%float; 0%float]], "a.txt");
   ([sample_chunk "txt" 0], [[1%float; 0%float]], "a.txt")].

(** Servers that answer twice and then fail. *)
Definition mongo_interrupted : Mongo.World :=
  Mongo.mkWorld (Mongo.collection mongo_three) (Mongo.next_id mongo_three)
    [None; None; Some (mkExn PyMongo_OperationFailure "operation was interrupted")]
    [] sample_clock.

Definition redis_interrupted : Redis.World :=
  Redis.mkWorld (Redis.hashes redis_three) (Redis.indexes redis_three)
    cosine_distance
    [None; None; Some (mkExn Redis_TimeoutError "Timeout reading from socket")]
    [] [] sample_clock.

(** The index server in place, failing the second command it gets. *)
Definition redis_failing_second : Redis.World :=
  Redis.mkWorld (Redis.hashes redis_ready) (Redis.indexes redis_ready)
    cosine_distance
    [None; Some (mkExn Redis_ConnectionError "Connection reset by peer")]
    [] [] sample_clock.

(** Chunks with the page numbers [3], [0] and none. *)
Definition paged_chunks : list Chunk :=
  [mkChunk "alpha" (Some 3%Z) 0 "docs/b.pdf" "pdf";
   mkChunk "beta" (Some 0%Z) 1 "docs/b.pdf" "pdf";
   mkChunk "gamma" None 2 "docs/b.pdf" "pdf"].

(** A directory with a text file, a PDF file of three pages (the second
    without text), a Word file, a file of blanks and a file of another
    type; a model that encodes every text as the same vector. *)
Definition sample_text : string :=
  "First paragraph." +:+ blank_line +:+ "   " +:+ blank_line +:+ " Second one. ".

Definition sample_pages : list string :=
  ["Page one." +:+ blank_line +:+ "More on page one."; ""; "Page three."].

Definition sample_encoder : Main.Encoder :=
  λ texts, Main.mkArray ((λ _, [1%float; 0%float]) <$> texts) 2.

Definition sample_files : list string :=
  ["docs/a.txt"; "docs/b.pdf"; "docs/c.docx"; "docs/blank.txt"; "docs/notes.md"].

Definition sample_names : list string :=
  ["b.pdf"; "notes.md"; "a.txt"; "c.docx"; "blank.txt"; "old"].

Definition sample_env : Main.Env :=
  Main.mkEnv
    (λ p, bool_decide (p ∈ "docs" :: "docs/old" :: sample_files))
    (λ p, bool_decide (p ∈ ["docs"; "docs/old"]))
    (λ p, bool_decide (p ∈ sample_files))
    (λ p, if String.eqb p "docs" then Return sample_names
          else Throw (LibraryError "Not a directory"))
    (λ p, if String.eqb p "docs"
          then [("docs", ["old"], ["b.pdf"; "notes.md"; "a.txt"; "c.docx"; "blank.txt"]);
                ("docs/old", [], ["z.PDF"])]
          else [])
    (λ _, None)
    (λ p, if String.eqb p "docs/a.txt" then Return sample_text
          else if String.eqb p "docs/blank.txt" then Return "  "
          else Throw (LibraryError "cannot decode"))
    (λ p, if String.eqb p "docs/b.pdf" then Return sample_pages
          else Throw (LibraryError "EOF marker not found"))
    (λ p, if String.eqb p "docs/c.docx" then Return ["Heading"; ""; "Body text."]
          else Throw (LibraryError "Package not found"))
    (λ _, Return sample_encoder).

Definition sample_world : Main.World := Main.mkWorld empty_mongo redis_ready [].

Definition mongo_settings : Main.Settings := Main.mkSettings small_config (Some "MongoDB").

(** The vectorizer [__init__] returns for these settings, and one whose
    constructor failed. *)
Definition sample_vectorizer : Main.DocumentVectorizer :=
  Main.mkDocumentVectorizer mongo_settings (Some sample_encoder) (Some "MongoDB")
    (Some (Main.MongoVectorStore (Mongo.mkStore small_config 2 true))).

Definition broken_vectorizer : Main.DocumentVectorizer :=
  Main.mkDocumentVectorizer mongo_settings (Some sample_encoder) (Some "MongoDB") None.

(** An environment for the exact scan only. *)
Definition sample_environ : gmap string string :=
  list_to_map
    [("ECHOCONFIG", "1"); ("ECHORECORDS", "0"); ("CONSOLE_DEBUGLEVEL", "20");
     ("FILE_DEBUGLEVEL", "10"); ("SOURCEDIR", "docs"); ("LOGDIR", "logs");
     ("VECTOR_STORE", "mongodb"); ("EMBEDDING_DIM", "384"); ("TARGETS", "1");
     ("MONGO_HOST", "localhost"); ("MONGO_PORT", "27017");
     ("MONGO_DIRECT", "directConnection=true"); ("MONGO_ROOT", "mongodb");
     ("MONGO_USERNAME", ""); ("MONGO_PASSWORD", ""); ("MONGO_DATASTORE", "vectors");
     ("MONGO_COLLECTION", "chunks")].

Definition sample_now : string := "2025-10-20_10:00:00".

(** An environment for both stores, and the same with other
    credentials. *)
Definition both_environ : gmap string string :=
  list_to_map
    [("REDIS_HOST", "localhost"); ("REDIS_PORT", "6379"); ("REDIS_DB", "0");
     ("REDIS_PASSWORD", "secret"); ("REDIS_INDEX_NAME", "doc_index");
     ("REDIS_DOC_PREFIX", "doc:"); ("REDIS_SSL", "0")]
  ∪ <["TARGETS" := "1,3"]> (<["MONGO_PASSWORD" := "secret"]> sample_environ).

Definition other_credentials : gmap string string :=
  <["MONGO_USERNAME" := "admin"]>
    (<["MONGO_PASSWORD" := "hunter2"]> (<["REDIS_PASSWORD" := "hunter3"]> both_environ)).

(** * Properties *)

(** ** The order of binary64 numbers *)

Ltac cmp_cases :=
  repeat match goal with
  | |- context [Z.compare ?a ?b] => destruct (Z.compare_spec a b); subst
  | H : context [Z.compare ?a ?b] |- _ => destruct (Z.compare_spec a b); subst
  | |- context [Pos.compare ?a ?b] => destruct (Pos.compare_spec a b); subst
  | H : context [Pos.compare ?a ?b] |- _ => destruct (Pos.compare_spec a b); subst
  end.

Lemma SFleb_trans x y z : SFleb x y = true → SFleb y z = true → SFleb x z = true.
Proof.
  unfold SFleb, SFcompare.
  destruct x as [sx|sx| |sx mx ex], y as [sy|sy| |sy my ey], z as [sz|sz| |sz mz ez];
    try destruct sx; try destruct sy; try destruct sz; simpl; try done;
    change (Pos.compare_cont Eq) with Pos.compare in *;
    cmp_cases; simpl; try done; try lia.
Qed.




Lemma float_leb_trans x y z :
  PrimFloat.leb x y = true → PrimFloat.leb y z = true → PrimFloat.leb x z = true.
Proof. rewrite !FloatAxioms.leb_spec. apply SFleb_trans. Qed.



(** ** Sorting *)

Section sorting.
Context {A : Type} (lt : A → A → bool).

Lemma insert_by_Permutation x l : insert_by lt x l ≡ₚ x :: l.
Proof.
  induction l as [|y l IH]; simpl; [done|].
  destruct (lt y x); [|done]. rewrite IH. apply Permutation_swap.
Qed.

Lemma stable_sort_Permutation l : stable_sort lt l ≡ₚ l.
Proof.
  induction l as [|x l IH]; simpl; [done|].
  unfold stable_sort in *. simpl. by rewrite insert_by_Permutation, IH.
Qed.

Lemma HdRel_insert_by a x l :
  placed lt a x → HdRel (placed lt) a l → HdRel (placed lt) a (insert_by lt x l).
Proof.
  intros Hax Hal. destruct l as [|y l]; simpl; [by constructor|].
  destruct (lt y x); constructor; [by inversion Hal|done].
Qed.

Lemma Sorted_insert_by x l : Sorted (placed lt) l → Sorted (placed lt) (insert_by lt x l).
Proof.
  induction 1 as [|y l Hl IH Hy]; simpl; [by repeat constructor|].
  destruct (lt y x) eqn:Hyx.
  - constructor; [done|]. apply HdRel_insert_by; [by left|done].
  - constructor; [by constructor|]. constructor. by right.
Qed.

Lemma Sorted_stable_sort l : Sorted (placed lt) (stable_sort lt l).
Proof.
  induction l as [|x l IH]; [constructor|]. by apply Sorted_insert_by.
Qed.
End sorting.

Lemma Sorted_weaken {A} (R R' : relation A) (P : A → Prop) l :
  (∀ a b, P a → P b → R a b → R' a b) →
  Forall P l → Sorted R l → Sorted R' l.
Proof.
  intros HR HP Hs. induction Hs as [|x l Hl IH Hx]; [constructor|].
  inversion HP as [|? ? Hpx HPl]; subst.
  constructor; [by apply IH|].
  destruct Hx as [|y l' Hxy]; constructor.
  inversion HPl; subst. by apply HR.
Qed.

Global Instance ascending_trans {A} (key : A → float) : Transitive (ascending key).
Proof. intros a b c. unfold ascending. apply float_leb_trans. Qed.

Global Instance descending_trans {A} (key : A → float) : Transitive (descending key).
Proof. intros a b c ??. unfold descending in *. by eapply float_leb_trans. Qed.


Lemma list_sort_Permutation {A} (key : A → float) r (l : list A) :
  list_sort key r l ≡ₚ l.
Proof.
  unfold list_sort, reversed. destruct r.
  - by rewrite reverse_Permutation, stable_sort_Permutation, reverse_Permutation.
  - apply stable_sort_Permutation.
Qed.





(** ** Computations *)

Ltac unfold_M := unfold bind, ret, raise, try_except, lift in *.

Lemma for_each_lift_Ok {W A B} (f : A → outcome B) (g : A → B) (l : list A) (w : W) :
  Forall (λ a, f a = Ok (g a)) l →
  for_each (λ a, lift (f a)) l w = (Ok (g <$> l), w).
Proof.
  induction 1 as [|a l Ha Hl IH]; [done|].
  simpl. unfold_M. by rewrite Ha, IH.
Qed.

Lemma for_each_lift_Raise {W A B} (f : A → outcome B) (l : list A) (w : W) e :
  Exists (λ a, is_ok (f a) = false) l →
  (∀ a, is_ok (f a) = false → f a = Raise e) →
  for_each (λ a, lift (f a)) l w = (Raise e, w).
Proof.
  intros Hex He. induction l as [|a l IH]; [by inversion Hex|].
  simpl. unfold_M. destruct (f a) as [b|e'] eqn:Hfa.
  - rewrite IH; [done|]. inversion Hex as [? ? Hbad|]; subst; [|done].
    by rewrite Hfa in Hbad.
  - rewrite He in Hfa by (by rewrite Hfa). by simplify_eq.
Qed.

(** ** The exact-scan backend *)

Lemma mongo_server_call_healthy {A} (exec : M Mongo.World A) w :
  Mongo.faults w = [] → Mongo.server_call exec w = exec w.
Proof. intros Hw. unfold Mongo.server_call. by rewrite Hw. Qed.

Lemma mongo_server_call_fault {A} (exec : M Mongo.World A) w e fs :
  Mongo.faults w = Some e :: fs →
  Mongo.server_call exec w = (Raise e, Mongo.with_faults fs w).
Proof. intros Hw. unfold Mongo.server_call. by rewrite Hw. Qed.

Lemma mongo_score_doc_Ok q doc :
  length (Mongo.doc_embedding doc.2) = length q →
  Mongo.score_doc q doc = Ok (Mongo.scored q doc).
Proof.
  intros Hlen. unfold Mongo.score_doc, np_dot.
  by rewrite decide_True by (by symmetry).
Qed.

Lemma mongo_score_doc_Raise q doc :
  is_ok (Mongo.score_doc q doc) = false →
  Mongo.score_doc q doc = Raise (mkExn ValueError "shapes not aligned").
Proof.
  unfold Mongo.score_doc, np_dot. by case_decide.
Qed.

Lemma mongo_score_doc_mismatch q doc :
  length (Mongo.doc_embedding doc.2) ≠ length q →
  is_ok (Mongo.score_doc q doc) = false.
Proof.
  intros Hlen. unfold Mongo.score_doc, np_dot.
  by rewrite decide_False by (intros E; by apply Hlen).
Qed.

(** The search of a healthy server whose candidates have the length of
    the query. *)
Lemma mongo_search_healthy q top_k f w :
  Mongo.faults w = [] →
  Forall (λ d, length (Mongo.doc_embedding d.2) = length q) (Mongo.candidates f w) →
  Mongo.similarity_search q top_k f w =
    (Ok (slice_to (list_sort similarity_score true
                     (Mongo.scored q <$> Mongo.candidates f w)) top_k), w).
Proof.
  intros Hw Hlen. unfold Mongo.similarity_search, Mongo.find.
  unfold bind at 1. rewrite mongo_server_call_healthy by done.
  change (List.filter _ (Mongo.collection w)) with (Mongo.candidates f w).
  destruct (Mongo.candidates f w) as [|d ds] eqn:Hc.
  { unfold slice_to, list_sort, reversed, ret. simpl.
    by destruct (0 <=? top_k)%Z; rewrite ?reverse_nil, ?take_nil. }
  unfold bind. rewrite (for_each_lift_Ok _ (Mongo.scored q)); [done|].
  eapply Forall_impl; [exact Hlen|]. intros d'. apply mongo_score_doc_Ok.
Qed.

Lemma mongo_insert_many_healthy docs w :
  Mongo.faults w = [] → docs ≠ [] →
  Mongo.insert_many docs w =
    (Ok (Mongo.fresh_ids w (length docs)),
     Mongo.mkWorld (Mongo.collection w ++ zip (Mongo.fresh_ids w (length docs)) docs)
                   (Mongo.next_id w + N.of_nat (length docs))%N
                   [] (Mongo.log w) (Mongo.clock w)).
Proof.
  intros Hw Hd. unfold Mongo.insert_many. destruct docs as [|d docs]; [done|].
  rewrite mongo_server_call_healthy by done. by rewrite Hw.
Qed.

Lemma mongo_fresh_ids_length w n : length (Mongo.fresh_ids w n) = n.
Proof. unfold Mongo.fresh_ids. by rewrite length_fmap, length_seq. Qed.

(** A store on a healthy server appends one document per pair. *)
Lemma mongo_store_healthy chunks embeddings name w :
  Mongo.faults w = [] → zip chunks embeddings ≠ [] →
  let docs := Mongo.make_doc name (Mongo.clock w) <$> zip chunks embeddings in
  let ids := Mongo.fresh_ids w (length docs) in
  Mongo.store_embeddings chunks embeddings name w =
    (Ok (pretty <$> ids),
     Mongo.mkWorld (Mongo.collection w ++ zip ids docs)
                   (Mongo.next_id w + N.of_nat (length docs))%N
                   [] (Mongo.log w) (Mongo.clock w)).
Proof.
  intros Hw Hz docs ids. unfold Mongo.store_embeddings, Mongo.now.
  unfold bind at 1. unfold bind.
  rewrite mongo_insert_many_healthy; [done|done|].
  intros Hnil. by apply fmap_nil_inv in Hnil.
Qed.

(** A store of no pair is refused by the driver. *)
Lemma mongo_store_empty chunks embeddings name w :
  zip chunks embeddings = [] →
  Mongo.store_embeddings chunks embeddings name w =
    (Raise (mkExn TypeError "documents must be a non-empty list"), w).
Proof.
  intros Hz. unfold Mongo.store_embeddings, Mongo.now, bind. by rewrite Hz.
Qed.

Lemma zip_nil_inv {A B} (l : list A) (k : list B) :
  zip l k = [] ↔ l = [] ∨ k = [].
Proof. destruct l, k; simpl; split; (done || auto || by intros [|]). Qed.

(** ** Keys of the ANN-index backend *)

Lemma string_app_cons c (a b : string) : String c a +:+ b = String c (a +:+ b).
Proof. done. Qed.

Lemma string_app_nil (b : string) : "" +:+ b = b.
Proof. done. Qed.

Lemma colon_free_app_colon a d : colon_free (a +:+ String ":" d) = false.
Proof.
  induction a as [|c a IH]; [done|].
  rewrite string_app_cons. simpl. rewrite IH. apply andb_false_r.
Qed.

Lemma app_colon_inj a b d1 d2 :
  colon_free d1 = true → colon_free d2 = true →
  a +:+ String ":" d1 = b +:+ String ":" d2 → a = b ∧ d1 = d2.
Proof.
  intros H1 H2. revert b. induction a as [|x a IH]; intros [|y b] Heq;
    rewrite ?string_app_cons, ?string_app_nil in Heq.
  - by simplify_eq.
  - simplify_eq. by rewrite colon_free_app_colon in H1.
  - simplify_eq. by rewrite colon_free_app_colon in H2.
  - simplify_eq. destruct (IH b) as [-> ->]; done.
Qed.

Lemma colon_free_pretty_N_go x s :
  colon_free s = true → colon_free (pretty_N_go x s) = true.
Proof.
  revert s. induction (N.lt_wf_0 x) as [x _ IH]; intros s Hs.
  assert (x = 0 ∨ 0 < x)%N as [->|?] by lia.
  - by rewrite pretty_N_go_0.
  - rewrite pretty_N_go_step by done. apply IH.
    { by apply N.div_lt. }
    simpl. rewrite Hs. unfold pretty_N_char. by repeat case_match.
Qed.

Lemma colon_free_pretty_N (x : N) : colon_free (pretty x) = true.
Proof.
  unfold pretty, pretty_N. case_decide; [done|].
  by apply colon_free_pretty_N_go.
Qed.

Lemma colon_free_pretty_nat (n : nat) : colon_free (pretty n) = true.
Proof. apply colon_free_pretty_N. Qed.

Lemma colon_free_pretty_Z (z : Z) : colon_free (pretty z) = true.
Proof.
  unfold pretty, pretty_Z. destruct z as [|p|p]; [done| |].
  - apply (colon_free_pretty_N (N.pos p)).
  - simpl. apply (colon_free_pretty_N (N.pos p)).
Qed.

Lemma string_app_assoc (a b c : string) : (a +:+ b) +:+ c = a +:+ b +:+ c.
Proof.
  induction a as [|x a IH]; [done|]. rewrite !string_app_cons. by f_equal.
Qed.

(** The key determines the document name, the chunk index and the
    position. *)
Lemma doc_id_inj self n1 n2 i1 i2 c1 c2 :
  Redis.doc_id self n1 i1 c1 = Redis.doc_id self n2 i2 c2 →
  n1 = n2 ∧ chunk_index c1 = chunk_index c2 ∧ i1 = i2.
Proof.
  unfold Redis.doc_id. intros Heq.
  apply (inj (String.app _)) in Heq.
  rewrite !string_app_cons, !string_app_nil in Heq.
  assert (∀ (n : string) (ci : Z) (i : nat), n +:+ String ":" (pretty ci +:+ String ":" (pretty i))
            = (n +:+ String ":" (pretty ci)) +:+ String ":" (pretty i)) as Hassoc.
  { intros n ci i. by rewrite (string_app_assoc n (String ":" _)). }
  rewrite !Hassoc in Heq.
  apply app_colon_inj in Heq as [Heq Hi]; [|apply colon_free_pretty_nat..].
  apply app_colon_inj in Heq as [Hn Hc]; [|apply colon_free_pretty_Z..].
  split_and!; [done|by apply (inj pretty)|by apply (inj pretty)].
Qed.

(** ** The ANN-index backend *)

Lemma redis_server_call_healthy {A} cmd (exec : M Redis.World A) w :
  Redis.faults w = [] → Redis.server_call cmd exec w = exec (Redis.sent cmd [] w).
Proof. intros Hw. unfold Redis.server_call. by rewrite Hw. Qed.

Lemma redis_server_call_fault {A} cmd (exec : M Redis.World A) w e fs :
  Redis.faults w = Some e :: fs →
  Redis.server_call cmd exec w = (Raise e, Redis.sent cmd fs w).
Proof. intros Hw. unfold Redis.server_call. by rewrite Hw. Qed.

Lemma redis_store_pair_healthy self name item w :
  Redis.faults w = [] →
  Redis.store_pair self name item w =
    (Ok (written self name (Redis.clock w) item).1,
     Redis.mkWorld (write_all [written self name (Redis.clock w) item] (Redis.hashes w))
                   (Redis.indexes w) (Redis.knn_distance w) []
                   (Redis.trace w ++ [Redis.HSET (written self name (Redis.clock w) item).1])
                   (Redis.log w) (Redis.clock w)).
Proof.
  intros Hw. destruct item as [i [chunk embedding]].
  unfold Redis.store_pair, Redis.now, Redis.hset, bind, ret.
  by rewrite redis_server_call_healthy.
Qed.

Lemma redis_for_each_store_pair self name items w :
  Redis.faults w = [] →
  let kvs := written self name (Redis.clock w) <$> items in
  for_each (Redis.store_pair self name) items w =
    (Ok (kvs.*1),
     Redis.mkWorld (write_all kvs (Redis.hashes w))
                   (Redis.indexes w) (Redis.knn_distance w) []
                   (Redis.trace w ++ (Redis.HSET <$> kvs.*1))
                   (Redis.log w) (Redis.clock w)).
Proof.
  revert w. induction items as [|item items IH]; intros w Hw; simpl.
  { unfold ret. rewrite app_nil_r. destruct w; simpl in *; by subst. }
  unfold bind at 1. rewrite redis_store_pair_healthy by done.
  unfold bind at 1. rewrite IH by done. unfold ret. simpl.
  by rewrite <-app_assoc.
Qed.

(** A store on a healthy server writes one hash per pair. *)
Lemma redis_store_healthy self chunks embeddings name w :
  Redis.faults w = [] →
  let kvs := written self name (Redis.clock w) <$> enumerate (zip chunks embeddings) in
  Redis.store_embeddings self chunks embeddings name w =
    (Ok (kvs.*1),
     Redis.mkWorld (write_all kvs (Redis.hashes w))
                   (Redis.indexes w) (Redis.knn_distance w) []
                   (Redis.trace w ++ (Redis.HSET <$> kvs.*1))
                   (Redis.log w) (Redis.clock w)).
Proof. intros Hw. by apply redis_for_each_store_pair. Qed.

Lemma enumerate_lookup {A} (l : list A) i x :
  l !! i = Some x → enumerate l !! i = Some (i, x).
Proof.
  intros Hl. unfold enumerate. apply lookup_zip_with_Some.
  exists i, x. split_and!; [done| |done].
  apply lookup_seq. split; [done|]. by eapply lookup_lt_Some.
Qed.

Lemma enumerate_length {A} (l : list A) : length (enumerate l) = length l.
Proof. unfold enumerate. rewrite length_zip, length_seq. lia. Qed.

Lemma enumerate_fst {A} (l : list A) : (enumerate l).*1 = seq 0 (length l).
Proof. unfold enumerate. apply fst_zip. by rewrite length_seq. Qed.

(** The keys of one batch are pairwise different. *)
Lemma written_keys_NoDup self name created (pairs : list (Chunk * ndarray)) :
  NoDup ((written self name created <$> enumerate pairs).*1).
Proof.
  rewrite <-list_fmap_compose.
  apply NoDup_fmap_2_strong;
    [|apply (NoDup_fmap_1 fst); rewrite enumerate_fst; apply NoDup_seq].
  intros [i [c e]] [j [c' e']] Hi Hj Hkey. simpl in Hkey.
  apply doc_id_inj in Hkey as (_ & _ & ->).
  unfold enumerate in Hi, Hj.
  apply list_elem_of_lookup in Hi as [n Hn], Hj as [m Hm].
  apply lookup_zip_with_Some in Hn as (? & ? & ? & Hn1 & Hn2).
  apply lookup_zip_with_Some in Hm as (? & ? & ? & Hm1 & Hm2).
  simplify_eq. apply lookup_seq in Hn1 as [-> _], Hm1 as [Heq _].
  simpl in *. subst. by simplify_eq.
Qed.

Lemma write_all_lookup_notin kvs (m : gmap string Redis.Hash) k :
  k ∉ kvs.*1 → write_all kvs m !! k = m !! k.
Proof.
  revert m. induction kvs as [|[k' v'] kvs IH]; intros m Hk; [done|].
  simpl in *. apply not_elem_of_cons in Hk as [Hne Hk].
  unfold write_all in *. simpl. rewrite IH by done.
  by rewrite lookup_insert_ne.
Qed.

Lemma write_all_lookup_elem kvs (m : gmap string Redis.Hash) k v :
  NoDup kvs.*1 → (k, v) ∈ kvs → write_all kvs m !! k = Some v.
Proof.
  revert m. induction kvs as [|[k' v'] kvs IH]; intros m Hnd Hin.
  { by apply elem_of_nil in Hin. }
  simpl in Hnd. apply NoDup_cons in Hnd as [Hk' Hnd].
  apply elem_of_cons in Hin as [Heq|Hin].
  - simplify_eq. change (write_all ((k', v') :: kvs) m) with (write_all kvs (<[k' := v']> m)).
    rewrite write_all_lookup_notin by done. apply lookup_insert_eq.
  - change (write_all ((k', v') :: kvs) m) with (write_all kvs (<[k' := v']> m)).
    by apply IH.
Qed.

(** Where the pairs of a batch end up. *)
Lemma mongo_stored_lookup pairs name w i pair :
  pairs !! i = Some pair →
  let docs := Mongo.make_doc name (Mongo.clock w) <$> pairs in
  let ids := Mongo.fresh_ids w (length docs) in
  (pretty <$> ids) !! i = Some (pretty (Mongo.next_id w + N.of_nat i)%N)
  ∧ (Mongo.collection w ++ zip ids docs) !! (length (Mongo.collection w) + i)
    = Some ((Mongo.next_id w + N.of_nat i)%N, Mongo.make_doc name (Mongo.clock w) pair).
Proof.
  intros Hp docs ids.
  assert (ids !! i = Some (Mongo.next_id w + N.of_nat i)%N) as Hid.
  { unfold ids, Mongo.fresh_ids, docs.
    rewrite list_lookup_fmap, lookup_seq_lt; [done|].
    rewrite length_fmap. by eapply lookup_lt_Some. }
  split.
  - by rewrite list_lookup_fmap, Hid.
  - rewrite lookup_app_r by lia.
    replace (length (Mongo.collection w) + i - length (Mongo.collection w)) with i by lia.
    apply lookup_zip_with_Some. eexists _, _. split_and!; [done|done|].
    unfold docs. by rewrite list_lookup_fmap, Hp.
Qed.

Lemma redis_written_lookup self name created pairs (m : gmap string Redis.Hash) i c e :
  pairs !! i = Some (c, e) →
  let kvs := written self name created <$> enumerate pairs in
  kvs.*1 !! i = Some (Redis.doc_id self name i c)
  ∧ write_all kvs m !! Redis.doc_id self name i c
    = Some (Redis.doc_data name created c e).
Proof.
  intros Hp kvs. pose proof (enumerate_lookup _ _ _ Hp) as Hen. split.
  - unfold kvs. by rewrite !list_lookup_fmap, Hen.
  - apply write_all_lookup_elem; [apply written_keys_NoDup|].
    apply list_elem_of_lookup. exists i. unfold kvs.
    by rewrite list_lookup_fmap, Hen.
Qed.

Lemma zip_lookup_Some {A B} (l : list A) (k : list B) i a b :
  zip l k !! i = Some (a, b) ↔ l !! i = Some a ∧ k !! i = Some b.
Proof.
  split.
  - intros (a' & b' & ? & ? & ?)%lookup_zip_with_Some. by simplify_eq.
  - intros [??]. apply lookup_zip_with_Some. by exists a, b.
Qed.

Lemma zip_length_min {A B} (l : list A) (k : list B) :
  length (zip l k) = length l `min` length k.
Proof. apply length_zip_with. Qed.

(** ** Claims *)

(** C4. For non-empty [chunks] and [embeddings] of equal length, on a
    server that answers, [store_embeddings] stores one record per aligned
    pair and returns one identifier per pair in the order of the input.
    Exact scan: the collection grows by exactly the documents of the
    pairs, in order, and the i-th identifier is the [_id] of the i-th of
    them.  ANN index: the identifiers are pairwise different keys, the
    i-th key holds the hash of the i-th pair, and no other key changes. *)
Theorem store_embeddings_one_id_per_pair
    (self : Redis.Store) (chunks : list Chunk) (embeddings : list ndarray)
    (document_name : string) (mw : Mongo.World) (rw : Redis.World) :
  chunks ≠ [] →
  length chunks = length embeddings →
  Mongo.faults mw = [] →
  Redis.faults rw = [] →
  (∃ ids mw',
      Mongo.store_embeddings chunks embeddings document_name mw = (Ok ids, mw')
      ∧ length ids = length chunks
      ∧ take (length (Mongo.collection mw)) (Mongo.collection mw') = Mongo.collection mw
      ∧ length (Mongo.collection mw') = length (Mongo.collection mw) + length chunks
      ∧ ∀ i chunk embedding,
          chunks !! i = Some chunk → embeddings !! i = Some embedding →
          ∃ oid, ids !! i = Some (pretty oid)
                 ∧ Mongo.collection mw' !! (length (Mongo.collection mw) + i)
                   = Some (oid, Mongo.make_doc document_name (Mongo.clock mw)
                                               (chunk, embedding)))
  ∧ (∃ ids rw',
      Redis.store_embeddings self chunks embeddings document_name rw = (Ok ids, rw')
      ∧ length ids = length chunks
      ∧ NoDup ids
      ∧ (∀ i chunk embedding,
          chunks !! i = Some chunk → embeddings !! i = Some embedding →
          ids !! i = Some (Redis.doc_id self document_name i chunk)
          ∧ Redis.hashes rw' !! Redis.doc_id self document_name i chunk
            = Some (Redis.doc_data document_name (Redis.clock rw) chunk embedding))
      ∧ ∀ key, key ∉ ids → Redis.hashes rw' !! key = Redis.hashes rw !! key).
Proof.
  intros Hne Hlen Hmw Hrw.
  assert (length (zip chunks embeddings) = length chunks) as Hzlen.
  { rewrite zip_length_min. lia. }
  split.
  - eexists _, _. split; [apply mongo_store_healthy; [done|]|].
    { intros Hz. destruct chunks; [done|]. by destruct embeddings. }
    simpl. split_and!.
    + by rewrite !length_fmap, mongo_fresh_ids_length.
    + by rewrite take_app_length.
    + rewrite length_app, length_zip, mongo_fresh_ids_length, !length_fmap. lia.
    + intros i c e Hc He. eexists.
      apply (mongo_stored_lookup (zip chunks embeddings) document_name mw i (c, e)).
      by apply zip_lookup_Some.
  - eexists _, _. split; [by apply redis_store_healthy|].
    simpl. split_and!.
    + by rewrite !length_fmap, enumerate_length.
    + apply written_keys_NoDup.
    + intros i c e Hc He. apply redis_written_lookup. by apply zip_lookup_Some.
    + intros key Hkey. by apply write_all_lookup_notin.
Qed.

(** C5, as the code has it.  [store_embeddings] never compares the
    length of an embedding with [EMBEDDING_DIM]: whatever that length and
    whatever the configured dimension of the store, a non-empty aligned
    batch is stored on a server that answers, and the call returns its
    identifiers.  Exact scan keeps the embedding as it is; the ANN index
    keeps its elements rounded to binary32, as many as there were; both
    record the actual length as [embedding_dimension]. *)
Theorem store_embeddings_keeps_any_dimension
    (self : Redis.Store) (chunks : list Chunk) (embeddings : list ndarray)
    (document_name : string) (mw : Mongo.World) (rw : Redis.World) :
  chunks ≠ [] →
  length chunks = length embeddings →
  Mongo.faults mw = [] →
  Redis.faults rw = [] →
  ∃ mids mw' rids rw',
    Mongo.store_embeddings chunks embeddings document_name mw = (Ok mids, mw')
    ∧ Redis.store_embeddings self chunks embeddings document_name rw = (Ok rids, rw')
    ∧ ∀ i chunk embedding,
        chunks !! i = Some chunk → embeddings !! i = Some embedding →
        (∃ oid doc,
            mids !! i = Some (pretty oid)
            ∧ Mongo.collection mw' !! (length (Mongo.collection mw) + i) = Some (oid, doc)
            ∧ Mongo.doc_embedding doc = embedding
            ∧ Mongo.doc_embedding_dimension doc = Z.of_nat (length embedding))
        ∧ (∃ key h,
            rids !! i = Some key
            ∧ Redis.hashes rw' !! key = Some h
            ∧ Redis.h_embedding h = astype_float32 <$> embedding
            ∧ length (Redis.h_embedding h) = length embedding
            ∧ Redis.h_embedding_dimension h = Z.of_nat (length embedding)).
Proof.
  intros Hne Hlen Hmw Hrw.
  eexists _, _, _, _. split_and!.
  - apply mongo_store_healthy; [done|].
    intros Hz. destruct chunks; [done|]. by destruct embeddings.
  - by apply redis_store_healthy.
  - intros i c e Hc He.
    assert (zip chunks embeddings !! i = Some (c, e)) as Hz by by apply zip_lookup_Some.
    split.
    + destruct (mongo_stored_lookup _ document_name mw _ _ Hz) as [Hid Hdoc].
      eexists _, _. split_and!; [exact Hid|exact Hdoc|done|done].
    + destruct (redis_written_lookup self document_name (Redis.clock rw) _
                  (Redis.hashes rw) _ _ _ Hz) as [Hid Hh].
      eexists _, _. split_and!; [exact Hid|exact Hh|done| |done].
      simpl. by rewrite length_fmap.
Qed.

(** C10, as the code has it.  With [chunks] and [embeddings] of any two
    lengths, [zip] keeps the first [min] pairs.  On a server that answers,
    the ANN index never raises: it writes these pairs and returns their
    [min] keys.  The exact scan does the same when there is at least one
    pair; with none, [insert_many] refuses the empty batch with
    [TypeError] and the collection stays as it was. *)
Theorem store_embeddings_unequal_lengths
    (self : Redis.Store) (chunks : list Chunk) (embeddings : list ndarray)
    (document_name : string) (mw : Mongo.World) (rw : Redis.World) :
  Mongo.faults mw = [] →
  Redis.faults rw = [] →
  let n := length chunks `min` length embeddings in
  (∃ ids rw',
      Redis.store_embeddings self chunks embeddings document_name rw = (Ok ids, rw')
      ∧ length ids = n
      ∧ (∀ i chunk embedding,
          chunks !! i = Some chunk → embeddings !! i = Some embedding →
          ids !! i = Some (Redis.doc_id self document_name i chunk)
          ∧ Redis.hashes rw' !! Redis.doc_id self document_name i chunk
            = Some (Redis.doc_data document_name (Redis.clock rw) chunk embedding))
      ∧ ∀ key, key ∉ ids → Redis.hashes rw' !! key = Redis.hashes rw !! key)
  ∧ (1 ≤ n →
      ∃ ids mw',
        Mongo.store_embeddings chunks embeddings document_name mw = (Ok ids, mw')
        ∧ length ids = n
        ∧ length (Mongo.collection mw') = length (Mongo.collection mw) + n
        ∧ take (length (Mongo.collection mw)) (Mongo.collection mw') = Mongo.collection mw
        ∧ ∀ i chunk embedding,
            chunks !! i = Some chunk → embeddings !! i = Some embedding →
            ∃ oid, ids !! i = Some (pretty oid)
                   ∧ Mongo.collection mw' !! (length (Mongo.collection mw) + i)
                     = Some (oid, Mongo.make_doc document_name (Mongo.clock mw)
                                                 (chunk, embedding)))
  ∧ (n = 0 →
      Mongo.store_embeddings chunks embeddings document_name mw
      = (Raise (mkExn TypeError "documents must be a non-empty list"), mw)).
Proof.
  intros Hmw Hrw n.
  pose proof (zip_length_min chunks embeddings) as Hzlen. fold n in Hzlen.
  split_and!.
  - eexists _, _. split; [by apply redis_store_healthy|].
    simpl. split_and!.
    + by rewrite !length_fmap, enumerate_length.
    + intros i c e Hc He. apply redis_written_lookup. by apply zip_lookup_Some.
    + intros key Hkey. by apply write_all_lookup_notin.
  - intros Hn. eexists _, _. split; [apply mongo_store_healthy; [done|]|].
    { intros Hz. rewrite Hz in Hzlen. simpl in Hzlen. lia. }
    simpl. split_and!.
    + by rewrite !length_fmap, mongo_fresh_ids_length.
    + rewrite length_app, length_zip, mongo_fresh_ids_length, !length_fmap. lia.
    + by rewrite take_app_length.
    + intros i c e Hc He. eexists.
      apply (mongo_stored_lookup (zip chunks embeddings) document_name mw i (c, e)).
      by apply zip_lookup_Some.
  - intros Hn. apply mongo_store_empty.
    apply length_zero_iff_nil. lia.
Qed.


(** The search of the ANN index returns, whatever the server does: the
    page of the engine, converted, or nothing. *)
Lemma redis_search_cases self q top_k f w :
  ∃ docs w',
    Redis.similarity_search self q top_k f w = (Ok (Redis.to_result <$> docs), w')
    ∧ (docs = [] ∨ docs = redis_page self q top_k f w).
Proof.
  unfold Redis.similarity_search, Redis.ft_search, Redis.server_call,
    try_except, bind, ret, Redis.mylogger, redis_page, redis_hits.
  destruct (Redis.faults w) as [|[e|] fs]; simpl.
  - destruct (Redis.indexes w !! Redis.index_name self) as [ix|]; simpl;
      [|by eexists [], _; split; [|left]].
    destruct (top_k <=? 0)%Z; simpl; [by eexists [], _; split; [|left]|].
    destruct (Z.of_nat (length (astype_float32 <$> q)) =? Redis.ix_dim ix)%Z; simpl;
      [|by eexists [], _; split; [|left]].
    eexists _, _. split; [done|by right].
  - by eexists [], _; split; [|left].
  - destruct (Redis.indexes w !! Redis.index_name self) as [ix|]; simpl;
      [|by eexists [], _; split; [|left]].
    destruct (top_k <=? 0)%Z; simpl; [by eexists [], _; split; [|left]|].
    destruct (Z.of_nat (length (astype_float32 <$> q)) =? Redis.ix_dim ix)%Z; simpl;
      [|by eexists [], _; split; [|left]].
    eexists _, _. split; [done|by right].
Qed.

(** A failure of the engine's search is logged and becomes no result. *)
Lemma redis_search_absorbs self q top_k f w e w' :
  Redis.ft_search (Redis.index_name self)
    (Redis.KnnQuery (if truthy_str f then f else None) top_k)
    (astype_float32 <$> q) w = (Raise e, w') →
  Redis.similarity_search self q top_k f w
  = (Ok [], Redis.mkWorld (Redis.hashes w') (Redis.indexes w') (Redis.knn_distance w')
                          (Redis.faults w') (Redis.trace w')
                          (Redis.log w' ++ [(ERROR, "Search error: " +:+ exn_msg e)])
                          (Redis.clock w')).
Proof.
  intros Hs. unfold Redis.similarity_search, try_except, bind.
  by rewrite Hs.
Qed.








(** C3, as the code has it.  The ANN index never fails the caller: its
    search returns whatever the server does, and a failure of the engine's
    search is logged and becomes the empty sequence.  The exact scan has no
    handler: a failure of [find] reaches the caller, and so does the
    [ValueError] of [np.dot] when a candidate's embedding has not the
    length of the query. *)
Theorem search_failures_absorbed_or_raised
    (self : Redis.Store) (q : ndarray) (top_k : Z) (f : option string)
    (mw : Mongo.World) (rw : Redis.World) (e : PyExn) :
  (∃ results rw', Redis.similarity_search self q top_k f rw = (Ok results, rw'))
  ∧ (∀ rw1,
       Redis.ft_search (Redis.index_name self)
         (Redis.KnnQuery (if truthy_str f then f else None) top_k)
         (astype_float32 <$> q) rw = (Raise e, rw1) →
       ∃ rw',
         Redis.similarity_search self q top_k f rw = (Ok [], rw')
         ∧ Redis.log rw' = Redis.log rw1 ++ [(ERROR, "Search error: " +:+ exn_msg e)])
  ∧ (∀ mw1,
       Mongo.find (Mongo.filter_query f) mw = (Raise e, mw1) →
       Mongo.similarity_search q top_k f mw = (Raise e, mw1))
  ∧ (Mongo.faults mw = [] →
     Exists (λ d, length (Mongo.doc_embedding d.2) ≠ length q) (Mongo.candidates f mw) →
     Mongo.similarity_search q top_k f mw
     = (Raise (mkExn ValueError "shapes not aligned"), mw)).
Proof.
  split_and!.
  - destruct (redis_search_cases self q top_k f rw) as (docs & rw' & Hs & _).
    by eexists _, _.
  - intros rw1 Hs. eexists. split; [by apply redis_search_absorbs|done].
  - intros mw1 Hfind. unfold Mongo.similarity_search, bind. by rewrite Hfind.
  - intros Hw Hex. unfold Mongo.similarity_search, Mongo.find.
    unfold bind at 1. rewrite mongo_server_call_healthy by done.
    change (List.filter _ (Mongo.collection mw)) with (Mongo.candidates f mw).
    destruct (Mongo.candidates f mw) as [|d ds] eqn:Hc; [by inversion Hex|].
    unfold bind.
    rewrite (for_each_lift_Raise _ _ _ (mkExn ValueError "shapes not aligned")); [done| |].
    + eapply Exists_impl; [exact Hex|]. intros d'. apply mongo_score_doc_mismatch.
    + intros d'. apply mongo_score_doc_Raise.
Qed.

(** ** Connecting *)

(** Whatever makes the client fail, the exact-scan constructor raises
    the typed connection error. *)
Lemma mongo_init_fault c w e fs :
  Mongo.faults w = Some e :: fs →
  ∃ msg w', Mongo.__init__ c w = (Raise (mkExn DatabaseConnectionError msg), w').
Proof.
  intros Hw. unfold Mongo.__init__, try_except, bind, Mongo.MongoClient.
  rewrite (mongo_server_call_fault _ _ _ _ Hw).
  destruct (isinstance_ServerSelectionTimeoutError e);
    [|destruct (isinstance_ConnectionFailure e)]; by eexists _, _.
Qed.

(** A failed [ping] aborts the ANN constructor only when its exception
    derives from [redis.exceptions.ConnectionError]. *)
Lemma redis_init_ping_fault c w e fs :
  Redis.faults w = Some e :: fs →
  ∃ w',
    Redis.__init__ c w
    = (if isinstance_redis_ConnectionError e
       then Raise (mkExn DatabaseConnectionError
                         ("Redis connection failed: " +:+ exn_msg e))
       else Ok (Redis.mkStore c (EMBEDDING_DIM c) (REDIS_INDEX_NAME c)
                              (REDIS_DOC_PREFIX c) false),
       w').
Proof.
  intros Hw. unfold Redis.__init__, Redis.ping.
  rewrite (redis_server_call_fault _ _ _ _ _ Hw).
  unfold Redis.connect_failed. simpl.
  destruct (isinstance_redis_ConnectionError e); by eexists.
Qed.



(** ** Statistics *)

Lemma tally_lookup cnt types (m : gmap string Z) t :
  tally cnt types m !! t
  = if bool_decide (t ∈ types) && (0 <? cnt t)%Z then Some (cnt t) else m !! t.
Proof.
  revert m. induction types as [|t' types IH]; intros m; [done|].
  unfold tally in *. simpl. rewrite IH.
  destruct (decide (t ∈ types)) as [Hin|Hin].
  - rewrite !bool_decide_eq_true_2 by (done || by right). simpl.
    destruct (0 <? cnt t)%Z eqn:Hc; [done|].
    destruct (0 <? cnt t')%Z eqn:Hc'; [|done].
    rewrite lookup_insert_ne; [done|]. intros ->. congruence.
  - rewrite (bool_decide_eq_false_2 (t ∈ types)) by done. simpl.
    destruct (decide (t = t')) as [->|Hne].
    + rewrite bool_decide_eq_true_2 by by left. simpl.
      destruct (0 <? cnt t')%Z; [by rewrite lookup_insert_eq|done].
    + rewrite bool_decide_eq_false_2; [|by intros [->|?]%elem_of_cons]. simpl.
      destruct (0 <? cnt t')%Z; [by rewrite lookup_insert_ne|done].
Qed.

Lemma filter_Permutation_bool {A} (p : A → bool) l l' :
  l ≡ₚ l' → List.filter p l ≡ₚ List.filter p l'.
Proof.
  induction 1 as [|x l l' _ IH|x y l|l l' l'' _ IH1 _ IH2]; simpl.
  - done.
  - destruct (p x); by rewrite IH.
  - destruct (p x), (p y); by try apply Permutation_swap.
  - by etrans.
Qed.

Lemma filter_fmap_length {A B} (g : A → B) (p : B → bool) l :
  length (List.filter p (g <$> l)) = length (List.filter (λ a, p (g a)) l).
Proof.
  induction l as [|a l IH]; csimpl; [done|]. destruct (p (g a)); simpl; by rewrite IH.
Qed.

Lemma filter_all_bool {A} (p : A → bool) l :
  Forall (λ a, p a = true) l → List.filter p l = l.
Proof. induction 1 as [|a l Ha _ IH]; simpl; [done|]. by rewrite Ha, IH. Qed.

(** With only known types, the counts of the types add up to the number
    of chunks. *)
Lemma chunks_of_type_sum chunks :
  Forall (λ c, file_type c ∈ known_file_types) chunks →
  (chunks_of_type "pdf" chunks + chunks_of_type "txt" chunks
   + chunks_of_type "docx" chunks)%Z = Z.of_nat (length chunks).
Proof.
  unfold chunks_of_type.
  induction 1 as [|c chunks Hc _ IH]; [done|]. simpl.
  unfold known_file_types in Hc. set_unfold.
  destruct Hc as [->|[->|[->|[]]]]; simpl; lia.
Qed.

Lemma chunks_of_type_unknown chunks t :
  Forall (λ c, file_type c ∈ known_file_types) chunks →
  t ∉ known_file_types → chunks_of_type t chunks = 0%Z.
Proof.
  intros Hc Ht. unfold chunks_of_type.
  induction Hc as [|c chunks Hc _ IH]; [done|]. simpl.
  destruct (String.eqb (file_type c) t) eqn:Heq; [|done].
  apply String.eqb_eq in Heq. by subst.
Qed.

Lemma tally_breakdown cnt chunks t :
  (∀ t, cnt t = chunks_of_type t chunks) →
  Forall (λ c, file_type c ∈ known_file_types) chunks →
  tally cnt known_file_types ∅ !! t = breakdown chunks t.
Proof.
  intros Hcnt Hc. rewrite tally_lookup, lookup_empty, Hcnt. unfold breakdown.
  destruct (decide (t ∈ known_file_types)) as [Hin|Hin].
  - by rewrite bool_decide_eq_true_2.
  - rewrite bool_decide_eq_false_2 by done. simpl.
    by rewrite chunks_of_type_unknown.
Qed.

(** *** Exact scan *)

Lemma mongo_count_documents_healthy fq w :
  Mongo.faults w = [] →
  Mongo.count_documents fq w
  = (Ok (Z.of_nat (length (List.filter (Mongo.matches fq) (Mongo.collection w)))), w).
Proof. intros Hw. unfold Mongo.count_documents. by rewrite mongo_server_call_healthy. Qed.

Lemma mongo_count_types_healthy types m w :
  Mongo.faults w = [] →
  Mongo.count_types types m w = (Ok (tally (count_in (mongo_types w)) types m), w).
Proof.
  intros Hw. revert m. induction types as [|t types IH]; intros m; [done|].
  simpl. unfold bind at 1. unfold Mongo.count_type, bind at 1.
  rewrite mongo_count_documents_healthy by done. unfold ret. rewrite IH.
  unfold tally. simpl. unfold count_in, mongo_types.
  by rewrite filter_fmap_length.
Qed.

Lemma mongo_get_statistics_healthy w :
  Mongo.faults w = [] →
  Mongo.get_statistics w
  = (Ok (mkStatistics (Z.of_nat (length (Mongo.collection w)))
                      (tally (count_in (mongo_types w)) known_file_types ∅)), w).
Proof.
  intros Hw. unfold Mongo.get_statistics, bind.
  rewrite mongo_count_documents_healthy by done.
  rewrite mongo_count_types_healthy by done. unfold ret. simpl.
  do 3 f_equal. rewrite filter_all_bool; [done|]. by apply Forall_forall.
Qed.

Lemma aligned_zip_nonempty b : aligned b → zip b.1.1 b.1.2 ≠ [].
Proof.
  intros [Hne Hlen] Hz. destruct b as [[cs es] n]. simpl in *.
  destruct cs; [done|]. by destruct es.
Qed.

Lemma mongo_zip_types (ids : list N) cs es name created :
  length ids = length (zip cs es) → length cs = length es →
  (λ d : N * Mongo.Doc, Mongo.doc_file_type d.2)
    <$> zip ids (Mongo.make_doc name created <$> zip cs es)
  = file_type <$> cs.
Proof.
  intros Hids Hlen.
  trans (Mongo.doc_file_type
           <$> (zip ids (Mongo.make_doc name created <$> zip cs es)).*2).
  { by rewrite <-list_fmap_compose. }
  rewrite snd_zip by (rewrite length_fmap; lia).
  rewrite <-list_fmap_compose.
  rewrite <-(fst_zip cs es) at 2 by lia.
  rewrite <-list_fmap_compose. apply list_fmap_ext. by intros i [c e] _.
Qed.

Lemma mongo_store_all_healthy batches w :
  Mongo.faults w = [] → Forall aligned batches →
  ∃ ids w',
    Mongo.store_all batches w = (Ok ids, w')
    ∧ Mongo.faults w' = []
    ∧ mongo_types w' = mongo_types w ++ (file_type <$> all_chunks batches).
Proof.
  intros Hw Hal. revert w Hw.
  induction Hal as [|b batches Hb _ IH]; intros w Hw.
  { eexists _, _. split; [done|]. split; [done|].
    unfold all_chunks. simpl. by rewrite app_nil_r. }
  unfold Mongo.store_all in *. simpl. unfold bind at 1.
  rewrite mongo_store_healthy by (done || by apply aligned_zip_nonempty).
  set (w1 := Mongo.mkWorld _ _ _ _ _).
  destruct (IH w1) as (ids & w' & Hs & Hf & Ht); [done|].
  unfold bind. rewrite Hs. eexists _, _. split; [done|]. split; [done|].
  rewrite Ht. unfold mongo_types, w1, all_chunks. simpl.
  rewrite fmap_app, <-app_assoc. f_equal. rewrite fmap_app. f_equal.
  destruct Hb as [_ Hlen]. destruct b as [[cs es] n]. simpl in *.
  apply mongo_zip_types; [|done].
  by rewrite mongo_fresh_ids_length, length_fmap.
Qed.

(** *** ANN index *)

Lemma write_all_app kvs1 kvs2 (m : gmap string Redis.Hash) :
  write_all (kvs1 ++ kvs2) m = write_all kvs2 (write_all kvs1 m).
Proof. unfold write_all. apply foldl_app. Qed.

Lemma map_to_list_write_all kvs (m : gmap string Redis.Hash) :
  NoDup kvs.*1 → (∀ k, k ∈ kvs.*1 → m !! k = None) →
  map_to_list (write_all kvs m) ≡ₚ kvs ++ map_to_list m.
Proof.
  revert m. induction kvs as [|[k v] kvs IH]; intros m Hnd Hfresh; [done|].
  simpl in Hnd. apply NoDup_cons in Hnd as [Hk Hnd].
  change (write_all ((k, v) :: kvs) m) with (write_all kvs (<[k := v]> m)).
  rewrite IH; [|done|].
  - rewrite map_to_list_insert by (apply Hfresh; by left).
    symmetry. apply Permutation_middle.
  - intros k' Hk'. rewrite lookup_insert_ne by (by intros ->).
    apply Hfresh. by right.
Qed.

Lemma all_written_cons self created b batches :
  all_written self created (b :: batches)
  = (written self b.2 created <$> enumerate (zip b.1.1 b.1.2))
      ++ all_written self created batches.
Proof. done. Qed.

Lemma all_chunks_cons b batches :
  all_chunks (b :: batches) = b.1.1 ++ all_chunks batches.
Proof. done. Qed.

Lemma redis_store_all_healthy self batches w :
  Redis.faults w = [] →
  ∃ ids w',
    Redis.store_all self batches w = (Ok ids, w')
    ∧ Redis.faults w' = []
    ∧ Redis.hashes w' = write_all (all_written self (Redis.clock w) batches) (Redis.hashes w)
    ∧ Redis.indexes w' = Redis.indexes w
    ∧ Redis.knn_distance w' = Redis.knn_distance w
    ∧ Redis.clock w' = Redis.clock w.
Proof.
  revert w. induction batches as [|b batches IH]; intros w Hw.
  { by eexists _, _. }
  unfold Redis.store_all in *. simpl. unfold bind at 1.
  rewrite redis_store_healthy by done.
  set (w1 := Redis.mkWorld _ _ _ _ _ _ _).
  destruct (IH w1) as (ids & w' & Hs & Hf & Hh & Hi & Hk & Hc); [done|].
  unfold bind. rewrite Hs. eexists _, _. split; [done|].
  split_and!; try done.
  rewrite Hh, all_written_cons. by rewrite write_all_app.
Qed.

Lemma redis_count_types_healthy self ix types m w :
  Redis.faults w = [] →
  Redis.indexes w !! Redis.index_name self = Some ix →
  ∃ w',
    Redis.count_types self types m w
    = (Ok (tally (redis_count ix (Redis.hashes w)) types m), w')
    ∧ Redis.faults w' = [] ∧ Redis.hashes w' = Redis.hashes w
    ∧ Redis.indexes w' = Redis.indexes w.
Proof.
  revert m w. induction types as [|t types IH]; intros m w Hw Hix.
  { by eexists. }
  simpl. unfold bind at 1. unfold Redis.count_type, bind at 1, Redis.ft_search.
  rewrite redis_server_call_healthy by done. simpl. rewrite Hix. unfold ret.
  set (w1 := Redis.sent _ _ w).
  destruct (IH (if (0 <? redis_count ix (Redis.hashes w) t)%Z
                then <[t := redis_count ix (Redis.hashes w) t]> m else m) w1)
    as (w' & Hs & Hf & Hh & Hi); [done|done|].
  eexists. split; [exact Hs|]. by split_and!.
Qed.

Lemma redis_get_statistics_healthy self ix w :
  Redis.faults w = [] →
  Redis.indexes w !! Redis.index_name self = Some ix →
  ∃ w',
    Redis.get_statistics self w
    = (Ok (mkStatistics (Z.of_nat (length (Redis.indexed ix (Redis.hashes w))))
                        (tally (redis_count ix (Redis.hashes w)) known_file_types ∅)),
       w').
Proof.
  intros Hw Hix.
  destruct (redis_count_types_healthy self ix known_file_types ∅
              (Redis.sent (Redis.FT_INFO (Redis.index_name self)) [] w))
    as (w' & Hs & _); [done|done|].
  unfold Redis.get_statistics, try_except. unfold bind at 1.
  unfold Redis.ft_info. rewrite redis_server_call_healthy by done.
  change (Redis.indexes (Redis.sent _ _ w)) with (Redis.indexes w).
  rewrite Hix. unfold bind. rewrite Hs. by eexists.
Qed.

Lemma string_prefix_app (p s : string) : String.prefix p (p +:+ s) = true.
Proof.
  induction p as [|c p IH]; [by destruct s|].
  rewrite string_app_cons. simpl. by destruct (ascii_dec c c).
Qed.

(** The hashes written are covered by the store's index when their
    embeddings have its dimension. *)
Lemma all_written_covered self created batches :
  Forall (λ b, Forall (λ e, Z.of_nat (length e) = Redis.embedding_dim self) b.1.2) batches →
  Forall (λ kh, Redis.covers (Redis.mkIndex (Redis.prefix self) (Redis.embedding_dim self)) kh = true)
         (all_written self created batches).
Proof.
  intros Hb. unfold all_written. apply Forall_concat, Forall_fmap.
  eapply Forall_impl; [exact Hb|]. intros [[cs es] n] Hes. simpl in *.
  apply Forall_fmap, Forall_forall. intros [i [c e]] Hin. simpl.
  unfold Redis.covers, written, Redis.doc_id, Redis.doc_data.
  cbn [fst snd Redis.h_embedding Redis.ix_prefix Redis.ix_dim].
  rewrite string_prefix_app. simpl. rewrite length_fmap.
  apply Z.eqb_eq. rewrite Forall_forall in Hes. apply Hes.
  unfold enumerate in Hin.
  apply list_elem_of_lookup in Hin as [j Hj].
  apply lookup_zip_with_Some in Hj as (? & [c' e'] & ? & _ & Hz). simplify_eq.
  apply list_elem_of_lookup. exists j.
  by apply zip_lookup_Some in Hz as [_ ?].
Qed.

Lemma all_written_types self created batches :
  Forall aligned batches →
  (λ kh : string * Redis.Hash, Redis.h_file_type kh.2) <$> all_written self created batches
  = file_type <$> all_chunks batches.
Proof.
  induction 1 as [|b batches Hb _ IH]; [done|].
  rewrite all_written_cons, all_chunks_cons, !fmap_app, IH. f_equal.
  destruct Hb as [_ Hlen]. destruct b as [[cs es] n]. simpl in *.
  rewrite <-list_fmap_compose.
  trans ((λ p : Chunk * ndarray, file_type p.1) <$> (enumerate (zip cs es)).*2).
  { rewrite <-list_fmap_compose. apply list_fmap_ext. by intros i [j [c e]] _. }
  unfold enumerate. rewrite snd_zip by (rewrite length_seq; lia).
  rewrite <-(fst_zip cs es) at 2 by lia.
  by rewrite <-list_fmap_compose.
Qed.

Lemma all_written_length self created batches :
  Forall aligned batches →
  length (all_written self created batches) = length (all_chunks batches).
Proof.
  intros Hal.
  rewrite <-(length_fmap (λ kh : string * Redis.Hash, Redis.h_file_type kh.2)).
  by rewrite all_written_types, length_fmap.
Qed.

(** C9, as the code has it.  Batches that are aligned and carry only the
    types pdf, txt and docx are stored one after the other on a server
    that answers, and the statistics are read.
    - Exact scan, starting from an empty collection: [total_chunks] is
      the number of chunks stored, which is the sum of the counts of the
      three types, and [by_file_type] maps each type to its count, zero
      counts left out.
    - ANN index, starting from an empty key space with the store's
      index in place: the same, provided the embeddings have the dimension
      of the index and no key is written twice, that is no document name,
      chunk index and position come together again. *)
Theorem statistics_round_trip
    (self : Redis.Store) (batches : list (list Chunk * list ndarray * string))
    (mw : Mongo.World) (rw : Redis.World) :
  Forall aligned batches →
  Forall (λ c, file_type c ∈ known_file_types) (all_chunks batches) →
  let chunks := all_chunks batches in
  (Mongo.faults mw = [] → Mongo.collection mw = [] →
   ∃ ids mw' stats,
     Mongo.store_all batches mw = (Ok ids, mw')
     ∧ Mongo.get_statistics mw' = (Ok stats, mw')
     ∧ total_chunks stats = Z.of_nat (length chunks)
     ∧ total_chunks stats
       = (chunks_of_type "pdf" chunks + chunks_of_type "txt" chunks
          + chunks_of_type "docx" chunks)%Z
     ∧ ∀ t, by_file_type stats !! t = breakdown chunks t)
  ∧ (Redis.faults rw = [] → Redis.hashes rw = ∅ →
     Redis.indexes rw !! Redis.index_name self
       = Some (Redis.mkIndex (Redis.prefix self) (Redis.embedding_dim self)) →
     Forall (λ b, Forall (λ e, Z.of_nat (length e) = Redis.embedding_dim self) b.1.2)
            batches →
     NoDup (all_written self (Redis.clock rw) batches).*1 →
     ∃ ids rw' rw'' stats,
       Redis.store_all self batches rw = (Ok ids, rw')
       ∧ Redis.get_statistics self rw' = (Ok stats, rw'')
       ∧ total_chunks stats = Z.of_nat (length chunks)
       ∧ total_chunks stats
         = (chunks_of_type "pdf" chunks + chunks_of_type "txt" chunks
            + chunks_of_type "docx" chunks)%Z
       ∧ ∀ t, by_file_type stats !! t = breakdown chunks t).
Proof.
  intros Hal Hknown chunks. split.
  - intros Hw Hempty.
    destruct (mongo_store_all_healthy batches mw Hw Hal) as (ids & mw' & Hs & Hf & Ht).
    assert (mongo_types mw' = file_type <$> chunks) as Ht'.
    { rewrite Ht. unfold mongo_types. by rewrite Hempty. }
    assert (length (Mongo.collection mw') = length chunks) as Hlen.
    { rewrite <-(length_fmap (λ d : N * Mongo.Doc, Mongo.doc_file_type d.2)).
      fold (mongo_types mw'). by rewrite Ht', length_fmap. }
    eexists ids, mw', _. split; [done|].
    split; [by apply mongo_get_statistics_healthy|]. simpl.
    split_and!.
    + by rewrite Hlen.
    + by rewrite Hlen, chunks_of_type_sum.
    + intros t. apply tally_breakdown; [|done].
      intros t'. rewrite Ht'. unfold count_in, chunks_of_type.
      by rewrite filter_fmap_length.
  - intros Hw Hempty Hix Hdim Hnd.
    destruct (redis_store_all_healthy self batches rw Hw)
      as (ids & rw' & Hs & Hf & Hh & Hi & _ & _).
    rewrite <-Hi in Hix.
    destruct (redis_get_statistics_healthy self _ rw' Hf Hix) as (rw'' & Hg).
    set (kvs := all_written self (Redis.clock rw) batches) in *.
    assert (Redis.indexed (Redis.mkIndex (Redis.prefix self) (Redis.embedding_dim self))
              (Redis.hashes rw') ≡ₚ kvs) as Hidx.
    { unfold Redis.indexed. rewrite Hh, Hempty.
      rewrite (filter_Permutation_bool _ _ _ (map_to_list_write_all kvs ∅ Hnd
                 (λ k _, lookup_empty k))).
      rewrite map_to_list_empty, app_nil_r.
      by rewrite filter_all_bool by by apply all_written_covered. }
    assert (length kvs = length chunks) as Hlen by by apply all_written_length.
    eexists ids, rw', rw'', _. split; [done|]. split; [exact Hg|]. simpl.
    split_and!.
    + by rewrite Hidx, Hlen.
    + by rewrite Hidx, Hlen, chunks_of_type_sum.
    + intros t. apply tally_breakdown; [|done].
      intros t'. unfold redis_count, chunks_of_type.
      rewrite (filter_Permutation_bool _ _ _ Hidx).
      rewrite <-(filter_fmap_length file_type (λ ft, String.eqb ft t')).
      unfold chunks. rewrite <-(all_written_types self (Redis.clock rw)) by done.
      by rewrite filter_fmap_length.
Qed.

(** ** The claims on sample data *)


(** C3 fails as stated.  The exact scan lets the [ValueError] of
    [np.dot] and a failure of [find] reach the caller. *)
Lemma mongo_search_raises :
  (Mongo.similarity_search [1%float; 0%float; 0%float] 3 None mongo_three).1
  = Raise (mkExn ValueError "shapes not aligned")
  ∧ (Mongo.similarity_search [1%float; 0%float] 3 None mongo_down).1
    = Raise (mkExn PyMongo_ServerSelectionTimeoutError "No servers found yet").
Proof. split; vm_compute; reflexivity. Qed.

(** C5 fails as stated.  With [EMBEDDING_DIM = 384], an embedding of two
    components is stored by both backends and its identifier returned. *)
Lemma mismatched_dimension_is_stored :
  EMBEDDING_DIM sample_config = 384%Z
  ∧ (Mongo.store_embeddings [sample_chunk "txt" 0] [[1%float; 2%float]] "a.txt"
       empty_mongo).1 = Ok ["0"]
  ∧ (λ d : N * Mongo.Doc, Mongo.doc_embedding d.2)
      <$> Mongo.collection
            (after (Mongo.store_embeddings [sample_chunk "txt" 0]
                      [[1%float; 2%float]] "a.txt") empty_mongo)
    = [[1%float; 2%float]]
  ∧ (Redis.__init__ sample_config empty_redis).1 = Ok sample_store
  ∧ (Redis.store_embeddings sample_store [sample_chunk "txt" 0]
       [[1%float; 2%float]] "a.txt"
       (after (Redis.__init__ sample_config) empty_redis)).1
    = Ok ["doc:a.txt:0:0"]
  ∧ Redis.h_embedding
      <$> Redis.hashes
            (after (Redis.store_embeddings sample_store [sample_chunk "txt" 0]
                      [[1%float; 2%float]] "a.txt")
                   (after (Redis.__init__ sample_config) empty_redis))
          !! "doc:a.txt:0:0"
    = Some [1%float; 2%float].
Proof. split_and!; vm_compute; reflexivity. Qed.

(** C9 fails as stated.  A document stored twice under its name
    overwrites its own keys in the ANN index: two chunks of type txt were
    stored, and the statistics count one. *)
Lemma restored_document_is_counted_once :
  (Redis.store_all small_store same_batch_twice redis_ready).1
  = Ok [["doc:a.txt:0:0"]; ["doc:a.txt:0:0"]]
  ∧ chunks_of_type "txt" (all_chunks same_batch_twice) = 2%Z
  ∧ ∃ stats,
      (Redis.get_statistics small_store
         (after (Redis.store_all small_store same_batch_twice) redis_ready)).1
      = Ok stats
      ∧ total_chunks stats = 1%Z
      ∧ by_file_type stats !! "txt" = Some 1%Z.
Proof.
  split_and!; [vm_compute; reflexivity..|].
  eexists. split_and!; vm_compute; reflexivity.
Qed.

(** C10 fails as stated.  With one chunk and no embedding, [zip] is
    empty and the exact scan raises the [TypeError] of [insert_many]. *)
Lemma mongo_rejects_the_empty_zip :
  Mongo.store_embeddings [sample_chunk "txt" 0] [] "a.txt" empty_mongo
  = (Raise (mkExn TypeError "documents must be a non-empty list"), empty_mongo).
Proof. reflexivity. Qed.

(** C7 on sample data.  A host that cannot be reached within the
    timeout makes [ping] raise [redis.exceptions.TimeoutError], which is
    not a [ConnectionError]: the second [except] clause logs it and the
    constructor returns an instance that is not connected.  A refused
    connection and any failure of the exact-scan client do raise
    [DatabaseConnectionError]. *)
Lemma redis_connect_timeout_is_not_raised :
  (Redis.__init__ sample_config redis_unreachable).1
  = Ok (Redis.mkStore sample_config 384 "doc_index" "doc:" false)
  ∧ Redis.log (after (Redis.__init__ sample_config) redis_unreachable)
    = [(ERROR, "Redis connection failed: localhost:6379 Timeout connecting to server")]
  ∧ (Redis.__init__ sample_config redis_refusing).1
    = Raise (mkExn DatabaseConnectionError "Redis connection failed: Connection refused")
  ∧ (Mongo.__init__ sample_config mongo_down).1
    = Raise (mkExn DatabaseConnectionError
                   "MongoDB connection failed: No servers found yet").
Proof. split_and!; vm_compute; reflexivity. Qed.

(** When the probe of an existing index fails for a reason of its own,
    the bare [except] of [_create_index] takes the index for missing: a
    create-index command is sent, the engine refuses it, and the second
    [except] clause of the constructor logs the refusal and returns the
    instance.  The indexes stay as they were. *)
Lemma failed_probe_sends_create :
  (Redis.__init__ small_config redis_probe_fails).1 = Ok small_store
  ∧ Redis.trace (after (Redis.__init__ small_config) redis_probe_fails)
    = [Redis.PING; Redis.FT_INFO "doc_index"; Redis.FT_CREATE "doc_index"]
  ∧ Redis.indexes (after (Redis.__init__ small_config) redis_probe_fails)
    = Redis.indexes redis_probe_fails
  ∧ Redis.log (after (Redis.__init__ small_config) redis_probe_fails)
    = [(ERROR, "Redis connection failed: localhost:6379 Index already exists")].
Proof. split_and!; vm_compute; reflexivity. Qed.

(** ** The theorems at work on sample data *)

(** Three pairs are stored and three identifiers come back. *)
Lemma store_embeddings_one_id_per_pair_witness :
  three_chunks ≠ []
  ∧ length three_chunks = length three_vectors
  ∧ ∃ ids mw',
      Mongo.store_embeddings three_chunks three_vectors "a.txt" empty_mongo
      = (Ok ids, mw')
      ∧ length ids = length three_chunks.
Proof.
  split; [discriminate|]. split; [reflexivity|].
  destruct (store_embeddings_one_id_per_pair small_store three_chunks
              three_vectors "a.txt" empty_mongo redis_ready)
    as [(ids & mw' & Hs & Hl & _) _];
    [discriminate|reflexivity|reflexivity|reflexivity|].
  by exists ids, mw'.
Defined.

(** Vectors of two components go into a store configured for 384. *)
Lemma store_embeddings_keeps_any_dimension_witness :
  Redis.embedding_dim sample_store = 384%Z
  ∧ ∃ mids mw' rids rw',
      Mongo.store_embeddings three_chunks three_vectors "a.txt" empty_mongo
      = (Ok mids, mw')
      ∧ Redis.store_embeddings sample_store three_chunks three_vectors "a.txt"
          redis_ready = (Ok rids, rw').
Proof.
  split; [reflexivity|].
  destruct (store_embeddings_keeps_any_dimension sample_store three_chunks
              three_vectors "a.txt" empty_mongo redis_ready)
    as (mids & mw' & rids & rw' & Hm & Hr & _);
    [discriminate|reflexivity|reflexivity|reflexivity|].
  by exists mids, mw', rids, rw'.
Defined.

(** Three chunks and two embeddings: two pairs are stored. *)
Lemma store_embeddings_unequal_lengths_witness :
  length three_chunks `min` length (take 2 three_vectors) = 2
  ∧ ∃ ids mw',
      Mongo.store_embeddings three_chunks (take 2 three_vectors) "a.txt" empty_mongo
      = (Ok ids, mw')
      ∧ length ids = 2.
Proof.
  split; [reflexivity|].
  destruct (store_embeddings_unequal_lengths small_store three_chunks
              (take 2 three_vectors) "a.txt" empty_mongo redis_ready)
    as (_ & Hm & _); [reflexivity|reflexivity|].
  destruct Hm as (ids & mw' & Hs & Hl & _); [vm_compute; lia|].
  by exists ids, mw'.
Defined.




(** A server that stops answering, and a query of three components
    against vectors of two. *)
Lemma search_failures_absorbed_or_raised_witness :
  (∃ rw', Redis.similarity_search small_store [1%float; 0%float] 2 None redis_down
          = (Ok [], rw'))
  ∧ (Mongo.similarity_search [1%float; 0%float] 2 None mongo_down).1
    = Raise (mkExn PyMongo_ServerSelectionTimeoutError "No servers found yet")
  ∧ Mongo.similarity_search [1%float; 0%float; 0%float] 2 None mongo_three
    = (Raise (mkExn ValueError "shapes not aligned"), mongo_three).
Proof.
  destruct (search_failures_absorbed_or_raised small_store [1%float; 0%float] 2
              None mongo_down redis_down
              (mkExn Redis_TimeoutError "Timeout reading from socket"))
    as (_ & Habsorb & _ & _).
  destruct (search_failures_absorbed_or_raised small_store [1%float; 0%float] 2
              None mongo_down redis_down
              (mkExn PyMongo_ServerSelectionTimeoutError "No servers found yet"))
    as (_ & _ & Hfind & _).
  destruct (search_failures_absorbed_or_raised small_store
              [1%float; 0%float; 0%float] 2 None mongo_three redis_down
              (mkExn ValueError "shapes not aligned"))
    as (_ & _ & _ & Hdot).
  split_and!.
  - edestruct Habsorb as (rw' & Hs & _); [reflexivity|]. by exists rw'.
  - erewrite Hfind; reflexivity.
  - apply Hdot; [reflexivity|]. vm_compute. apply Exists_cons_hd. lia.
Defined.

(** Two txt chunks and one pdf chunk, in two documents. *)
Lemma statistics_round_trip_witness :
  (∃ stats,
      (Mongo.get_statistics (after (Mongo.store_all two_batches) empty_mongo)).1
      = Ok stats
      ∧ total_chunks stats = 3%Z
      ∧ by_file_type stats !! "txt" = Some 2%Z
      ∧ by_file_type stats !! "pdf" = Some 1%Z
      ∧ by_file_type stats !! "docx" = None)
  ∧ ∃ stats,
      (Redis.get_statistics small_store
         (after (Redis.store_all small_store two_batches) redis_ready)).1
      = Ok stats
      ∧ total_chunks stats = 3%Z
      ∧ by_file_type stats !! "txt" = Some 2%Z
      ∧ by_file_type stats !! "pdf" = Some 1%Z
      ∧ by_file_type stats !! "docx" = None.
Proof.
  destruct (statistics_round_trip small_store two_batches empty_mongo redis_ready)
    as [Hm Hr].
  - repeat constructor; discriminate.
  - apply Forall_forall. intros c Hc. vm_compute in Hc.
    repeat (apply elem_of_cons in Hc as [->|Hc]);
      try (by apply elem_of_nil in Hc); vm_compute; set_solver.
  - split.
    + destruct Hm as (ids & mw' & stats & Hs & Hg & Ht & _ & Hb);
        [reflexivity|reflexivity|].
      exists stats. unfold after. rewrite Hs. simpl. rewrite Hg. simpl.
      split; [done|]. split; [by rewrite Ht|]. by rewrite !Hb.
    + destruct Hr as (ids & rw' & rw'' & stats & Hs & Hg & Ht & _ & Hb).
      * vm_compute. reflexivity.
      * vm_compute. reflexivity.
      * vm_compute. reflexivity.
      * repeat constructor.
      * apply (bool_decide_unpack _). vm_compute. exact I.
      * exists stats. unfold after. rewrite Hs. simpl. rewrite Hg. simpl.
        split; [done|]. split; [by rewrite Ht|]. by rewrite !Hb.
Defined.

(** * Further properties *)

(** ** Further properties of the two backends *)

(** *** What the read commands leave alone *)

Lemma for_each_lift_world {W A B} (f : A → outcome B) (l : list A) (w : W) :
  (for_each (λ a, lift (f a)) l w).2 = w.
Proof.
  induction l as [|a l IH]; [done|].
  simpl. unfold_M. destruct (f a); [|done].
  destruct (for_each _ l w) as [[]?]; simpl in *; by subst.
Qed.

Lemma for_each_lift_inv {W A B} (f : A → outcome B) (l : list A) (w w' : W) rs :
  for_each (λ a, lift (f a)) l w = (Ok rs, w') →
  Forall2 (λ a r, f a = Ok r) l rs.
Proof.
  revert rs. induction l as [|a l IH]; intros rs; simpl; unfold_M.
  - intros [= <- _]. constructor.
  - destruct (f a) eqn:Ha; [|done].
    destruct (for_each _ l w) as [[rs'|]?] eqn:Hl; simpl; [|by intros [=]].
    intros [= <- <-]. constructor; [done|]. by apply IH.
Qed.

(** Every outcome of a call to the Mongo server that only reads. *)
Lemma mongo_server_call_read {A} (g : Mongo.World → A) w :
  ∃ fs,
    (Mongo.server_call (λ w, (Ok (g w), w)) w = (Ok (g (Mongo.with_faults fs w)), Mongo.with_faults fs w)
     ∨ ∃ e, Mongo.server_call (λ w, (Ok (g w), w)) w = (Raise e, Mongo.with_faults fs w)).
Proof.
  unfold Mongo.server_call. destruct (Mongo.faults w) as [|[e|] fs] eqn:Hf.
  - exists []. left. destruct w; simpl in *; by subst.
  - exists fs. right. by exists e.
  - exists fs. by left.
Qed.

Lemma mongo_search_frame q top_k f w :
  ∃ fs, (Mongo.similarity_search q top_k f w).2 = Mongo.with_faults fs w.
Proof.
  unfold Mongo.similarity_search, Mongo.find. unfold_M.
  destruct (mongo_server_call_read
              (λ w, List.filter (Mongo.matches (Mongo.filter_query f)) (Mongo.collection w)) w)
    as [fs [->|[e ->]]]; exists fs; [|done].
  simpl. destruct (List.filter _ _) as [|d ds]; [done|].
  pose proof (for_each_lift_world (Mongo.score_doc q) (d :: ds) (Mongo.with_faults fs w)) as Hw.
  destruct (for_each _ (d :: ds) _) as [[]?]; simpl in *; by subst.
Qed.

Lemma mongo_count_documents_frame fq w :
  ∃ fs, (Mongo.count_documents fq w).2 = Mongo.with_faults fs w.
Proof.
  unfold Mongo.count_documents.
  destruct (mongo_server_call_read
              (λ w, Z.of_nat (length (List.filter (Mongo.matches fq) (Mongo.collection w)))) w)
    as [fs [->|[e ->]]]; by exists fs.
Qed.

Lemma mongo_count_types_frame types m w :
  ∃ fs, (Mongo.count_types types m w).2 = Mongo.with_faults fs w.
Proof.
  revert m w. induction types as [|t types IH]; intros m w; simpl.
  - exists (Mongo.faults w). by destruct w.
  - unfold Mongo.count_type. unfold_M.
    destruct (mongo_count_documents_frame (Some t) w) as [fs Hfs].
    destruct (Mongo.count_documents (Some t) w) as [[n|e] w1]; simpl in Hfs; subst w1.
    + destruct (IH (if (0 <? n)%Z then <[t:=n]> m else m) (Mongo.with_faults fs w)) as [fs' ->].
      by exists fs'.
    + by exists fs.
Qed.

Lemma mongo_get_statistics_frame w :
  ∃ fs, (Mongo.get_statistics w).2 = Mongo.with_faults fs w.
Proof.
  unfold Mongo.get_statistics. unfold_M.
  destruct (mongo_count_documents_frame None w) as [fs Hfs].
  destruct (Mongo.count_documents None w) as [[n|e] w1]; simpl in Hfs; subst w1;
    [|by exists fs].
  destruct (mongo_count_types_frame known_file_types ∅ (Mongo.with_faults fs w)) as [fs' Hfs'].
  destruct (Mongo.count_types _ _ _) as [[m|e] w2]; simpl in Hfs'; subst w2; by exists fs'.
Qed.


Lemma same_data_refl w : same_data w w.
Proof. done. Qed.

Lemma same_data_trans w1 w2 w3 : same_data w1 w2 → same_data w2 w3 → same_data w1 w3.
Proof. unfold same_data. intros (-> & -> & -> & ->) (-> & -> & -> & ->). done. Qed.

Lemma redis_mylogger_frame level msg w : same_data w (Redis.mylogger level msg w).2.
Proof. done. Qed.

Lemma redis_ft_info_frame name w : same_data w (Redis.ft_info name w).2.
Proof.
  unfold Redis.ft_info, Redis.server_call.
  destruct (Redis.faults w) as [|[e|] fs]; simpl; try done;
    by destruct (Redis.indexes w !! name).
Qed.

Lemma redis_ft_search_frame name q vec w : same_data w (Redis.ft_search name q vec w).2.
Proof.
  unfold Redis.ft_search, Redis.server_call.
  destruct (Redis.faults w) as [|[e|] fs]; simpl; try done;
    destruct (Redis.indexes w !! name); try done;
    destruct q; try done; repeat case_match; done.
Qed.

Lemma redis_search_frame self q top_k f w :
  same_data w (Redis.similarity_search self q top_k f w).2.
Proof.
  unfold Redis.similarity_search. unfold_M.
  pose proof (redis_ft_search_frame (Redis.index_name self)
                (Redis.KnnQuery (if truthy_str f then f else None) top_k)
                (astype_float32 <$> q) w) as H.
  destruct (Redis.ft_search _ _ _ w) as [[r|e] w1]; simpl in *; [done|].
  eapply same_data_trans; [exact H|apply redis_mylogger_frame].
Qed.

Lemma redis_count_types_frame self types m w :
  same_data w (Redis.count_types self types m w).2.
Proof.
  revert m w. induction types as [|t types IH]; intros m w; simpl; [done|].
  unfold Redis.count_type. unfold_M.
  pose proof (redis_ft_search_frame (Redis.index_name self) (Redis.TagQuery t) [] w) as H.
  destruct (Redis.ft_search _ _ _ w) as [[r|e] w1]; simpl in *; [|done].
  eapply same_data_trans; [exact H|apply IH].
Qed.

Lemma redis_get_statistics_frame self w :
  same_data w (Redis.get_statistics self w).2.
Proof.
  unfold Redis.get_statistics. unfold_M.
  pose proof (redis_ft_info_frame (Redis.index_name self) w) as H1.
  generalize known_file_types. intros types.
  destruct (Redis.ft_info _ w) as [[n|e] w1]; simpl in *.
  - pose proof (redis_count_types_frame self types ∅ w1) as H2.
    destruct (Redis.count_types _ _ _ w1) as [[m|e] w2]; simpl in *.
    + eapply same_data_trans; [exact H1|exact H2].
    + eapply same_data_trans; [|apply redis_mylogger_frame].
      eapply same_data_trans; [exact H1|exact H2].
  - eapply same_data_trans; [exact H1|apply redis_mylogger_frame].
Qed.

Lemma redis_get_statistics_total self w :
  is_ok (Redis.get_statistics self w).1 = true.
Proof.
  unfold Redis.get_statistics. unfold_M.
  generalize known_file_types. intros types.
  destruct (Redis.ft_info _ w) as [[n|e] w1]; simpl; [|done].
  by destruct (Redis.count_types _ _ _ w1) as [[m|e] w2].
Qed.

(** X1. Searching and reading the statistics never change what is stored,
    whatever the server does: the exact scan leaves the collection and
    the next [_id] as they were and writes no log record, the ANN index
    leaves the hashes and the indexes as they were.  The statistics of
    the ANN index are always returned, never raised. *)
Theorem read_operations_change_no_data
    (self : Redis.Store) (q : ndarray) (top_k : Z) (f : option string)
    (mw : Mongo.World) (rw : Redis.World) :
  let unchanged mw' :=
    Mongo.collection mw' = Mongo.collection mw
    ∧ Mongo.next_id mw' = Mongo.next_id mw
    ∧ Mongo.log mw' = Mongo.log mw in
  let untouched rw' :=
    Redis.hashes rw' = Redis.hashes rw ∧ Redis.indexes rw' = Redis.indexes rw in
  unchanged (after (Mongo.similarity_search q top_k f) mw)
  ∧ unchanged (after Mongo.get_statistics mw)
  ∧ untouched (after (Redis.similarity_search self q top_k f) rw)
  ∧ untouched (after (Redis.get_statistics self) rw)
  ∧ is_ok (Redis.get_statistics self rw).1 = true.
Proof.
  intros unchanged untouched. unfold after. split_and!.
  - destruct (mongo_search_frame q top_k f mw) as [fs ->]. done.
  - destruct (mongo_get_statistics_frame mw) as [fs ->]. done.
  - destruct (redis_search_frame self q top_k f rw) as (? & ? & _). done.
  - destruct (redis_get_statistics_frame self rw) as (? & ? & _). done.
  - apply redis_get_statistics_total.
Qed.

(** *** Statistics when the server fails *)

Lemma mongo_server_call_pass {A} (exec : M Mongo.World A) w fs :
  Mongo.faults w = None :: fs →
  Mongo.server_call exec w = exec (Mongo.with_faults fs w).
Proof. unfold Mongo.server_call. by intros ->. Qed.

Lemma redis_server_call_pass {A} cmd (exec : M Redis.World A) w fs :
  Redis.faults w = None :: fs →
  Redis.server_call cmd exec w = exec (Redis.sent cmd fs w).
Proof. unfold Redis.server_call. by intros ->. Qed.

Lemma mongo_count_types_fault types m w k e fs :
  k < length types →
  Mongo.faults w = replicate k None ++ Some e :: fs →
  Mongo.count_types types m w = (Raise e, Mongo.with_faults fs w).
Proof.
  revert m w k. induction types as [|t types IH]; intros m w k Hk Hf; simpl in *; [lia|].
  unfold Mongo.count_type, Mongo.count_documents. unfold_M.
  destruct k as [|k]; simpl in Hf.
  - by rewrite (mongo_server_call_fault _ _ _ _ Hf).
  - rewrite (mongo_server_call_pass _ _ _ Hf).
    rewrite (IH _ (Mongo.with_faults (replicate k None ++ Some e :: fs) w) k);
      [done|lia|done].
Qed.

Lemma redis_count_types_fault self ix types m w k e fs :
  k < length types →
  Redis.faults w = replicate k None ++ Some e :: fs →
  Redis.indexes w !! Redis.index_name self = Some ix →
  ∃ w',
    Redis.count_types self types m w = (Raise e, w')
    ∧ Redis.faults w' = fs ∧ Redis.log w' = Redis.log w.
Proof.
  revert m w k. induction types as [|t types IH]; intros m w k Hk Hf Hix; simpl in *; [lia|].
  unfold Redis.count_type, Redis.ft_search. unfold_M.
  destruct k as [|k]; simpl in Hf.
  - rewrite (redis_server_call_fault _ _ _ _ _ Hf). by eexists.
  - rewrite (redis_server_call_pass _ _ _ _ Hf). simpl. rewrite Hix.
    edestruct (IH (if (0 <? Z.of_nat (length (List.filter (Redis.has_tag (Some t))
                                               (Redis.indexed ix (Redis.hashes w)))))%Z
                   then <[t:=Z.of_nat (length (List.filter (Redis.has_tag (Some t))
                                               (Redis.indexed ix (Redis.hashes w))))]> m
                   else m)
                  (Redis.sent (Redis.FT_SEARCH (Redis.index_name self)) (replicate k None ++ Some e :: fs) w)
                  k) as (w' & Hw' & ? & ?); [lia|done|done|].
    simpl. simpl in Hw'. rewrite Hw'. by eexists.
Qed.

(** X2. A failure of any of the server calls behind [get_statistics] (the
    total, then one count per known file type): the exact scan lets the
    exception reach the caller; the ANN index logs it and returns zero
    chunks and an empty breakdown, also when the total had been read
    already. *)
Theorem statistics_failure_policy
    (self : Redis.Store) (ix : Redis.IndexDescriptor) (k : nat) (me re : PyExn)
    (mfs rfs : list (option PyExn)) (mw : Mongo.World) (rw : Redis.World) :
  k ≤ length known_file_types →
  Mongo.faults mw = replicate k None ++ Some me :: mfs →
  Redis.faults rw = replicate k None ++ Some re :: rfs →
  Redis.indexes rw !! Redis.index_name self = Some ix →
  Mongo.get_statistics mw = (Raise me, Mongo.with_faults mfs mw)
  ∧ ∃ rw',
      Redis.get_statistics self rw = (Ok (mkStatistics 0 ∅), rw')
      ∧ Redis.faults rw' = rfs
      ∧ Redis.log rw' = Redis.log rw ++ [(ERROR, "Statistics error: " +:+ exn_msg re)].
Proof.
  intros Hk Hm Hr Hix. unfold Mongo.get_statistics, Redis.get_statistics.
  generalize dependent known_file_types. intros types Hk. split.
  - unfold Mongo.get_statistics, Mongo.count_documents. unfold_M.
    destruct k as [|k]; simpl in Hm.
    + by rewrite (mongo_server_call_fault _ _ _ _ Hm).
    + rewrite (mongo_server_call_pass _ _ _ Hm). simpl.
      rewrite (mongo_count_types_fault types ∅
                 (Mongo.with_faults (replicate k None ++ Some me :: mfs) mw) k me mfs);
        [done|lia|done].
  - unfold Redis.get_statistics, Redis.ft_info. unfold_M.
    destruct k as [|k]; simpl in Hr.
    + rewrite (redis_server_call_fault _ _ _ _ _ Hr). by eexists.
    + rewrite (redis_server_call_pass _ _ _ _ Hr). simpl. rewrite Hix.
      edestruct (redis_count_types_fault self ix types ∅
                   (Redis.sent (Redis.FT_INFO (Redis.index_name self))
                               (replicate k None ++ Some re :: rfs) rw) k)
        as (w' & -> & ? & Hlog); [lia|done|done|].
      eexists. split_and!; [done|done|]. simpl. by rewrite Hlog.
Qed.

(** *** The constructors *)

Lemma redis_ft_create_hashes name ix w :
  Redis.hashes (Redis.ft_create name ix w).2 = Redis.hashes w.
Proof.
  unfold Redis.ft_create, Redis.server_call.
  destruct (Redis.faults w) as [|[e|] fs]; simpl; try done;
    by destruct (Redis.indexes w !! name).
Qed.

Lemma redis_create_index_hashes self w :
  Redis.hashes (Redis._create_index self w).2 = Redis.hashes w.
Proof.
  unfold Redis._create_index. unfold_M.
  pose proof (redis_ft_info_frame (Redis.index_name self) w) as [H1 _].
  destruct (Redis.ft_info _ w) as [[n|e] w1]; simpl in *.
  - pose proof (redis_ft_info_frame (Redis.index_name self) w1) as [H2 _].
    destruct (Redis.ft_info _ w1) as [[n'|e] w2]; simpl in *; [congruence|].
    pose proof (redis_ft_create_hashes (Redis.index_name self)
                  (Redis.mkIndex (Redis.prefix self) (Redis.embedding_dim self)) w2) as H3.
    destruct (Redis.ft_create _ _ w2) as [[[]|e'] w3]; simpl in *; congruence.
  - pose proof (redis_ft_create_hashes (Redis.index_name self)
                  (Redis.mkIndex (Redis.prefix self) (Redis.embedding_dim self)) w1) as H3.
    destruct (Redis.ft_create _ _ w1) as [[[]|e'] w3]; simpl in *; congruence.
Qed.

Lemma redis_connect_failed_cases self err w :
  match Redis.connect_failed self err w with
  | (Ok s, w') => s = self ∧ isinstance_redis_ConnectionError err = false
  | (Raise e, w') =>
      e = mkExn DatabaseConnectionError ("Redis connection failed: " +:+ exn_msg err)
      ∧ isinstance_redis_ConnectionError err = true
  end
  ∧ Redis.hashes (Redis.connect_failed self err w).2 = Redis.hashes w
  ∧ ∃ msg, Redis.log (Redis.connect_failed self err w).2 = Redis.log w ++ [(ERROR, msg)].
Proof.
  unfold Redis.connect_failed.
  destruct (isinstance_redis_ConnectionError err); simpl; split_and!; eauto.
Qed.

Lemma mongo_init_cases c w :
  match Mongo.__init__ c w with
  | (Ok s, w') =>
      s = Mongo.mkStore c (EMBEDDING_DIM c) true
      ∧ Mongo.collection w' = Mongo.collection w
  | (Raise e, w') =>
      exn_class e = DatabaseConnectionError
      ∧ Mongo.collection w' = Mongo.collection w
      ∧ ∃ msg, Mongo.log w' = Mongo.log w ++ [(ERROR, msg)]
  end.
Proof.
  unfold Mongo.__init__, Mongo.MongoClient, Mongo.server_call. unfold_M.
  destruct (Mongo.faults w) as [|[e|] fs]; simpl; try done.
  destruct (isinstance_ServerSelectionTimeoutError e); simpl; [by eauto|].
  destruct (isinstance_ConnectionFailure e); simpl; by eauto.
Qed.

Lemma redis_init_cases c w :
  match Redis.__init__ c w with
  | (Ok s, w') =>
      s = Redis.mkStore c (EMBEDDING_DIM c) (REDIS_INDEX_NAME c) (REDIS_DOC_PREFIX c)
            (match Redis.faults w with Some _ :: _ => false | _ => true end)
      ∧ Redis.hashes w' = Redis.hashes w
  | (Raise e, w') =>
      exn_class e = DatabaseConnectionError
      ∧ Redis.hashes w' = Redis.hashes w
      ∧ ∃ msg, last (Redis.log w') = Some (ERROR, msg)
  end.
Proof.
  unfold Redis.__init__.
  set (self := Redis.mkStore _ _ _ _ false).
  destruct (Redis.ping w) as [[[]|err] w1] eqn:Hping.
  + assert (match Redis.faults w with Some _ :: _ => false | _ => true end = true
            ∧ Redis.hashes w1 = Redis.hashes w) as [-> Hw1].
    { revert Hping. unfold Redis.ping, Redis.server_call. unfold_M.
      destruct (Redis.faults w) as [|[e|] fs]; intros [= <-]; done. }
    pose proof (redis_create_index_hashes (Redis.connected self) w1) as Hci.
    unfold bind at 1.
    destruct (Redis._create_index (Redis.connected self) w1) as [[[]|err] w2]; simpl in *.
    * split; [done|congruence].
    * pose proof (redis_connect_failed_cases (Redis.connected self) err w2)
        as (Hc & Hh & msg & Hlog).
      destruct (Redis.connect_failed _ err w2) as [[s|e] w3]; simpl in *.
      -- destruct Hc as [-> _]. split; [done|congruence].
      -- destruct Hc as [-> _]. split_and!; [done|congruence|].
         exists msg. rewrite Hlog. apply last_snoc.
  + assert (match Redis.faults w with Some _ :: _ => false | _ => true end = false
            ∧ Redis.hashes w1 = Redis.hashes w) as [-> Hw1].
    { revert Hping. unfold Redis.ping, Redis.server_call. unfold_M.
      destruct (Redis.faults w) as [|[e|] fs]; intros [=]; subst; done. }
    pose proof (redis_connect_failed_cases self err w1) as (Hc & Hh & msg & Hlog).
    destruct (Redis.connect_failed _ err w1) as [[s|e] w3]; simpl in *.
    * destruct Hc as [-> _]. split; [done|congruence].
    * destruct Hc as [-> _]. split_and!; [done|congruence|].
      exists msg. rewrite Hlog. apply last_snoc.
Qed.

(** X3. What the constructors can do, whatever the server does.
    [MongoVectorStore]: it returns a connected instance, or it logs one
    error and raises [DatabaseConnectionError].  [RedisVectorStore]: it
    returns an instance with the index name, the prefix and the dimension
    of the configuration, connected exactly when [PING] was answered, or
    it raises [DatabaseConnectionError] after logging an error.  Neither
    raises anything else, and neither touches what is stored. *)
Theorem constructors_raise_only_connection_errors
    (c : Config) (mw : Mongo.World) (rw : Redis.World) :
  match Mongo.__init__ c mw with
  | (Ok s, mw') =>
      s = Mongo.mkStore c (EMBEDDING_DIM c) true
      ∧ Mongo.collection mw' = Mongo.collection mw
  | (Raise e, mw') =>
      exn_class e = DatabaseConnectionError
      ∧ Mongo.collection mw' = Mongo.collection mw
      ∧ ∃ msg, Mongo.log mw' = Mongo.log mw ++ [(ERROR, msg)]
  end
  ∧ match Redis.__init__ c rw with
    | (Ok s, rw') =>
        s = Redis.mkStore c (EMBEDDING_DIM c) (REDIS_INDEX_NAME c) (REDIS_DOC_PREFIX c)
              (match Redis.faults rw with Some _ :: _ => false | _ => true end)
        ∧ Redis.hashes rw' = Redis.hashes rw
    | (Raise e, rw') =>
        exn_class e = DatabaseConnectionError
        ∧ Redis.hashes rw' = Redis.hashes rw
        ∧ ∃ msg, last (Redis.log rw') = Some (ERROR, msg)
    end.
Proof. split; [apply mongo_init_cases|apply redis_init_cases]. Qed.

(** *** A store that fails half way *)

Lemma redis_store_pair_pass self name item w fs :
  Redis.faults w = None :: fs →
  Redis.store_pair self name item w =
    (Ok (written self name (Redis.clock w) item).1,
     Redis.mkWorld (write_all [written self name (Redis.clock w) item] (Redis.hashes w))
                   (Redis.indexes w) (Redis.knn_distance w) fs
                   (Redis.trace w ++ [Redis.HSET (written self name (Redis.clock w) item).1])
                   (Redis.log w) (Redis.clock w)).
Proof.
  intros Hf. destruct item as [i [c e]].
  unfold Redis.store_pair, Redis.hset, Redis.now. unfold_M.
  by rewrite (redis_server_call_pass _ _ _ _ Hf).
Qed.

Lemma redis_store_pair_fault self name item w e fs :
  Redis.faults w = Some e :: fs →
  Redis.store_pair self name item w =
    (Raise e,
     Redis.mkWorld (Redis.hashes w) (Redis.indexes w) (Redis.knn_distance w) fs
                   (Redis.trace w ++ [Redis.HSET (written self name (Redis.clock w) item).1])
                   (Redis.log w) (Redis.clock w)).
Proof.
  intros Hf. destruct item as [i [c e']].
  unfold Redis.store_pair, Redis.hset, Redis.now. unfold_M.
  by rewrite (redis_server_call_fault _ _ _ _ _ Hf).
Qed.

Lemma redis_for_each_store_pair_fault self name items w k e fs :
  k < length items →
  Redis.faults w = replicate k None ++ Some e :: fs →
  let kvs := written self name (Redis.clock w) <$> items in
  for_each (Redis.store_pair self name) items w =
    (Raise e,
     Redis.mkWorld (write_all (take k kvs) (Redis.hashes w))
                   (Redis.indexes w) (Redis.knn_distance w) fs
                   (Redis.trace w ++ (Redis.HSET <$> (take (S k) kvs).*1))
                   (Redis.log w) (Redis.clock w)).
Proof.
  revert w k. induction items as [|item items IH]; intros w k Hk Hf; simpl in *; [lia|].
  unfold_M. destruct k as [|k]; simpl in Hf.
  - rewrite (redis_store_pair_fault _ _ _ _ _ _ Hf). by rewrite take_0.
  - rewrite (redis_store_pair_pass _ _ _ _ _ Hf).
    rewrite IH with (k := k); [|lia|done]. simpl.
    by rewrite <-(assoc_L (++)).
Qed.

(** X4. [RedisVectorStore.store_embeddings] writes pair after pair and has
    no handler: when the command for the pair at position [k] fails, the
    exception reaches the caller, the [k] hashes before it stay written
    (no identifier of them is returned), and no command is sent for the
    pairs after it. *)
Theorem redis_store_stops_at_first_failure
    (self : Redis.Store) (chunks : list Chunk) (embeddings : list ndarray)
    (document_name : string) (k : nat) (e : PyExn) (fs : list (option PyExn))
    (w : Redis.World) :
  k < length chunks `min` length embeddings →
  Redis.faults w = replicate k None ++ Some e :: fs →
  let kvs := written self document_name (Redis.clock w)
               <$> enumerate (zip chunks embeddings) in
  ∃ w',
    Redis.store_embeddings self chunks embeddings document_name w = (Raise e, w')
    ∧ Redis.hashes w' = write_all (take k kvs) (Redis.hashes w)
    ∧ Redis.trace w' = Redis.trace w ++ (Redis.HSET <$> (take (S k) kvs).*1)
    ∧ (∀ i chunk embedding,
         i < k → chunks !! i = Some chunk → embeddings !! i = Some embedding →
         Redis.hashes w' !! Redis.doc_id self document_name i chunk
         = Some (Redis.doc_data document_name (Redis.clock w) chunk embedding))
    ∧ ∀ key, key ∉ (take k kvs).*1 → Redis.hashes w' !! key = Redis.hashes w !! key.
Proof.
  intros Hk Hf kvs. unfold Redis.store_embeddings.
  rewrite (redis_for_each_store_pair_fault self document_name _ w k e fs); [| |done].
  2: { by rewrite enumerate_length, zip_length_min. }
  eexists. split_and!; try done; simpl.
  - intros i c emb Hi Hc Hemb. fold kvs.
    apply write_all_lookup_elem.
    + rewrite fmap_take. eapply sublist_NoDup; [apply written_keys_NoDup|apply sublist_take].
    + apply list_elem_of_lookup. exists i. rewrite lookup_take_lt by done.
      unfold kvs. rewrite list_lookup_fmap.
      rewrite (enumerate_lookup _ i (c, emb)) by (by apply zip_lookup_Some). done.
  - intros key Hkey. fold kvs. by apply write_all_lookup_notin.
Qed.

(** *** Storing again *)

Lemma dom_write_all kvs (m : gmap string Redis.Hash) :
  dom (write_all kvs m) = list_to_set kvs.*1 ∪ dom m.
Proof.
  revert m. induction kvs as [|[k v] kvs IH]; intros m.
  - simpl. by rewrite (left_id_L ∅ (∪)).
  - change (write_all ((k, v) :: kvs) m) with (write_all kvs (<[k := v]> m)).
    rewrite IH, dom_insert_L. simpl.
    by rewrite (assoc_L (∪)), (comm_L (∪) (list_to_set kvs.*1) {[k]}).
Qed.

(** X5. Storing the same document again under its name, on servers that
    answer.  The exact scan appends: the second call returns identifiers
    that the first did not return and the collection holds every pair
    twice.  The ANN index overwrites: the second call returns the keys of
    the first and adds no key. *)
Theorem storing_a_document_twice
    (self : Redis.Store) (chunks : list Chunk) (embeddings : list ndarray)
    (document_name : string) (mw : Mongo.World) (rw : Redis.World) :
  Mongo.faults mw = [] →
  Redis.faults rw = [] →
  zip chunks embeddings ≠ [] →
  let n := length chunks `min` length embeddings in
  (∃ ids1 ids2 mw1 mw2,
      Mongo.store_embeddings chunks embeddings document_name mw = (Ok ids1, mw1)
      ∧ Mongo.store_embeddings chunks embeddings document_name mw1 = (Ok ids2, mw2)
      ∧ length ids1 = n ∧ length ids2 = n
      ∧ (∀ id, id ∈ ids1 → id ∉ ids2)
      ∧ length (Mongo.collection mw2) = length (Mongo.collection mw) + 2 * n)
  ∧ ∃ ids rw1 rw2,
      Redis.store_embeddings self chunks embeddings document_name rw = (Ok ids, rw1)
      ∧ Redis.store_embeddings self chunks embeddings document_name rw1 = (Ok ids, rw2)
      ∧ length ids = n
      ∧ dom (Redis.hashes rw2) = dom (Redis.hashes rw1).
Proof.
  intros Hm Hr Hne n. split.
  - pose proof (mongo_store_healthy chunks embeddings document_name mw Hm Hne) as H1.
    cbv zeta in H1.
    set (docs := Mongo.make_doc document_name (Mongo.clock mw) <$> zip chunks embeddings) in H1.
    set (mw1 := Mongo.mkWorld _ _ _ _ _) in H1.
    pose proof (mongo_store_healthy chunks embeddings document_name mw1 eq_refl Hne) as H2.
    cbv zeta in H2. simpl in H2. fold docs in H2.
    assert (length docs = n) as Hdocs.
    { unfold docs. by rewrite length_fmap, zip_length_min. }
    eexists _, _, _, _. split_and!; [exact H1|exact H2|..].
    + by rewrite length_fmap, mongo_fresh_ids_length.
    + by rewrite length_fmap, mongo_fresh_ids_length.
    + intros id. unfold Mongo.fresh_ids. simpl. rewrite Hdocs.
      rewrite <-!list_fmap_compose.
      intros (i & -> & Hi)%list_elem_of_fmap (j & Heq & Hj)%list_elem_of_fmap.
      apply elem_of_seq in Hi, Hj. simpl in Heq.
      apply (inj pretty) in Heq. lia.
    + simpl. rewrite !length_app, !length_zip, !mongo_fresh_ids_length. lia.
  - pose proof (redis_store_healthy self chunks embeddings document_name rw Hr) as H1.
    cbv zeta in H1.
    set (kvs := written self document_name (Redis.clock rw) <$> enumerate (zip chunks embeddings)) in H1.
    set (rw1 := Redis.mkWorld _ _ _ _ _ _ _) in H1.
    pose proof (redis_store_healthy self chunks embeddings document_name rw1 eq_refl) as H2.
    cbv zeta in H2. simpl in H2. fold kvs in H2.
    eexists _, _, _. split_and!; [exact H1|exact H2|..].
    + unfold kvs. by rewrite !length_fmap, enumerate_length, zip_length_min.
    + simpl. rewrite !dom_write_all. by rewrite (assoc_L (∪)), (idemp_L (∪)).
Qed.

(** *** Keys of different documents *)

Lemma redis_store_all_keys self batches w :
  Redis.faults w = [] →
  ∃ ids w',
    Redis.store_all self batches w = (Ok ids, w')
    ∧ concat ids = (all_written self (Redis.clock w) batches).*1
    ∧ Redis.hashes w' = write_all (all_written self (Redis.clock w) batches) (Redis.hashes w).
Proof.
  revert w. induction batches as [|b batches IH]; intros w Hw.
  { by eexists _, _. }
  unfold Redis.store_all in *. simpl. unfold bind at 1.
  rewrite redis_store_healthy by done.
  set (w1 := Redis.mkWorld _ _ _ _ _ _ _).
  destruct (IH w1) as (ids & w' & Hs & Hids & Hh); [done|].
  unfold bind. rewrite Hs. eexists _, _. split; [done|]. split.
  - simpl. rewrite Hids, all_written_cons, fmap_app. done.
  - rewrite Hh, all_written_cons. by rewrite write_all_app.
Qed.

Lemma written_key_name self name created (pairs : list (Chunk * ndarray)) k :
  k ∈ (written self name created <$> enumerate pairs).*1 →
  ∃ i c, k = Redis.doc_id self name i c.
Proof.
  rewrite <-list_fmap_compose.
  intros ([i [c e]] & -> & _)%list_elem_of_fmap. by exists i, c.
Qed.

Lemma all_written_key_name self created batches k :
  k ∈ (all_written self created batches).*1 →
  ∃ b i c, b ∈ batches ∧ k = Redis.doc_id self b.2 i c.
Proof.
  induction batches as [|b batches IH].
  { by intros ?%elem_of_nil. }
  rewrite all_written_cons, fmap_app.
  intros [Hk|Hk]%elem_of_app.
  - apply written_key_name in Hk as (i & c & ->). exists b, i, c. split; [by left|done].
  - destruct (IH Hk) as (b' & i & c & ? & ->). exists b', i, c. split; [by right|done].
Qed.

Lemma all_written_NoDup self created batches :
  NoDup batches.*2 → NoDup (all_written self created batches).*1.
Proof.
  induction batches as [|b batches IH]; intros Hnd.
  { constructor. }
  simpl in Hnd. apply NoDup_cons in Hnd as [Hb Hnd].
  rewrite all_written_cons, fmap_app. apply NoDup_app. split_and!.
  - apply written_keys_NoDup.
  - intros k (i & c & ->)%written_key_name (b' & i' & c' & Hb' & Heq)%all_written_key_name.
    apply doc_id_inj in Heq as (Heq & _). apply Hb.
    rewrite Heq. apply list_elem_of_fmap. by exists b'.
  - by apply IH.
Qed.

(** X6. Documents stored under pairwise different names never share a key
    of the ANN index, whatever their chunk indices (the extractor of PDF
    files restarts them on every page): on a server that answers, the
    keys returned for a sequence of batches are pairwise different, each
    of them holds a hash afterwards, and a key space that was empty holds
    exactly one hash per pair. *)
Theorem documents_with_different_names_share_no_key
    (self : Redis.Store) (batches : list (list Chunk * list ndarray * string))
    (w : Redis.World) :
  Redis.faults w = [] →
  NoDup batches.*2 →
  ∃ ids w',
    Redis.store_all self batches w = (Ok ids, w')
    ∧ NoDup (concat ids)
    ∧ length (concat ids)
      = sum_list ((λ b, length b.1.1 `min` length b.1.2) <$> batches)
    ∧ (∀ key, key ∈ concat ids → is_Some (Redis.hashes w' !! key))
    ∧ (Redis.hashes w = ∅ → size (Redis.hashes w') = length (concat ids)).
Proof.
  intros Hw Hnd.
  destruct (redis_store_all_keys self batches w Hw) as (ids & w' & Hs & Hids & Hh).
  pose proof (all_written_NoDup self (Redis.clock w) batches Hnd) as Hkeys.
  exists ids, w'. split_and!; [done|by rewrite Hids|..].
  - rewrite Hids, length_fmap. clear.
    induction batches as [|b batches IH]; [done|].
    rewrite all_written_cons, length_app, IH, length_fmap, enumerate_length, zip_length_min.
    done.
  - intros key. rewrite Hids, Hh.
    intros ([k h] & -> & Hkh)%list_elem_of_fmap.
    rewrite (write_all_lookup_elem _ _ k h); by eauto.
  - intros Hempty. rewrite Hids, Hh, Hempty, length_fmap.
    rewrite <-length_map_to_list.
    rewrite map_to_list_write_all; [|done|by intros; apply lookup_empty].
    by rewrite map_to_list_empty, app_nil_r.
Qed.

(** *** What a search returns of what was stored *)

Lemma slice_to_subseteq {A} (l : list A) k : slice_to l k ⊆ l.
Proof. unfold slice_to. case_match; apply subseteq_take. Qed.

Lemma slice_to_exact_length {A} (l : list A) k :
  length (slice_to l k)
  = if (0 <=? k)%Z then Z.to_nat k `min` length l
    else length l - Z.to_nat (- k).
Proof. unfold slice_to. case_match; rewrite length_take; lia. Qed.

Lemma slice_to_all {A} (l : list A) k :
  (Z.of_nat (length l) ≤ k)%Z → slice_to l k = l.
Proof.
  intros Hk. unfold slice_to.
  destruct (0 <=? k)%Z eqn:H0; [|lia]. apply take_ge. lia.
Qed.

Lemma enumerate_elem_of {A} (l : list A) i x :
  (i, x) ∈ enumerate l → l !! i = Some x.
Proof.
  intros [j Hj]%list_elem_of_lookup.
  assert (j < length l) as Hlt.
  { apply lookup_lt_Some in Hj. by rewrite enumerate_length in Hj. }
  destruct (lookup_lt_is_Some_2 l j Hlt) as [y Hy].
  rewrite (enumerate_lookup _ _ _ Hy) in Hj. by simplify_eq.
Qed.

Lemma write_all_lookup_inv kvs (m : gmap string Redis.Hash) k h :
  write_all kvs m !! k = Some h → (k, h) ∈ kvs ∨ m !! k = Some h.
Proof.
  revert m. induction kvs as [|[k' v'] kvs IH]; intros m; [by right|].
  change (write_all ((k', v') :: kvs) m) with (write_all kvs (<[k' := v']> m)).
  intros [Hin|Hm]%IH.
  - left. by right.
  - destruct (decide (k' = k)) as [->|Hne].
    + rewrite lookup_insert_eq in Hm. simplify_eq. left. by left.
    + rewrite lookup_insert_ne in Hm by done. by right.
Qed.

Lemma elem_of_List_filter {A} (p : A → bool) (l : list A) x :
  x ∈ List.filter p l ↔ p x = true ∧ x ∈ l.
Proof. rewrite !list_elem_of_In, filter_In. tauto. Qed.

Lemma redis_hits_stored self f w kh :
  kh ∈ redis_hits self f w → Redis.hashes w !! kh.1 = Some kh.2.
Proof.
  unfold redis_hits, Redis.indexed.
  destruct (Redis.indexes w !! Redis.index_name self); [|by intros ?%elem_of_nil].
  rewrite !elem_of_List_filter. intros (_ & _ & Hkh).
  destruct kh. by apply elem_of_map_to_list.
Qed.

Lemma redis_page_subseteq self q top_k f w :
  redis_page self q top_k f w
  ⊆ Redis.score_hash (Redis.knn_distance w) (astype_float32 <$> q)
      <$> redis_hits self f w.
Proof.
  unfold redis_page. intros d Hd.
  apply subseteq_take in Hd. rewrite stable_sort_Permutation in Hd.
  apply subseteq_take in Hd. by rewrite stable_sort_Permutation in Hd.
Qed.

(** The hash behind each result of a search after a store. *)
Lemma redis_store_search_image
    (self : Redis.Store) (chunks : list Chunk) (embeddings : list ndarray)
    (document_name : string) (q : ndarray) (top_k : Z) (f : option string)
    (w : Redis.World) :
  Redis.faults w = [] →
  Redis.hashes w = ∅ →
  ∃ ids w1 results w2,
    Redis.store_embeddings self chunks embeddings document_name w = (Ok ids, w1)
    ∧ Redis.similarity_search self q top_k f w1 = (Ok results, w2)
    ∧ ∀ r, r ∈ results →
        ∃ i chunk embedding,
          chunks !! i = Some chunk ∧ embeddings !! i = Some embedding
          ∧ ids !! i = Some (Redis.doc_id self document_name i chunk)
          ∧ r = Redis.to_result
                  (Redis.score_hash (Redis.knn_distance w) (astype_float32 <$> q)
                     (Redis.doc_id self document_name i chunk,
                      Redis.doc_data document_name (Redis.clock w) chunk embedding)).
Proof.
  intros Hw Hempty.
  pose proof (redis_store_healthy self chunks embeddings document_name w Hw) as Hs.
  cbv zeta in Hs.
  set (kvs := written self document_name (Redis.clock w)
                <$> enumerate (zip chunks embeddings)) in Hs.
  set (w1 := Redis.mkWorld _ _ _ _ _ _ _) in Hs.
  destruct (redis_search_cases self q top_k f w1) as (docs & w2 & Hq & Hdocs).
  exists (kvs.*1), w1, (Redis.to_result <$> docs), w2. split_and!; [done|done|].
  intros r (d & -> & Hd)%list_elem_of_fmap.
  destruct Hdocs as [->| ->]; [by apply elem_of_nil in Hd|].
  apply redis_page_subseteq in Hd.
  apply list_elem_of_fmap in Hd as ([k h] & -> & Hkh).
  apply redis_hits_stored in Hkh. simpl in Hkh. rewrite Hempty in Hkh.
  apply write_all_lookup_inv in Hkh as [Hkh|Hkh]; [|by rewrite lookup_empty in Hkh].
  apply list_elem_of_fmap in Hkh as ([i [c e]] & [= -> ->] & Hi).
  apply enumerate_elem_of in Hi. pose proof Hi as [Hc He]%zip_lookup_Some.
  exists i, c, e. split_and!; try done.
  unfold kvs. rewrite !list_lookup_fmap, (enumerate_lookup _ _ _ Hi). done.
Qed.

(** The page number that comes back for a chunk. *)
Lemma redis_page_read_back name created chunk embedding dist vec key :
  r_page_number
    (Redis.to_result
       (Redis.score_hash dist vec (key, Redis.doc_data name created chunk embedding)))
  = match page_number chunk with
    | Some n => if bool_decide (n = 0 ∨ n = -1)%Z then None else Some n
    | None => None
    end.
Proof.
  simpl. unfold Redis.page_or_sentinel.
  destruct (page_number chunk) as [n|]; [|done].
  destruct (decide (n = 0%Z)) as [->|H0]; [done|].
  rewrite (proj2 (Z.eqb_neq n 0)) by done.
  destruct (decide (n = (-1)%Z)) as [->|H1]; [done|].
  rewrite (proj2 (Z.eqb_neq n (-1))) by done. simpl.
  rewrite bool_decide_eq_false_2; [done|]. lia.
Qed.

(** X7. What was stored is what is found, ANN index.  After a batch is
    stored in an empty key space, on a server that answers, every result
    of a search is the image of one pair of the batch: its id is the key
    of the pair, text, document name and file type are those of the
    chunk, and the score is one minus the engine's distance to the
    float32 copy of the embedding.  The page number comes back unless it
    is [0] or [-1]: these are read as [None], as a missing page number
    is. *)
Theorem redis_store_then_search
    (self : Redis.Store) (chunks : list Chunk) (embeddings : list ndarray)
    (document_name : string) (q : ndarray) (top_k : Z) (f : option string)
    (w : Redis.World) :
  Redis.faults w = [] →
  Redis.hashes w = ∅ →
  ∃ ids w1 results w2,
    Redis.store_embeddings self chunks embeddings document_name w = (Ok ids, w1)
    ∧ Redis.similarity_search self q top_k f w1 = (Ok results, w2)
    ∧ ∀ r, r ∈ results →
        ∃ i chunk embedding,
          chunks !! i = Some chunk ∧ embeddings !! i = Some embedding
          ∧ ids !! i = Some (r_id r)
          ∧ r_id r = Redis.doc_id self document_name i chunk
          ∧ r_text r = text chunk
          ∧ r_document_name r = document_name
          ∧ r_file_type r = file_type chunk
          ∧ r_page_number r
            = match page_number chunk with
              | Some n => if bool_decide (n = 0 ∨ n = -1)%Z then None else Some n
              | None => None
              end
          ∧ similarity_score r
            = PrimFloat.sub 1%float
                (Redis.knn_distance w (astype_float32 <$> q)
                   (astype_float32 <$> embedding)).
Proof.
  intros Hw Hempty.
  destruct (redis_store_search_image self chunks embeddings document_name q top_k f w
              Hw Hempty) as (ids & w1 & results & w2 & Hs & Hq & Himage).
  exists ids, w1, results, w2. split_and!; [done|done|].
  intros r Hr. destruct (Himage r Hr) as (i & c & e & Hc & He & Hid & ->).
  exists i, c, e. split_and!; try done.
  apply redis_page_read_back.
Qed.

(** X8. What was stored is what is found, exact scan.  After a batch
    whose embeddings have the length of the query is stored in an empty
    collection, on a server that answers, a search returns, and every
    result is the image of one pair of the batch: its id is the
    identifier returned for the pair, text, document name, file type and
    page number ([0] and [None] included) are those of the chunk, and the
    score is the cosine similarity of query and embedding. *)
Theorem mongo_store_then_search
    (chunks : list Chunk) (embeddings : list ndarray) (document_name : string)
    (q : ndarray) (top_k : Z) (f : option string) (w : Mongo.World) :
  Mongo.faults w = [] →
  Mongo.collection w = [] →
  zip chunks embeddings ≠ [] →
  Forall (λ e, length e = length q) embeddings →
  ∃ ids w1 results,
    Mongo.store_embeddings chunks embeddings document_name w = (Ok ids, w1)
    ∧ Mongo.similarity_search q top_k f w1 = (Ok results, w1)
    ∧ ∀ r, r ∈ results →
        ∃ i chunk embedding,
          chunks !! i = Some chunk ∧ embeddings !! i = Some embedding
          ∧ ids !! i = Some (r_id r)
          ∧ r_text r = text chunk
          ∧ r_document_name r = document_name
          ∧ r_file_type r = file_type chunk
          ∧ r_page_number r = page_number chunk
          ∧ similarity_score r = cosine_similarity q embedding.
Proof.
  intros Hw Hempty Hne Hlen.
  pose proof (mongo_store_healthy chunks embeddings document_name w Hw Hne) as Hs.
  cbv zeta in Hs.
  set (docs := Mongo.make_doc document_name (Mongo.clock w) <$> zip chunks embeddings) in Hs.
  set (ids := Mongo.fresh_ids w (length docs)) in Hs.
  set (w1 := Mongo.mkWorld _ _ _ _ _) in Hs.
  assert (∀ d, d ∈ Mongo.collection w1 →
            ∃ i c e, chunks !! i = Some c ∧ embeddings !! i = Some e
                     ∧ ids !! i = Some d.1
                     ∧ d.2 = Mongo.make_doc document_name (Mongo.clock w) (c, e)) as Hcoll.
  { intros [oid doc]. simpl. rewrite Hempty, app_nil_l.
    intros [i Hi]%list_elem_of_lookup.
    apply lookup_zip_with_Some in Hi as (oid' & doc' & [= <- <-] & Hoid & Hdoc).
    unfold docs in Hdoc. rewrite list_lookup_fmap in Hdoc.
    destruct (zip chunks embeddings !! i) as [[c e]|] eqn:Hz; [|done].
    apply zip_lookup_Some in Hz as [Hc He]. simpl in Hdoc. simplify_eq.
    by exists i, c, e. }
  assert (Forall (λ d, length (Mongo.doc_embedding d.2) = length q)
                 (Mongo.candidates f w1)) as Hcand.
  { apply Forall_forall. intros d Hd.
    apply elem_of_List_filter in Hd as [_ Hd].
    destruct (Hcoll d Hd) as (i & c & e & _ & He & _ & ->). simpl.
    rewrite Forall_forall in Hlen. apply Hlen. by eapply list_elem_of_lookup_2. }
  pose proof (mongo_search_healthy q top_k f w1 eq_refl Hcand) as Hq.
  eexists _, _, _. split_and!; [exact Hs|exact Hq|].
  intros r Hr. apply slice_to_subseteq in Hr.
  rewrite list_sort_Permutation in Hr.
  apply list_elem_of_fmap in Hr as (d & -> & Hd).
  apply elem_of_List_filter in Hd as [_ Hd].
  destruct (Hcoll d Hd) as (i & c & e & Hc & He & Hid & Hdoc).
  exists i, c, e. split_and!; try done.
  - rewrite list_lookup_fmap, Hid. done.
  - simpl. by rewrite Hdoc.
  - simpl. by rewrite Hdoc.
  - simpl. by rewrite Hdoc.
  - simpl. by rewrite Hdoc.
  - simpl. by rewrite Hdoc.
Qed.

(** *** How many results, and of which type *)

(** X9. The exact scan on a server that answers, the stored embeddings
    having the length of the query.  The results are scored candidates;
    with a non-empty [file_type_filter] all of them have that file type,
    and an empty filter is no filter.  Their number is the smaller of
    [top_k] and the number of candidates; [top_k = 0] gives none, and a
    negative [top_k] is not refused: as a slice bound it drops that many
    of the lowest-ranked candidates. *)
Theorem mongo_search_filter_and_count
    (q : ndarray) (top_k : Z) (f : option string) (w : Mongo.World) :
  Mongo.faults w = [] →
  Forall (λ d, length (Mongo.doc_embedding d.2) = length q) (Mongo.candidates f w) →
  let n := length (Mongo.candidates f w) in
  ∃ results,
    Mongo.similarity_search q top_k f w = (Ok results, w)
    ∧ results ⊆ Mongo.scored q <$> Mongo.candidates f w
    ∧ length results
      = (if (0 <=? top_k)%Z then Z.to_nat top_k `min` n else n - Z.to_nat (- top_k))
    ∧ ((Z.of_nat n ≤ top_k)%Z → results ≡ₚ Mongo.scored q <$> Mongo.candidates f w)
    ∧ (∀ t, f = Some t → t ≠ "" → Forall (λ r, r_file_type r = t) results)
    ∧ (f = Some "" →
       Mongo.similarity_search q top_k f w = Mongo.similarity_search q top_k None w).
Proof.
  intros Hw Hlen n.
  pose proof (mongo_search_healthy q top_k f w Hw Hlen) as Hs.
  assert (length (list_sort similarity_score true (Mongo.scored q <$> Mongo.candidates f w)) = n)
    as Hn.
  { by rewrite list_sort_Permutation, length_fmap. }
  eexists. split_and!; [exact Hs|..].
  - intros r Hr%slice_to_subseteq. by rewrite list_sort_Permutation in Hr.
  - by rewrite slice_to_exact_length, Hn.
  - intros Hk. rewrite slice_to_all by lia. apply list_sort_Permutation.
  - intros t -> Ht. apply Forall_forall. intros r Hr%slice_to_subseteq.
    rewrite list_sort_Permutation in Hr.
    apply list_elem_of_fmap in Hr as (d & -> & Hd).
    apply elem_of_List_filter in Hd as [Hd _]. simpl.
    unfold Mongo.filter_query, truthy_str in Hd.
    rewrite (proj2 (String.eqb_neq t "")) in Hd by done. simpl in Hd.
    by apply String.eqb_eq in Hd.
  - by intros ->.
Qed.

(** *** Statistics of any collection *)

Lemma count_in_known_sum (types : list string) :
  (count_in types "pdf" + count_in types "txt" + count_in types "docx"
   + Z.of_nat (length (List.filter (λ t, bool_decide (t ∉ known_file_types)) types)))%Z
  = Z.of_nat (length types).
Proof.
  unfold count_in. induction types as [|t types IH]; [done|].
  cbn [List.filter].
  destruct (bool_decide_reflect (t ∉ known_file_types)) as [Hn|Hy];
    destruct (String.eqb_spec t "pdf") as [?|?];
    destruct (String.eqb_spec t "txt") as [?|?];
    destruct (String.eqb_spec t "docx") as [?|?];
    simplify_eq; cbn [length]; try lia.
  all: exfalso.
  all: try (apply Hn; unfold known_file_types; rewrite !elem_of_cons; tauto).
  apply Hy. unfold known_file_types. rewrite !elem_of_cons, elem_of_nil. tauto.
Qed.

(** X10. The statistics of the exact scan over any collection, on a server
    that answers.  [total_chunks] counts every document.  [by_file_type]
    has an entry for a type exactly when the type is one of [pdf], [txt],
    [docx] and at least one document has it, and the entry is their
    number.  Documents of any other file type are counted in the total
    and appear in no entry, so the entries add up to the total only when
    there are none. *)
Theorem mongo_statistics_of_any_collection (w : Mongo.World) :
  Mongo.faults w = [] →
  let types := mongo_types w in
  let others := List.filter (λ t, bool_decide (t ∉ known_file_types)) types in
  ∃ stats,
    Mongo.get_statistics w = (Ok stats, w)
    ∧ total_chunks stats = Z.of_nat (length (Mongo.collection w))
    ∧ (∀ t n, by_file_type stats !! t = Some n
              ↔ t ∈ known_file_types ∧ n = count_in types t ∧ (0 < n)%Z)
    ∧ total_chunks stats
      = (count_in types "pdf" + count_in types "txt" + count_in types "docx"
         + Z.of_nat (length others))%Z.
Proof.
  intros Hw types others.
  rewrite (mongo_get_statistics_healthy w Hw). eexists. split_and!; [done|done|..].
  - intros t n. cbn [by_file_type]. rewrite tally_lookup, lookup_empty. fold types.
    destruct (decide (t ∈ known_file_types)) as [Hin|Hin].
    + rewrite bool_decide_eq_true_2 by done. simpl.
      destruct (0 <? count_in types t)%Z eqn:Hpos.
      * apply Z.ltb_lt in Hpos. split; [intros [= <-]; done|].
        intros (_ & -> & _). done.
      * apply Z.ltb_ge in Hpos. split; [done|]. intros (_ & -> & ?). lia.
    + rewrite bool_decide_eq_false_2 by done. simpl. split; [done|].
      by intros (? & _).
  - cbn [total_chunks]. unfold others. rewrite count_in_known_sum. unfold types, mongo_types.
    by rewrite length_fmap.
Qed.

(** ** The orchestrator *)

Ltac unfold_P :=
  unfold Main.open in *;
  unfold Main.and_then, Main.pure, Main.throw, Main.try_catch, Main.returning,
    Main.mylogger in *.

(** *** Stripping *)

Lemma lstrip_by_idemp p s : lstrip_by p (lstrip_by p s) = lstrip_by p s.
Proof.
  induction s as [|c s IH]; [done|]. simpl.
  destruct (p c) eqn:Hc; [done|]. simpl. by rewrite Hc.
Qed.

Lemma rstrip_by_idemp p s : rstrip_by p (rstrip_by p s) = rstrip_by p s.
Proof.
  induction s as [|c s IH]; [done|]. simpl.
  destruct (rstrip_by p s) as [|d r] eqn:Hr.
  - destruct (p c) eqn:Hc; [done|]. simpl. by rewrite Hc.
  - simpl. simpl in IH. by rewrite IH.
Qed.

Lemma rstrip_by_lstrip_by p s :
  rstrip_by p s = s → rstrip_by p (lstrip_by p s) = lstrip_by p s.
Proof.
  induction s as [|c s IH]; [done|]. intros Hs. simpl.
  destruct (p c) eqn:Hc; [|done].
  apply IH. simpl in Hs. rewrite Hc in Hs.
  destruct (rstrip_by p s) as [|d r]; [done|]. by simplify_eq.
Qed.

Lemma strip_idemp s : strip (strip s) = strip s.
Proof.
  unfold strip, lstrip, rstrip.
  rewrite rstrip_by_lstrip_by by apply rstrip_by_idemp.
  apply lstrip_by_idemp.
Qed.

(** *** The chunks of one sequence of paragraphs *)

Lemma chunk_of_Some p path ft item c :
  Main.chunk_of p path ft item = Some c →
  c = mkChunk (strip item.2) p (Z.of_nat item.1) path ft ∧ strip item.2 ≠ "".
Proof.
  destruct item as [i para]. unfold Main.chunk_of, truthy. simpl.
  destruct (String.eqb_spec (strip para) ""); simpl; [done|].
  by intros [= <-].
Qed.

Lemma numbered_sorted {A} (l : list A) k :
  StronglySorted (λ x y : nat * A, x.1 < y.1) (zip (seq k (length l)) l).
Proof.
  revert k. induction l as [|a l IH]; intros k; simpl; constructor.
  - apply IH.
  - apply Forall_forall. intros [i x] Hin.
    apply list_elem_of_lookup in Hin as [j Hj].
    apply lookup_zip_with_Some in Hj as (i' & x' & [= <- <-] & Hi & _).
    apply lookup_seq in Hi as [-> _]. simpl. lia.
Qed.

Lemma chunks_of_paragraphs_sorted p path ft (items : list (nat * string)) :
  StronglySorted (λ x y, x.1 < y.1) items →
  StronglySorted (λ a b, (chunk_index a < chunk_index b)%Z)
                 (omap (Main.chunk_of p path ft) items).
Proof.
  induction 1 as [|item items Hs IH Hall]; simpl; [constructor|].
  destruct (Main.chunk_of p path ft item) as [c|] eqn:Hc; [|done].
  constructor; [done|].
  apply Forall_forall. intros c' (item' & Hin & Hc')%list_elem_of_omap.
  apply chunk_of_Some in Hc as [-> _], Hc' as [-> _]. simpl.
  rewrite Forall_forall in Hall. specialize (Hall _ Hin). lia.
Qed.

Lemma chunks_of_paragraphs_shape p path ft (l : list string) c :
  c ∈ omap (Main.chunk_of p path ft) (enumerate l) →
  source c = path ∧ file_type c = ft ∧ page_number c = p
  ∧ text c ≠ "" ∧ strip (text c) = text c
  ∧ (∃ para, l !! Z.to_nat (chunk_index c) = Some para ∧ text c = strip para)
  ∧ (0 ≤ chunk_index c)%Z.
Proof.
  intros ([i para] & Hin & Hc)%list_elem_of_omap.
  apply enumerate_elem_of in Hin.
  apply chunk_of_Some in Hc as [-> Hne]. simpl.
  rewrite Nat2Z.id, Hin. split_and!; try done; [apply strip_idemp|by exists para|lia].
Qed.

(** *** The extractors *)

Ltac crunch_extract :=
  unfold Main.extract_text, Main.extract_text_from_pdf, Main.extract_text_from_txt,
    Main.extract_text_from_docx;
  unfold_P;
  repeat (case_match; simpl in *; simplify_eq).

(** The extractors read files and write log records: what they return
    and what they log does not depend on the world. *)
Lemma extract_text_pure env path :
  ∃ r msgs, ∀ w,
    Main.extract_text env path w
    = (r, Main.mkWorld (Main.mongo w) (Main.redis w) (Main.log w ++ msgs)).
Proof.
  unfold Main.extract_text, Main.extract_text_from_pdf, Main.extract_text_from_txt,
    Main.extract_text_from_docx. unfold_P.
  generalize (lower (os_path_splitext path).2). intros extension.
  destruct (String.eqb extension ".pdf"), (String.eqb extension ".txt"),
    (String.eqb extension ".docx"),
    (String.eqb extension ".doc"), (Main.open_fails env path), (Main.file_read env path),
    (Main.pdf_page_texts env path), (Main.docx_paragraph_texts env path); simpl.
  all: first [ by eexists _, []; intros [mw rw lg]; simpl; rewrite app_nil_r
             | eexists _, _; intros [mw rw lg]; simpl; rewrite <-?(assoc_L (++));
               reflexivity ].
Qed.

Lemma extract_text_inv env path w chunks w' :
  Main.extract_text env path w = (Return chunks, w') →
  let extension := lower (os_path_splitext path).2 in
  (extension = ".pdf"
   ∧ ∃ pages, Main.pdf_page_texts env path = Return pages
       ∧ chunks = concat (imap (λ page_num page_text,
                                  omap (Main.chunk_of (Some (Z.of_nat page_num + 1)%Z) path "pdf")
                                       (enumerate (split blank_line page_text)))
                               pages))
  ∨ (extension = ".txt"
     ∧ ∃ content, Main.file_read env path = Return content
         ∧ chunks = omap (Main.chunk_of None path "txt")
                         (enumerate (split blank_line content)))
  ∨ ((extension = ".docx" ∨ extension = ".doc")
     ∧ ∃ paragraphs, Main.docx_paragraph_texts env path = Return paragraphs
         ∧ chunks = omap (Main.chunk_of None path "docx") (enumerate paragraphs)).
Proof.
  intros H extension. revert H. fold extension.
  unfold Main.extract_text. fold extension.
  destruct (String.eqb_spec extension ".pdf") as [Hpdf|_].
  { unfold Main.extract_text_from_pdf. unfold_P. intros H. left. split; [done|].
    repeat (case_match; simpl in *; simplify_eq); by eexists. }
  destruct (String.eqb_spec extension ".txt") as [Htxt|_].
  { unfold Main.extract_text_from_txt. unfold_P. intros H. right. left. split; [done|].
    repeat (case_match; simpl in *; simplify_eq); by eexists. }
  destruct (String.eqb_spec extension ".docx") as [Hdocx|_]; simpl.
  { unfold Main.extract_text_from_docx. unfold_P. intros H. right. right.
    split; [by left|].
    repeat (case_match; simpl in *; simplify_eq); by eexists. }
  destruct (String.eqb_spec extension ".doc") as [Hdoc|_]; simpl.
  { unfold Main.extract_text_from_docx. unfold_P. intros H. right. right.
    split; [by right|].
    repeat (case_match; simpl in *; simplify_eq); by eexists. }
  unfold_P. done.
Qed.

Lemma elem_of_concat {A} (ls : list (list A)) x :
  x ∈ concat ls ↔ ∃ l, l ∈ ls ∧ x ∈ l.
Proof.
  rewrite list_elem_of_In, in_concat. setoid_rewrite list_elem_of_In. done.
Qed.

Lemma StronglySorted_weaken {A} (R R' : relation A) (l : list A) :
  (∀ a b, a ∈ l → b ∈ l → R a b → R' a b) →
  StronglySorted R l → StronglySorted R' l.
Proof.
  intros HR Hs. induction Hs as [|a l Hs IH Hall]; constructor.
  - apply IH. intros ?? ??. apply HR; by right.
  - rewrite Forall_forall in Hall. apply Forall_forall. intros b Hb.
    apply HR; [by left|by right|by apply Hall].
Qed.

Lemma chunks_of_paragraphs_precede p path ft (l : list string) :
  StronglySorted precedes (omap (Main.chunk_of p path ft) (enumerate l)).
Proof.
  eapply StronglySorted_weaken;
    [|apply chunks_of_paragraphs_sorted, numbered_sorted].
  intros a b (_ & _ & Ha & _)%chunks_of_paragraphs_shape
             (_ & _ & Hb & _)%chunks_of_paragraphs_shape Hlt.
  right. unfold page_of. by rewrite Ha, Hb.
Qed.

(** The chunks of the pages from page [k + 1] on. *)
Lemma pdf_chunks_sorted path (pages : list string) k :
  let chunks :=
    concat (imap (λ page_num page_text,
                    omap (Main.chunk_of (Some (Z.of_nat (k + page_num) + 1)%Z) path "pdf")
                         (enumerate (split blank_line page_text)))
                 pages) in
  StronglySorted precedes chunks
  ∧ Forall (λ c, ∃ n, page_number c = Some n ∧ (Z.of_nat k + 1 ≤ n)%Z
                      ∧ source c = path ∧ file_type c = "pdf" ∧ text c ≠ ""
                      ∧ strip (text c) = text c ∧ (0 ≤ chunk_index c)%Z) chunks.
Proof.
  revert k. induction pages as [|page pages IH]; intros k; simpl.
  { split; constructor. }
  rewrite (imap_ext _ (λ page_num page_text,
             omap (Main.chunk_of (Some (Z.of_nat (S k + page_num) + 1)%Z) path "pdf")
                  (enumerate (split blank_line page_text)))).
  2: { intros i x _. simpl. do 3 f_equal. lia. }
  destruct (IH (S k)) as [Hs Hall]. split.
  - apply StronglySorted_app_2; [|..|done].
    + intros c1 c2 (_ & _ & Hp1 & _)%chunks_of_paragraphs_shape Hc2.
      rewrite Forall_forall in Hall. destruct (Hall _ Hc2) as (n & Hp2 & Hn & _).
      left. unfold page_of. rewrite Hp1, Hp2. simpl. lia.
    + apply chunks_of_paragraphs_precede.
  - apply Forall_app. split.
    + apply Forall_forall.
      intros c (? & ? & Hp & ? & ? & _ & ?)%chunks_of_paragraphs_shape.
      eexists. split; [exact Hp|]. split_and!; try done. lia.
    + eapply Forall_impl; [exact Hall|]. simpl.
      intros c (n & ? & ? & Hrest). exists n.
      split; [done|]. split; [lia|]. exact Hrest.
Qed.

(** *** What the extractors return *)

(** X11. The chunks [extract_text] returns for a file.  All of them have
    the same file type, one of [pdf], [txt] and [docx], and the path of
    the file as source; their text is not empty and has no white space at
    either end; the chunks of a PDF file carry a page number from [1] on,
    the others none.  They come ordered by page and then by paragraph
    index, so no two chunks of a file share page and index.  Extraction
    touches neither server. *)
Theorem extracted_chunks_are_well_formed
    (env : Main.Env) (file_path : string) (w w' : Main.World) (chunks : list Chunk) :
  Main.extract_text env file_path w = (Return chunks, w') →
  (∃ ft, ft ∈ known_file_types
         ∧ Forall (λ c, file_type c = ft) chunks
         ∧ (ft = "pdf" → Forall (λ c, ∃ n, page_number c = Some n ∧ (1 ≤ n)%Z) chunks)
         ∧ (ft ≠ "pdf" → Forall (λ c, page_number c = None) chunks))
  ∧ Forall (λ c, source c = file_path ∧ text c ≠ "" ∧ strip (text c) = text c
                 ∧ (0 ≤ chunk_index c)%Z) chunks
  ∧ StronglySorted precedes chunks
  ∧ Main.mongo w' = Main.mongo w ∧ Main.redis w' = Main.redis w.
Proof.
  intros Hx.
  assert (Main.mongo w' = Main.mongo w ∧ Main.redis w' = Main.redis w) as Hframe.
  { destruct (extract_text_pure env file_path) as (r & msgs & Hp).
    rewrite Hp in Hx. by simplify_eq. }
  apply extract_text_inv in Hx as
    [(_ & pages & _ & ->)|[(_ & content & _ & ->)|(_ & paragraphs & _ & ->)]].
  - destruct (pdf_chunks_sorted file_path pages 0) as [Hs Hall]. simpl in Hs, Hall.
    split; [|split; [|split; [exact Hs|exact Hframe]]].
    + exists "pdf". split; [|split; [|split]].
      * unfold known_file_types. rewrite !elem_of_cons. tauto.
      * eapply Forall_impl; [exact Hall|]. by intros c (n & _ & _ & _ & ? & _).
      * intros _. eapply Forall_impl; [exact Hall|].
        intros c (n & ? & ? & _). exists n. split; [done|lia].
      * done.
    + eapply Forall_impl; [exact Hall|]. by intros c (n & _ & _ & ? & _ & ? & ? & ?).
  - split; [|split; [|split; [apply chunks_of_paragraphs_precede|exact Hframe]]].
    + exists "txt". split; [|split; [|split]].
      * unfold known_file_types. rewrite !elem_of_cons. tauto.
      * apply Forall_forall. by intros c (_ & ? & _)%chunks_of_paragraphs_shape.
      * done.
      * intros _. apply Forall_forall.
        by intros c (_ & _ & ? & _)%chunks_of_paragraphs_shape.
    + apply Forall_forall.
      by intros c (? & _ & _ & ? & ? & _ & ?)%chunks_of_paragraphs_shape.
  - split; [|split; [|split; [apply chunks_of_paragraphs_precede|exact Hframe]]].
    + exists "docx". split; [|split; [|split]].
      * unfold known_file_types. rewrite !elem_of_cons. tauto.
      * apply Forall_forall. by intros c (_ & ? & _)%chunks_of_paragraphs_shape.
      * done.
      * intros _. apply Forall_forall.
        by intros c (_ & _ & ? & _)%chunks_of_paragraphs_shape.
    + apply Forall_forall.
      by intros c (? & _ & _ & ? & ? & _ & ?)%chunks_of_paragraphs_shape.
Qed.

(** X12. Page numbers of extracted chunks survive the ANN index.  After
    the chunks [extract_text] returned for a file are stored in an empty
    key space, on a server that answers, every result of a search shows
    the page number of the chunk it comes from: the page numbers of the
    extractors start at [1], so none of them is taken for the marker of a
    missing one. *)
Theorem extracted_pages_survive_the_index
    (env : Main.Env) (file_path : string) (w w' : Main.World) (chunks : list Chunk)
    (self : Redis.Store) (embeddings : list ndarray) (document_name : string)
    (q : ndarray) (top_k : Z) (f : option string) (rw : Redis.World) :
  Main.extract_text env file_path w = (Return chunks, w') →
  Redis.faults rw = [] →
  Redis.hashes rw = ∅ →
  ∃ ids rw1 results rw2,
    Redis.store_embeddings self chunks embeddings document_name rw = (Ok ids, rw1)
    ∧ Redis.similarity_search self q top_k f rw1 = (Ok results, rw2)
    ∧ ∀ r, r ∈ results →
        ∃ i chunk,
          chunks !! i = Some chunk
          ∧ r_id r = Redis.doc_id self document_name i chunk
          ∧ r_text r = text chunk
          ∧ r_page_number r = page_number chunk.
Proof.
  intros Hx Hw Hempty.
  destruct (redis_store_search_image self chunks embeddings document_name q top_k f rw
              Hw Hempty) as (ids & rw1 & results & rw2 & Hs & Hq & Himage).
  exists ids, rw1, results, rw2. split_and!; [done|done|].
  intros r Hr.
  destruct (Himage r Hr) as (i & c & e & Hc & _ & _ & ->).
  exists i, c. split_and!; try done.
  rewrite redis_page_read_back.
  assert (c ∈ chunks) as Hin by (by eapply list_elem_of_lookup_2).
  apply extract_text_inv in Hx as
    [(_ & pages & _ & ->)|[(_ & content & _ & ->)|(_ & paragraphs & _ & ->)]].
  - destruct (pdf_chunks_sorted file_path pages 0) as [_ Hall]. simpl in Hall.
    rewrite Forall_forall in Hall. destruct (Hall c Hin) as (n & -> & Hn & _).
    rewrite bool_decide_eq_false_2; [done|lia].
  - apply chunks_of_paragraphs_shape in Hin as (_ & _ & -> & _). done.
  - apply chunks_of_paragraphs_shape in Hin as (_ & _ & -> & _). done.
Qed.

(** *** Constructing the vectorizer *)

(** X13. [DocumentVectorizer.__init__] never raises.  Whatever goes wrong
    inside it (the model does not load, ["VECTOR_STORE"] is missing or
    names no backend, the constructor of the backend raises its
    [DatabaseConnectionError]) is logged as an error and the object is
    returned without a client.  An object with a client has the model
    and the backend its configuration names. *)
Theorem vectorizer_construction_never_raises
    (env : Main.Env) (config_params : Main.Settings) (w : Main.World) :
  ∃ self w',
    Main.__init__ env config_params w = (Return self, w')
    ∧ Main.config_params self = config_params
    ∧ match Main.client self with
      | Some client =>
          ∃ t, Main.VECTOR_STORE config_params = Some t
               ∧ Main.vector_store_type self = Some t
               ∧ is_Some (Main.model self)
               ∧ match client with
                 | Main.MongoVectorStore store =>
                     lower t = "mongodb"
                     ∧ store = Mongo.mkStore (Main.stores config_params)
                                 (EMBEDDING_DIM (Main.stores config_params)) true
                 | Main.RedisVectorStore store =>
                     lower t = "redis"
                     ∧ Redis.config_params store = Main.stores config_params
                 end
      | None =>
          ∃ msg, last (Main.log w')
                 = Some (Main.ERROR, "Error initializing DocumentVectorizer: " +:+ msg)
      end.
Proof.
  unfold Main.__init__, Main.init_failed, Main.in_mongo, Main.in_redis. unfold_P.
  destruct (Main.SentenceTransformer env _) as [model|e]; simpl.
  2: { eexists _, _. split_and!; [done|done|]. simpl. eexists. apply last_snoc. }
  destruct (Main.VECTOR_STORE config_params) as [t|]; simpl.
  2: { eexists _, _. split_and!; [done|done|]. simpl. eexists. apply last_snoc. }
  destruct (String.eqb_spec (lower t) "mongodb") as [Hm|_]; simpl.
  { pose proof (mongo_init_cases (Main.stores config_params) (Main.mongo w)) as Hc.
    destruct (Mongo.__init__ _ _) as [[s|e] mw]; simpl.
    - destruct Hc as [-> _]. eexists _, _. split_and!; [done|done|]. simpl.
      exists t. split_and!; by eauto.
    - eexists _, _. split_and!; [done|done|]. simpl. eexists. apply last_snoc. }
  destruct (String.eqb_spec (lower t) "redis") as [Hr|_]; simpl.
  { pose proof (redis_init_cases (Main.stores config_params) (Main.redis w)) as Hc.
    destruct (Redis.__init__ _ _) as [[s|e] rw]; simpl.
    - destruct Hc as [-> _]. eexists _, _. split_and!; [done|done|]. simpl.
      exists t. split_and!; by eauto.
    - eexists _, _. split_and!; [done|done|]. simpl. eexists. apply last_snoc. }
  eexists _, _. split_and!; [done|done|]. simpl. eexists. apply last_snoc.
Qed.

(** *** Processing a document *)

Lemma process_document_steps env self file_path document_name w :
  Main.os_path_exists env file_path = true →
  ∃ r msgs,
    (∀ w0, Main.extract_text env file_path w0
           = (r, Main.mkWorld (Main.mongo w0) (Main.redis w0) (Main.log w0 ++ msgs)))
    ∧ Main.process_document env self file_path document_name w
      = match r with
        | Throw e =>
            (Throw e,
             Main.mkWorld (Main.mongo w) (Main.redis w)
               (Main.log w ++ [(Main.INFO, "Extracting text from document...")] ++ msgs))
        | Return chunks =>
            (match chunks with
             | [] => Main.throw (Py (mkExn ValueError "No text content found in document"))
             | first_chunk :: _ =>
                 Main.and_then (Main.mylogger Main.INFO "Generating embeddings...") (λ _,
                 Main.and_then (Main.generate_embeddings self (text <$> chunks)) (λ embeddings,
                 Main.and_then (Main.mylogger Main.INFO
                                  ("✓ Generated embeddings with dimension "
                                   +:+ pretty (Main.shape1 embeddings))) (λ _,
                 Main.and_then (Main.get_vector_store_type self) (λ store_type,
                 Main.and_then (Main.mylogger Main.INFO
                                  ("✓ Storing in " +:+ store_type +:+ "...")) (λ _,
                 Main.and_then (Main.client_store_embeddings self chunks embeddings
                                  (default (os_path_basename file_path) document_name))
                               (λ doc_ids,
                 Main.and_then (Main.mylogger Main.INFO
                                  ("✓ Successfully stored " +:+ pretty (length doc_ids)
                                   +:+ " chunks")) (λ _,
                 Main.and_then (Main.get_vector_store_type self) (λ store_type,
                 Main.pure (Main.mkSummary
                              (default (os_path_basename file_path) document_name)
                              (file_type first_chunk) (Z.of_nat (length chunks))
                              (slice_to doc_ids 3) (Main.shape1 embeddings)
                              store_type)))))))))
             end)
              (Main.mkWorld (Main.mongo w) (Main.redis w)
                 (Main.log w ++ [(Main.INFO, "Extracting text from document...")] ++ msgs
                  ++ [(Main.DEBUG, "✓ Extracted " +:+ pretty (length chunks)
                                   +:+ " text chunks")]))
        end.
Proof.
  intros Hex. destruct (extract_text_pure env file_path) as (r & msgs & Hp).
  exists r, msgs. split; [done|].
  unfold Main.process_document. rewrite Hex. simpl.
  unfold Main.and_then at 1. unfold Main.mylogger at 1.
  unfold Main.and_then at 1. rewrite Hp. simpl.
  destruct r as [chunks|e];
    [|by cbn [Main.mongo Main.redis Main.log]; rewrite <-(assoc_L (++))].
  unfold Main.and_then at 1. unfold Main.mylogger at 1.
  cbn [Main.mongo Main.redis Main.log]. rewrite <-!(assoc_L (++)). done.
Qed.

(** X14. When [process_document] gives up, nothing has been stored.  A
    path that does not exist raises [FileNotFoundError] at once.  A file
    the extractors fail on raises their exception, and a file without
    text raises [ValueError]: an empty batch is never handed to a store.
    A vectorizer whose constructor left it without model, store type or
    client raises for every document.  In all these cases both servers
    are as they were. *)
Theorem process_document_failures_store_nothing
    (env : Main.Env) (self : Main.DocumentVectorizer) (file_path : string)
    (document_name : option string) (w : Main.World) :
  let outcome := Main.process_document env self file_path document_name w in
  let nothing_stored :=
    Main.mongo outcome.2 = Main.mongo w ∧ Main.redis outcome.2 = Main.redis w in
  (Main.os_path_exists env file_path = false →
   outcome = (Throw (FileNotFoundError ("File not found: " +:+ file_path)), w))
  ∧ (Main.os_path_exists env file_path = true →
     (∀ e, (Main.extract_text env file_path w).1 = Throw e →
           outcome.1 = Throw e ∧ nothing_stored)
     ∧ ((Main.extract_text env file_path w).1 = Return [] →
        outcome.1 = Throw (Py (mkExn ValueError "No text content found in document"))
        ∧ nothing_stored)
     ∧ (Main.model self = None ∨ Main.vector_store_type self = None
        ∨ Main.client self = None →
        (∃ e, outcome.1 = Throw e) ∧ nothing_stored)).
Proof.
  intros outcome nothing_stored. split.
  { intros Hex. unfold outcome, Main.process_document. by rewrite Hex. }
  intros Hex.
  destruct (process_document_steps env self file_path document_name w Hex)
    as (r & msgs & Hp & Hd).
  unfold nothing_stored, outcome. rewrite Hd, (Hp w). simpl. clear Hd.
  split_and!.
  - intros e ->. done.
  - intros [= ->]. done.
  - intros Hmissing. destruct r as [[|c0 chunks]|e]; [by eauto|..|by eauto].
    unfold Main.generate_embeddings, Main.get_vector_store_type,
      Main.client_store_embeddings. unfold_P.
    destruct (Main.model self) as [enc|]; [|by eauto].
    destruct (Main.vector_store_type self) as [t|]; [|by eauto].
    destruct (Main.client self) as [cl|]; [|by eauto].
    by destruct Hmissing as [?|[?|?]].
Qed.

(** X15. What [process_document] does for a file with text, on a server
    that answers, the model returning one row per text.  The chunks
    [extract_text] returns for the file are stored under the document
    name (the base name of the path unless one is given), each with its
    row as embedding, by the client of the vectorizer; the summary counts
    all chunks and lists the first three identifiers of the store. *)
Theorem process_document_stores_what_it_extracts
    (env : Main.Env) (self : Main.DocumentVectorizer) (file_path : string)
    (document_name : option string) (w : Main.World)
    (chunks : list Chunk) (encoder : Main.Encoder) (store_type : string) :
  Main.os_path_exists env file_path = true →
  (Main.extract_text env file_path w).1 = Return chunks →
  chunks ≠ [] →
  Main.model self = Some encoder →
  length (Main.rows (encoder (text <$> chunks))) = length chunks →
  Main.vector_store_type self = Some store_type →
  let name := default (os_path_basename file_path) document_name in
  let embeddings := Main.rows (encoder (text <$> chunks)) in
  (∀ store,
     Main.client self = Some (Main.MongoVectorStore store) →
     Mongo.faults (Main.mongo w) = [] →
     ∃ summary w' ids,
       Main.process_document env self file_path document_name w
       = (Return summary, w')
       ∧ Mongo.store_embeddings chunks embeddings name (Main.mongo w)
         = (Ok ids, Main.mongo w')
       ∧ Main.redis w' = Main.redis w
       ∧ length ids = length chunks
       ∧ Main.s_document_name summary = name
       ∧ Main.s_total_chunks summary = Z.of_nat (length chunks)
       ∧ Main.s_inserted_ids summary = take 3 ids
       ∧ Some (Main.s_file_type summary) = file_type <$> head chunks)
  ∧ (∀ store,
       Main.client self = Some (Main.RedisVectorStore store) →
       Redis.faults (Main.redis w) = [] →
       ∃ summary w' ids,
         Main.process_document env self file_path document_name w
         = (Return summary, w')
         ∧ Redis.store_embeddings store chunks embeddings name (Main.redis w)
           = (Ok ids, Main.redis w')
         ∧ Main.mongo w' = Main.mongo w
         ∧ length ids = length chunks
         ∧ Main.s_document_name summary = name
         ∧ Main.s_total_chunks summary = Z.of_nat (length chunks)
         ∧ Main.s_inserted_ids summary = take 3 ids
         ∧ Some (Main.s_file_type summary) = file_type <$> head chunks).
Proof.
  intros Hex Hx Hne Hmodel Hrows Htype name embeddings.
  destruct (process_document_steps env self file_path document_name w Hex)
    as (r & msgs & Hp & Hd).
  rewrite (Hp w) in Hx. simpl in Hx. subst r.
  destruct chunks as [|c0 chunks]; [done|].
  rewrite Hd. clear Hd.
  unfold Main.generate_embeddings, Main.get_vector_store_type,
    Main.client_store_embeddings. rewrite Hmodel, Htype.
  assert (zip (c0 :: chunks) embeddings ≠ []) as Hzip.
  { intros [?|Hz]%zip_nil_inv; [done|].
    unfold embeddings in Hz. by rewrite Hz in Hrows. }
  split.
  - intros store -> Hw.
    pose proof (mongo_store_healthy (c0 :: chunks) embeddings name (Main.mongo w) Hw Hzip)
      as Hs.
    cbv zeta in Hs. unfold Main.in_mongo. unfold_P.
    cbn [Main.mongo Main.redis Main.log]. fold embeddings. fold name.
    rewrite Hs. cbn [of_outcome Main.mongo Main.redis Main.log].
    eexists _, _, _. split_and!; [done|done|done|..|done|done|done|done].
    rewrite length_fmap, mongo_fresh_ids_length, length_fmap, zip_length_min.
    unfold embeddings. rewrite Hrows. lia.
  - intros store -> Hw.
    pose proof (redis_store_healthy store (c0 :: chunks) embeddings name (Main.redis w) Hw)
      as Hs.
    cbv zeta in Hs. unfold Main.in_redis. unfold_P.
    cbn [Main.mongo Main.redis Main.log]. fold embeddings. fold name.
    rewrite Hs. cbn [of_outcome Main.mongo Main.redis Main.log].
    eexists _, _, _. split_and!; [done|done|done|..|done|done|done|done].
    rewrite !length_fmap, enumerate_length, zip_length_min.
    unfold embeddings. rewrite Hrows. lia.
Qed.

(** *** Finding the documents *)

Lemma sorted_Permutation l : sorted l ≡ₚ l.
Proof. apply stable_sort_Permutation. Qed.

Lemma sorted_ascending l : Sorted (λ a b, String.leb a b = true) (sorted l).
Proof.
  unfold sorted. eapply Sorted_weaken with (P := λ _, True);
    [|by apply Forall_forall|apply Sorted_stable_sort].
  intros a b _ _ [Hlt|Hge]; unfold String.ltb, String.leb in *.
  - by destruct (String.compare a b).
  - rewrite String.compare_antisym. by destruct (String.compare b a).
Qed.

(** The last index of a character. *)
Lemma rfind_from_spec c s i last :
  rfind_from c s i last
  = (if (rfind c s =? -1)%Z then last else i + rfind c s)%Z
  ∧ (-1 ≤ rfind c s < Z.of_nat (String.length s))%Z.
Proof.
  unfold rfind. revert i last. induction s as [|d s IH]; intros i last.
  { simpl. split; [done|lia]. }
  cbn [rfind_from String.length].
  destruct (IH (i + 1)%Z (if Ascii.eqb d c then i else last)) as [-> _].
  destruct (IH (0 + 1)%Z (if Ascii.eqb d c then 0%Z else (-1)%Z)) as [-> Hb].
  destruct (Z.eqb_spec (rfind_from c s 0 (-1)) (-1)) as [Hr|Hr].
  - destruct (Ascii.eqb d c); simpl; split; try done; lia.
  - assert ((0 + 1 + rfind_from c s 0 (-1) =? -1)%Z = false) as -> by lia.
    split; lia.
Qed.

Lemma rfind_bounds c s : (-1 ≤ rfind c s < Z.of_nat (String.length s))%Z.
Proof. apply (rfind_from_spec c s 0 0). Qed.

Lemma rfind_from_app c a b i last :
  rfind_from c (a +:+ b) i last
  = rfind_from c b (i + Z.of_nat (String.length a)) (rfind_from c a i last).
Proof.
  revert i last. induction a as [|d a IH]; intros i last.
  { rewrite string_app_nil. simpl. f_equal. lia. }
  rewrite string_app_cons. cbn [rfind_from String.length]. rewrite IH.
  f_equal. lia.
Qed.

Lemma rfind_app c a b :
  rfind c (a +:+ b)
  = (if (rfind c b =? -1)%Z then rfind c a
     else Z.of_nat (String.length a) + rfind c b)%Z.
Proof.
  unfold rfind at 1. rewrite rfind_from_app.
  destruct (rfind_from_spec c b (0 + Z.of_nat (String.length a))
              (rfind_from c a 0 (-1))) as [-> _].
  fold (rfind c a). by destruct (rfind c b =? -1)%Z.
Qed.

Lemma rfind_no_slash s : no_slash s = true → rfind "/" s = (-1)%Z.
Proof.
  unfold rfind. induction s as [|d s IH]; [done|]. cbn [no_slash rfind_from].
  intros [Hd Hs]%andb_true_iff. apply negb_true_iff in Hd. rewrite Hd.
  destruct (rfind_from_spec "/" s (0 + 1) (-1)) as [-> _].
  unfold rfind. rewrite (IH Hs). done.
Qed.

Lemma rfind_ends_with_slash s :
  ends_with_slash s = true → rfind "/" s = (Z.of_nat (String.length s) - 1)%Z.
Proof.
  induction s as [|d s IH]; [done|]. intros Hs.
  change (String d s) with (String d "" +:+ s) at 1.
  rewrite rfind_app. destruct s as [|d' s].
  - simpl in Hs. unfold rfind. simpl. by rewrite Hs.
  - rewrite (IH Hs). cbn [String.length].
    destruct (Z.eqb_spec (Z.of_nat (S (String.length s)) - 1) (-1)); lia.
Qed.

Lemma str_drop_app a b : str_drop (String.length a) (a +:+ b) = b.
Proof. induction a as [|d a IH]; [by destruct b|]. by rewrite string_app_cons. Qed.

Lemma str_drop_add n m s : str_drop (n + m) s = str_drop m (str_drop n s).
Proof.
  revert s. induction n as [|n IH]; intros s; [done|].
  destruct s as [|d s]; simpl; [by destruct m|]. apply IH.
Qed.

Lemma string_length_app (a b : string) :
  String.length (a +:+ b) = String.length a + String.length b.
Proof.
  induction a as [|d a IH]; [by rewrite string_app_nil|].
  rewrite string_app_cons. simpl. by rewrite IH.
Qed.

(** The extension of [pre + name] when [pre] is empty or ends with a
    slash and [name] has no slash is the extension of [name]. *)
Lemma splitext_under pre name :
  pre = "" ∨ ends_with_slash pre = true →
  no_slash name = true →
  (os_path_splitext (pre +:+ name)).2 = (os_path_splitext name).2.
Proof.
  intros Hpre Hname. unfold os_path_splitext.
  rewrite !rfind_app, (rfind_no_slash name Hname). simpl (_ =? _)%Z.
  assert (rfind "/" pre + 1 = Z.of_nat (String.length pre))%Z as Hsep.
  { destruct Hpre as [->|Hpre]; [done|]. rewrite rfind_ends_with_slash by done. lia. }
  pose proof (rfind_bounds "." pre) as Hdp.
  pose proof (rfind_bounds "." name) as Hdn.
  destruct (Z.eqb_spec (rfind "." name) (-1)) as [Hno|Hdot].
  - rewrite Hno. simpl (-1 <? -1)%Z. cbv iota.
    destruct (Z.ltb_spec (rfind "/" pre) (rfind "." pre)); [lia|done].
  - destruct (Z.ltb_spec (-1) (rfind "." name)); [|lia].
    destruct (Z.ltb_spec (rfind "/" pre)
                (Z.of_nat (String.length pre) + rfind "." name)); [|lia].
    rewrite Hsep.
    replace (Z.of_nat (String.length pre) + rfind "." name
             - Z.of_nat (String.length pre))%Z with (rfind "." name - (-1 + 1))%Z by lia.
    rewrite Nat2Z.id, str_drop_app. simpl (Z.to_nat (-1 + 1)).
    change (str_drop 0 name) with name.
    destruct (all_dots _); [done|]. simpl.
    replace (Z.to_nat (Z.of_nat (String.length pre) + rfind "." name))
      with (String.length pre + Z.to_nat (rfind "." name)) by lia.
    by rewrite str_drop_add, str_drop_app.
Qed.

Lemma no_slash_prefix name : no_slash name = true → String.prefix "/" name = false.
Proof.
  destruct name as [|d name]; [done|]. cbn [no_slash].
  intros [Hd _]%andb_true_iff. apply negb_true_iff in Hd.
  apply Ascii.eqb_neq in Hd. cbn [String.prefix].
  destruct (Ascii.ascii_dec "/" d) as [Heq|?]; [by subst|done].
Qed.

Lemma ends_with_slash_app a : ends_with_slash (a +:+ "/") = true.
Proof.
  induction a as [|d a IH]; [done|]. rewrite string_app_cons.
  cbn [ends_with_slash]. destruct (a +:+ "/") eqn:Ha; [|done].
  by destruct a.
Qed.

Lemma splitext_join dir name :
  no_slash name = true →
  (os_path_splitext (os_path_join dir name)).2 = (os_path_splitext name).2.
Proof.
  intros Hname. unfold os_path_join. rewrite (no_slash_prefix name Hname).
  destruct (String.eqb_spec dir "") as [->|Hdir]; simpl.
  { apply splitext_under; [by left|done]. }
  destruct (ends_with_slash dir) eqn:Hend.
  { apply splitext_under; [by right|done]. }
  rewrite <-string_app_assoc. apply splitext_under; [right|done].
  apply ends_with_slash_app.
Qed.

Lemma lower_char_idemp c : lower_char (lower_char c) = lower_char c.
Proof. destruct c as [[] [] [] [] [] [] [] []]; vm_compute; reflexivity. Qed.

Lemma lower_idemp s : lower (lower s) = lower s.
Proof.
  induction s as [|c s IH]; [done|]. unfold lower in *. simpl.
  by rewrite lower_char_idemp, IH.
Qed.

Lemma lstrip_dots_idemp s : lstrip_dots (lstrip_dots s) = lstrip_dots s.
Proof.
  induction s as [|c s IH]; [done|]. simpl.
  destruct (Ascii.eqb c ".") eqn:Hc; [done|]. simpl. by rewrite Hc.
Qed.

Lemma lower_lstrip_dots s : lower (lstrip_dots s) = lstrip_dots (lower s).
Proof.
  induction s as [|c s IH]; [done|]. unfold lower in *. simpl.
  destruct (Ascii.eqb_spec c ".") as [->|Hc]; [done|]. simpl.
  assert (Ascii.eqb (lower_char c) "." = false) as ->; [|done].
  apply Ascii.eqb_neq. intros Heq. apply Hc.
  revert Heq. destruct c as [[] [] [] [] [] [] [] []]; vm_compute; congruence.
Qed.

Lemma normalize_extension_idemp ext :
  Main.normalize_extension (Main.normalize_extension ext) = Main.normalize_extension ext.
Proof.
  unfold Main.normalize_extension. f_equal.
  change (lower ("." +:+ lstrip_dots (lower ext)))
    with (String "." (lower (lstrip_dots (lower ext)))).
  cbn [lstrip_dots]. simpl (Ascii.eqb _ _).
  by rewrite lower_lstrip_dots, lower_idemp, lstrip_dots_idemp.
Qed.

(** X16. What [get_documents_from_path] returns, the names in a directory
    having no slash.  The paths come in ascending order.  Each has, in
    lower case, one of the extensions asked for, and the extensions may
    be asked for in any case and with or without leading dots.  With the
    default file types every path returned has an extension
    [extract_text] has an extractor for.  Without recursion every path
    returned is a file of the directory. *)
Theorem documents_found_are_sorted_and_wanted
    (env : Main.Env) (path : string) (file_types : option (list string))
    (recursive : bool) (docs : list string) :
  Main.get_documents_from_path env path file_types recursive = Return docs →
  (∀ items, Main.os_listdir env path = Return items →
            Forall (λ name, no_slash name = true) items) →
  Forall (λ t, Forall (λ name, no_slash name = true) t.2) (Main.os_walk env path) →
  Sorted (λ a b, String.leb a b = true) docs
  ∧ (∀ d, d ∈ docs →
       lower (os_path_splitext d).2
       ∈ Main.normalize_extension <$> default ["pdf"; "txt"; "docx"; "doc"] file_types)
  ∧ (file_types = None → ∀ d, d ∈ docs → lower (os_path_splitext d).2 ∈ extractable)
  ∧ (recursive = false → ∀ d, d ∈ docs → Main.os_path_isfile env d = true)
  ∧ Main.get_documents_from_path env path
      (Some (Main.normalize_extension <$> default ["pdf"; "txt"; "docx"; "doc"] file_types))
      recursive
    = Return docs.
Proof.
  intros Hg Hlist Hwalk.
  assert (Main.get_documents_from_path env path
            (Some (Main.normalize_extension
                     <$> default ["pdf"; "txt"; "docx"; "doc"] file_types)) recursive
          = Return docs) as Hnorm.
  { rewrite <-Hg. unfold Main.get_documents_from_path. cbn [from_option]. unfold id.
    assert (∀ l, Main.normalize_extension <$> (Main.normalize_extension <$> l)
                 = Main.normalize_extension <$> l) as ->; [|done].
    intros l. rewrite <-list_fmap_compose. apply list_fmap_ext.
    intros ?? _. apply normalize_extension_idemp. }
  assert (Sorted (λ a b, String.leb a b = true) docs
          ∧ (∀ d, d ∈ docs →
               lower (os_path_splitext d).2
               ∈ Main.normalize_extension
                   <$> default ["pdf"; "txt"; "docx"; "doc"] file_types)
          ∧ (recursive = false → ∀ d, d ∈ docs → Main.os_path_isfile env d = true))
    as (Hsorted & Hext & Hfile).
  { revert Hg. unfold Main.get_documents_from_path.
    set (extensions := Main.normalize_extension <$> _).
    destruct (Main.os_path_exists env path); [|done]. simpl.
    destruct (Main.os_path_isdir env path); [|done]. simpl.
    destruct recursive.
    - intros [= <-]. split; [apply sorted_ascending|]. split; [|done].
      intros d. rewrite sorted_Permutation, elem_of_concat.
      intros (l & Hl & Hd). apply list_elem_of_fmap in Hl as ([[root dirs] files] & -> & Ht).
      apply list_elem_of_fmap in Hd as (file & -> & Hfile).
      apply elem_of_List_filter in Hfile as [Hwanted Hfile].
      rewrite Forall_forall in Hwalk. specialize (Hwalk _ Ht). simpl in Hwalk.
      rewrite Forall_forall in Hwalk. rewrite splitext_join by by apply Hwalk.
      by apply bool_decide_eq_true in Hwanted.
    - destruct (Main.os_listdir env path) as [items|e] eqn:Hitems; [|done].
      intros [= <-]. split; [apply sorted_ascending|].
      assert (∀ d, d ∈ sorted (omap (λ item,
                       if Main.os_path_isfile env (os_path_join path item)
                          && bool_decide (lower (os_path_splitext item).2 ∈ extensions)
                       then Some (os_path_join path item) else None) items) →
                ∃ item, item ∈ items ∧ d = os_path_join path item
                        ∧ Main.os_path_isfile env d = true
                        ∧ lower (os_path_splitext item).2 ∈ extensions) as Hd.
      { intros d. rewrite sorted_Permutation. intros (item & Hin & Hsome)%list_elem_of_omap.
        destruct (Main.os_path_isfile env (os_path_join path item)) eqn:Hf; [|done].
        destruct (bool_decide _) eqn:Hw; [|done]. simpl in Hsome. simplify_eq.
        apply bool_decide_eq_true in Hw. by exists item. }
      split.
      + intros d (item & Hin & -> & _ & Hw)%Hd.
        specialize (Hlist items eq_refl). rewrite Forall_forall in Hlist.
        by rewrite splitext_join by by apply Hlist.
      + intros _ d (item & _ & _ & ? & _)%Hd. done. }
  split_and!; try done.
  intros -> d Hd. specialize (Hext d Hd). revert Hext. vm_compute. done.
Qed.

(** ** The utilities *)

(** *** The logger *)

(** X17. The logger [mylogger] returns.  The level of the file handler is
    taken from [console_level], like that of the console handler, so a
    record reaches the file exactly when it reaches the console.  For a
    standard [console_level] and a [file_level] other than [NOTSET] these
    are the records of level [console_level] or more, whatever
    [file_level] is: a record below [console_level] is not written to
    the file even if [file_level] admits it. *)
Theorem file_level_does_not_set_the_file_handler
    (FileHandler_fails : string → option Exn) (filename : string)
    (console_level file_level parent_level levelno : Z) (logger : Utils.Logger) :
  Utils.mylogger FileHandler_fails filename console_level file_level = Return logger →
  Utils.reaches_file parent_level logger levelno
  = Utils.reaches_console parent_level logger levelno
  ∧ (console_level ∈ [10; 20; 30; 40; 50]%Z → file_level ≠ 0%Z →
     Utils.reaches_file parent_level logger levelno = (console_level <=? levelno)%Z)
  ∧ (console_level ∈ [10; 20; 30; 40; 50]%Z → (levelno < console_level)%Z →
     Utils.reaches_file parent_level logger levelno = false).
Proof.
  unfold Utils.mylogger. destruct (FileHandler_fails filename); [done|].
  intros [= <-]. split; [done|].
  assert (console_level ∈ [10; 20; 30; 40; 50]%Z →
          Utils.handler_level console_level = console_level) as Hh.
  { rewrite !elem_of_cons, elem_of_nil. intros [->|[->|[->|[->|[->|[]]]]]]; done. }
  unfold Utils.reaches_file, Utils.effective_level. simpl. split.
  - intros Hstd Hfile. rewrite (Hh Hstd).
    assert (console_level ≠ 0%Z) as Hc.
    { intros ->. revert Hstd. rewrite !elem_of_cons, elem_of_nil.
      intros [?|[?|[?|[?|[?|[]]]]]]; done. }
    destruct (Z.eqb_spec (console_level `min` file_level) 0); [lia|].
    destruct (Z.leb_spec console_level levelno); [|by rewrite andb_false_r].
    rewrite andb_true_r. apply Z.leb_le. lia.
  - intros Hstd Hlt. rewrite (Hh Hstd).
    destruct (Z.leb_spec console_level levelno); [lia|]. by rewrite andb_false_r.
Qed.

(** *** The configuration *)

Ltac invert_config H :=
  repeat match type of H with
    | context [match ?x with _ => _ end] =>
        destruct x eqn:?; cbn [result_bind] in H; try discriminate H
    end.

Lemma set_str_inv environ key c c' :
  Utils.set_str environ key c = Return c' →
  ∃ v, environ !! key = Some v ∧ c' = <[key := Utils.VStr v]> c.
Proof.
  unfold Utils.set_str, Utils.os_environ.
  destruct (environ !! key) as [v|]; [|done]. simpl. intros [= <-]. by exists v.
Qed.

Lemma set_int_inv environ key c c' :
  Utils.set_int environ key c = Return c' →
  ∃ v n, environ !! key = Some v ∧ parse_int v = Some n
         ∧ c' = <[key := Utils.VInt n]> c.
Proof.
  unfold Utils.set_int, Utils.os_environ, int.
  destruct (environ !! key) as [v|]; [|done]. simpl.
  destruct (parse_int v) as [n|] eqn:Hn; [|done]. simpl. intros [= <-]. by exists v, n.
Qed.

Lemma Return_inj {A} (a b : A) : Return a = Return b → a = b.
Proof. by intros [= ->]. Qed.

Lemma result_bind_inv {A B} (r : result A) (k : A → result B) b :
  result_bind r k = Return b → ∃ a, r = Return a ∧ k a = Return b.
Proof. destruct r as [a|e]; [|done]. by exists a. Qed.

Ltac cfg_int H :=
  let Hstep := fresh "Hstep" in
  apply result_bind_inv in H as (? & Hstep & H);
  apply set_int_inv in Hstep as (? & ? & ? & ? & ->).

Ltac cfg_str H :=
  let Hstep := fresh "Hstep" in
  apply result_bind_inv in H as (? & Hstep & H);
  apply set_str_inv in Hstep as (? & ? & ->).

Ltac cfg_env H :=
  let Hstep := fresh "Hstep" in
  apply result_bind_inv in H as (? & Hstep & H);
  unfold Utils.os_environ in Hstep;
  match type of Hstep with
  | match ?x with _ => _ end = _ => destruct x eqn:?; [|discriminate Hstep]
  end;
  injection Hstep as <-.

Ltac map_lookup := vm_compute; reflexivity.

Ltac each_key := repeat first [apply Forall_nil_2 | apply Forall_cons_2].

Ltac key_goal :=
  lazymatch goal with
  | |- ∃ _, _ => eexists; key_goal
  | |- _ ∧ _ => split; [first [eassumption | map_lookup]|key_goal]
  | |- _ => first [eassumption | map_lookup]
  end.

(** X18. The configuration [getConfigs] returns, when it returns.  The
    keys read for MongoDB are there exactly when [1] is among the
    targets, and all are strings ([MONGO_PORT] too); the keys read for
    Redis are there exactly when [3] is among the targets, port and
    database number as integers.  [REDIS_SSL] is never [True] and the
    three certificate keys are never set: with target [3], a value of
    [REDIS_SSL] other than zero makes the function raise (it reads the
    key [REDIS_SSL] of the dictionary before setting it), so a
    configuration is returned only for zero. *)
Theorem getConfigs_follows_targets_and_never_enables_ssl
    (environ : gmap string string) (now : string)
    (config_params : gmap string Utils.Value) :
  Utils.getConfigs environ now = Return config_params →
  ∃ targets,
    config_params !! "TARGETS" = Some (Utils.VList targets)
    ∧ (∃ v, environ !! "TARGETS" = Some v
            ∧ for_list int (split "," v) = Return targets)
    ∧ Forall (λ key,
         if bool_decide (1%Z ∈ targets)
         then ∃ v, environ !! key = Some v ∧ config_params !! key = Some (Utils.VStr v)
         else config_params !! key = None) mongo_keys
    ∧ Forall (λ key,
         if bool_decide (3%Z ∈ targets)
         then ∃ v, environ !! key = Some v ∧ config_params !! key = Some (Utils.VStr v)
         else config_params !! key = None) redis_str_keys
    ∧ Forall (λ key,
         if bool_decide (3%Z ∈ targets)
         then ∃ v n, environ !! key = Some v ∧ parse_int v = Some n
                     ∧ config_params !! key = Some (Utils.VInt n)
         else config_params !! key = None) redis_int_keys
    ∧ (if bool_decide (3%Z ∈ targets)
       then config_params !! "REDIS_SSL" = Some (Utils.VBool false)
            ∧ ∃ v, environ !! "REDIS_SSL" = Some v ∧ parse_int v = Some 0%Z
       else config_params !! "REDIS_SSL" = None)
    ∧ Forall (λ key, config_params !! key = None) redis_ssl_keys.
Proof.
  unfold Utils.getConfigs. intros H.
  cfg_int H. cfg_int H. cfg_int H. cfg_int H. cfg_str H. cfg_str H. cfg_env H.
  cfg_str H. cfg_int H. cfg_env H.
  apply result_bind_inv in H as (targets & Htargets & H).
  apply result_bind_inv in H as (c1 & Hmongo & H).
  exists targets.
  destruct (bool_decide (1%Z ∈ targets)) eqn:Hone;
    [cfg_str Hmongo; cfg_str Hmongo; cfg_str Hmongo; cfg_str Hmongo;
     cfg_str Hmongo; cfg_str Hmongo; cfg_str Hmongo;
     apply set_str_inv in Hmongo as (? & ? & ->)
    |apply Return_inj in Hmongo; subst c1].
  all: destruct (bool_decide (3%Z ∈ targets)) eqn:Hthree;
    [cfg_str H; cfg_int H; cfg_int H; cfg_str H; cfg_str H; cfg_str H; cfg_env H;
     apply result_bind_inv in H as (ssl & Hssl & H);
     unfold int in Hssl;
     match type of Hssl with
     | match parse_int ?v with _ => _ end = _ =>
         destruct (parse_int v) as [n|] eqn:Hn; [|discriminate Hssl]
     end;
     apply Return_inj in Hssl; subst n;
     destruct (Z.eqb_spec ssl 0) as [Hz|Hnz];
     [subst ssl; apply Return_inj in H; subst config_params
     |exfalso; revert H; unfold result_bind at 1; unfold Utils.get;
      match goal with
      | |- context [?m !! "REDIS_SSL"] =>
          replace (m !! "REDIS_SSL") with (@None Utils.Value)
            by (vm_compute; reflexivity)
      end; discriminate]
    |apply Return_inj in H; subst config_params].
  all: split; [map_lookup|].
  all: split; [by eauto|].
  all: split; [each_key; key_goal|].
  all: split; [each_key; key_goal|].
  all: split; [each_key; key_goal|].
  all: split; [key_goal|].
  all: each_key; key_goal.
Qed.

(** *** Echoing the configuration *)

Lemma next_ok {A B} (m : Utils.Logging A) (k : A → Utils.Logging B) a msgs r msgs' :
  m = (Return a, msgs) → k a = (r, msgs') → Utils.next m k = (r, msgs ++ msgs').
Proof. intros -> Hk. unfold Utils.next. by rewrite Hk. Qed.

Lemma value_get_ok (c : gmap string Utils.Value) key v :
  c !! key = Some v → Utils.value (Utils.get c key) = (Return v, []).
Proof. unfold Utils.value, Utils.get. by intros ->. Qed.

Lemma info_str_ok (c : gmap string Utils.Value) prefix key v :
  c !! key = Some v →
  Utils.info_str c prefix key = (Return (), [prefix +:+ Utils.str_of v]).
Proof. unfold Utils.info_str, Utils.get. by intros ->. Qed.

Lemma info_add_ok (c : gmap string Utils.Value) prefix key s :
  c !! key = Some (Utils.VStr s) →
  Utils.info_add c prefix key = (Return (), [prefix +:+ s]).
Proof. unfold Utils.info_add, Utils.get. by intros ->. Qed.

Lemma value_environ_ok (environ : gmap string string) key v :
  environ !! key = Some v →
  Utils.value (Utils.os_environ environ key) = (Return v, []).
Proof. unfold Utils.value, Utils.os_environ. by intros ->. Qed.

Lemma value_int_ok v n : parse_int v = Some n → Utils.value (int v) = (Return n, []).
Proof. unfold Utils.value, int. by intros ->. Qed.

(** One statement of [echo_config] after the other. *)
Ltac echo_step :=
  lazymatch goal with
  | |- Utils.next _ _ = _ => eapply next_ok; [echo_step|cbv beta; echo_step]
  | |- Utils.info _ = _ => reflexivity
  | |- Utils.info_str _ _ _ = _ => eapply info_str_ok; map_lookup
  | |- Utils.info_add _ _ _ = _ => eapply info_add_ok; map_lookup
  | |- Utils.value (Utils.get _ _) = _ => eapply value_get_ok; map_lookup
  | |- Utils.value (Utils.has_int _ _) = _ => reflexivity
  | |- Utils.value (Utils.os_environ _ _) = _ => eapply value_environ_ok; eassumption
  | |- Utils.value (int _) = _ => eapply value_int_ok; eassumption
  | |- Utils.value (Return _) = _ => reflexivity
  | |- (if ?b then _ else _) = _ =>
      first [match goal with H : b = _ |- _ => rewrite H; cbv iota end
            |progress cbn [Utils.equals_int]
            |progress cbn [negb Z.eqb]];
      echo_step
  end.

Ltac invert_head H targets Htargets c1 Hmongo :=
  unfold Utils.getConfigs in H;
  cfg_int H; cfg_int H; cfg_int H; cfg_int H; cfg_str H; cfg_str H; cfg_env H;
  cfg_str H; cfg_int H; cfg_env H;
  apply result_bind_inv in H as (targets & Htargets & H);
  apply result_bind_inv in H as (c1 & Hmongo & H).

Ltac invert_mongo Hmongo :=
  cfg_str Hmongo; cfg_str Hmongo; cfg_str Hmongo; cfg_str Hmongo;
  cfg_str Hmongo; cfg_str Hmongo; cfg_str Hmongo;
  apply set_str_inv in Hmongo as (? & ? & ->).

Ltac invert_redis H c :=
  cfg_str H; cfg_int H; cfg_int H; cfg_str H; cfg_str H; cfg_str H; cfg_env H;
  let ssl := fresh "ssl" in
  let Hssl := fresh "Hssl" in
  let Hn := fresh "Hn" in
  let n := fresh "n" in
  apply result_bind_inv in H as (ssl & Hssl & H);
  unfold int in Hssl;
  match type of Hssl with
  | match parse_int ?v with _ => _ end = _ =>
      destruct (parse_int v) as [n|] eqn:Hn; [|discriminate Hssl]
  end;
  apply Return_inj in Hssl; subst n;
  destruct (Z.eqb_spec ssl 0) as [Hz|Hnz];
  [subst ssl; apply Return_inj in H; subst c
  |exfalso; revert H; unfold result_bind at 1; unfold Utils.get;
   match goal with
   | |- context [?m !! "REDIS_SSL"] =>
       replace (m !! "REDIS_SSL") with (@None Utils.Value)
         by (vm_compute; reflexivity)
   end; discriminate].

(** X19. The configuration [getConfigs] returned can always be echoed:
    [echo_config], run with the same environment, does not raise, every
    key it reads is set and every value it adds to a [str] is one.  It
    passes no message unless [ECHOCONFIG] is [1]; then it passes the 20
    messages of the frame, 7 more for target [1] and 8 more for target
    [3], never the three about certificates. *)
Theorem echo_config_accepts_what_getConfigs_returns
    (environ : gmap string string) (now : string)
    (config_params : gmap string Utils.Value) :
  Utils.getConfigs environ now = Return config_params →
  ∃ msgs echo targets,
    Utils.echo_config environ config_params = (Return (), msgs)
    ∧ config_params !! "ECHOCONFIG" = Some (Utils.VInt echo)
    ∧ config_params !! "TARGETS" = Some (Utils.VList targets)
    ∧ length msgs
      = (if bool_decide (echo = 1%Z)
         then 20 + (if bool_decide (1%Z ∈ targets) then 7 else 0)
                 + (if bool_decide (3%Z ∈ targets) then 8 else 0)
         else 0).
Proof.
  intros H. invert_head H targets Htargets c1 Hmongo.
  destruct (bool_decide (1%Z ∈ targets)) eqn:Hone;
    [invert_mongo Hmongo|apply Return_inj in Hmongo; subst c1].
  all: destruct (bool_decide (3%Z ∈ targets)) eqn:Hthree;
    [invert_redis H config_params|apply Return_inj in H; subst config_params].
  all: match goal with
       | Hecho : _ !! "ECHOCONFIG" = Some ?v, Hn : parse_int ?v = Some ?n |- _ =>
           destruct (n =? 1)%Z eqn:Hecho1
       end.
  all: eexists _, _, targets; unfold Utils.echo_config.
  all: (split; [echo_step|]).
  all: (split; [map_lookup|]).
  all: (split; [map_lookup|]).
  all: first [apply Z.eqb_eq in Hecho1; rewrite bool_decide_eq_true_2 by done
             |apply Z.eqb_neq in Hecho1; rewrite bool_decide_eq_false_2 by done];
    rewrite ?Hone, ?Hthree; reflexivity.
Qed.

Ltac split_keys H :=
  repeat match type of H with
    | Forall _ (_ :: _) => apply Forall_cons_1 in H as [? H]
    end.

(** [echo_config] reads the configuration at [echoed_keys] only, and the
    environment at [REDIS_SSL] only. *)
Lemma echo_config_reads (environ environ' : gmap string string)
    (c c' : gmap string Utils.Value) :
  Forall (λ key, c !! key = c' !! key) echoed_keys →
  environ !! "REDIS_SSL" = environ' !! "REDIS_SSL" →
  Utils.echo_config environ c = Utils.echo_config environ' c'.
Proof.
  unfold echoed_keys. intros Hkeys Hssl. split_keys Hkeys.
  unfold Utils.echo_config, Utils.info_str, Utils.info_add, Utils.get, Utils.os_environ.
  repeat match goal with
    | H : _ !! _ = _ !! _ |- _ => rewrite H; clear H
    end.
  reflexivity.
Qed.

Ltac not_listed := apply (bool_decide_unpack _); vm_compute; exact I.

(** X20. Echoing the configuration shows no credentials.  The messages
    [echo_config] passes for the configuration [getConfigs] returned do
    not depend on the user names and passwords of the two stores (nor on
    [ECHORECORDS], [SOURCEDIR], [VECTOR_STORE] and [MONGO_COLLECTION]):
    two environments that differ in these variables only give the same
    messages. *)
Theorem echo_config_shows_no_credentials
    (environ environ' : gmap string string) (now : string)
    (config_params config_params' : gmap string Utils.Value) :
  (∀ key, key ∉ not_echoed → environ !! key = environ' !! key) →
  Utils.getConfigs environ now = Return config_params →
  Utils.getConfigs environ' now = Return config_params' →
  Utils.echo_config environ config_params = Utils.echo_config environ' config_params'.
Proof.
  intros Hsame H H'.
  assert (Forall (λ key, environ !! key = environ' !! key)
            ("REDIS_SSL" :: "TARGETS" :: echoed_keys)) as Hkeys.
  { unfold echoed_keys. each_key; apply Hsame; not_listed. }
  unfold echoed_keys in Hkeys. split_keys Hkeys.
  invert_head H targets Htargets c1 Hmongo.
  invert_head H' targets' Htargets' c1' Hmongo'.
  assert (targets' = targets) as -> by congruence.
  destruct (bool_decide (1%Z ∈ targets)) eqn:Hone;
    [invert_mongo Hmongo; invert_mongo Hmongo'
    |apply Return_inj in Hmongo; apply Return_inj in Hmongo'; subst c1 c1'].
  all: destruct (bool_decide (3%Z ∈ targets)) eqn:Hthree;
    [invert_redis H config_params; invert_redis H' config_params'
    |apply Return_inj in H; apply Return_inj in H'; subst config_params config_params'].
  all: match goal with
       | H1 : _ !! "LOGDIR" = Some ?dir, H2 : _ !! "LOGDIR" = Some ?dir' |- _ =>
           assert (dir' = dir) as -> by congruence
       end.
  all: match goal with
       | |- context [os_path_join ?dir ?file] => generalize (os_path_join dir file)
       end; intros logging_file.
  all: apply echo_config_reads; [|congruence].
  all: unfold echoed_keys; each_key; vm_compute; congruence.
Qed.

(** *** Processing, then the statistics *)

(** The chunks of a file have one type, a known one. *)
Lemma extract_text_one_type env path w chunks w' :
  Main.extract_text env path w = (Return chunks, w') →
  ∃ ft, ft ∈ known_file_types ∧ Forall (λ c, file_type c = ft) chunks.
Proof.
  intros [(_ & pages & _ & ->)|[(_ & content & _ & ->)|(_ & paragraphs & _ & ->)]]
    %extract_text_inv.
  - exists "pdf". split; [unfold known_file_types; rewrite !elem_of_cons; tauto|].
    destruct (pdf_chunks_sorted path pages 0) as [_ Hall]. simpl in Hall.
    eapply Forall_impl; [exact Hall|]. by intros c (n & _ & _ & _ & ? & _).
  - exists "txt". split; [unfold known_file_types; rewrite !elem_of_cons; tauto|].
    apply Forall_forall. by intros c (_ & ? & _)%chunks_of_paragraphs_shape.
  - exists "docx". split; [unfold known_file_types; rewrite !elem_of_cons; tauto|].
    apply Forall_forall. by intros c (_ & ? & _)%chunks_of_paragraphs_shape.
Qed.

Lemma count_in_app types types' t :
  count_in (types ++ types') t = (count_in types t + count_in types' t)%Z.
Proof. unfold count_in. rewrite List.filter_app, length_app. lia. Qed.

Lemma count_in_same types t :
  Forall (λ ft, ft = t) types → count_in types t = Z.of_nat (length types).
Proof.
  unfold count_in. induction 1 as [|ft types -> _ IH]; [done|].
  simpl. rewrite String.eqb_refl. simpl. lia.
Qed.

Lemma count_in_other types t t' :
  Forall (λ ft, ft = t) types → t' ≠ t → count_in types t' = 0%Z.
Proof.
  unfold count_in. induction 1 as [|ft types -> _ IH]; [done|]. intros Hne.
  simpl. destruct (String.eqb_spec t t') as [->|_]; [done|]. by apply IH.
Qed.

Lemma count_in_nonneg types t : (0 ≤ count_in types t)%Z.
Proof. unfold count_in. lia. Qed.

(** The statistics the vectorizer reads through the exact scan. *)
Lemma main_mongo_statistics self store w :
  Main.client self = Some (Main.MongoVectorStore store) →
  Mongo.faults (Main.mongo w) = [] →
  (Main.get_statistics self w).1
  = Return (mkStatistics (Z.of_nat (length (Mongo.collection (Main.mongo w))))
              (tally (count_in (mongo_types (Main.mongo w))) known_file_types ∅)).
Proof.
  intros Hc Hw. unfold Main.get_statistics, Main.in_mongo. rewrite Hc.
  by rewrite mongo_get_statistics_healthy.
Qed.

(** X21. A processed document is counted.  With the exact scan as client
    and a server that answers, the statistics read after
    [process_document] returned differ from those read before by the
    document alone: [total_chunks] is larger by the [total_chunks] of the
    summary, and so is the entry of [by_file_type] for the file type of
    the summary (a missing entry counting as zero); the other entries are
    as before. *)
Theorem processed_document_is_counted
    (env : Main.Env) (self : Main.DocumentVectorizer) (file_path : string)
    (document_name : option string) (w : Main.World)
    (chunks : list Chunk) (encoder : Main.Encoder) (store_type : string)
    (store : Mongo.Store) :
  Main.os_path_exists env file_path = true →
  (Main.extract_text env file_path w).1 = Return chunks →
  chunks ≠ [] →
  Main.model self = Some encoder →
  length (Main.rows (encoder (text <$> chunks))) = length chunks →
  Main.vector_store_type self = Some store_type →
  Main.client self = Some (Main.MongoVectorStore store) →
  Mongo.faults (Main.mongo w) = [] →
  ∃ before summary w' after,
    (Main.get_statistics self w).1 = Return before
    ∧ Main.process_document env self file_path document_name w = (Return summary, w')
    ∧ (Main.get_statistics self w').1 = Return after
    ∧ total_chunks after = (total_chunks before + Main.s_total_chunks summary)%Z
    ∧ by_file_type after !! Main.s_file_type summary
      = Some (default 0%Z (by_file_type before !! Main.s_file_type summary)
              + Main.s_total_chunks summary)%Z
    ∧ ∀ t, t ≠ Main.s_file_type summary →
           by_file_type after !! t = by_file_type before !! t.
Proof.
  intros Hex Hx Hne Hmodel Hrows Htype Hclient Hw.
  destruct (process_document_steps env self file_path document_name w Hex)
    as (r & msgs & Hp & Hd).
  destruct (Main.extract_text env file_path w) as [r' wx] eqn:Hxw.
  simpl in Hx. subst r'.
  destruct (extract_text_one_type env file_path w chunks wx Hxw) as (ft & Hft & Hall).
  rewrite (Hp w) in Hxw. injection Hxw as -> _.
  destruct chunks as [|c0 chunks]; [done|].
  set (name := default (os_path_basename file_path) document_name) in *.
  set (embeddings := Main.rows (encoder (text <$> c0 :: chunks))) in *.
  assert (zip (c0 :: chunks) embeddings ≠ []) as Hzip.
  { intros [?|Hz]%zip_nil_inv; [done|]. by rewrite Hz in Hrows. }
  pose proof (mongo_store_healthy (c0 :: chunks) embeddings name (Main.mongo w) Hw Hzip)
    as Hs.
  cbv zeta in Hs.
  set (docs := Mongo.make_doc name (Mongo.clock (Main.mongo w))
                 <$> zip (c0 :: chunks) embeddings) in Hs.
  set (ids := Mongo.fresh_ids (Main.mongo w) (length docs)) in Hs.
  assert (length docs = S (length chunks)) as Hdocs.
  { unfold docs. rewrite length_fmap, zip_length_min, Hrows. simpl length. lia. }
  assert (length ids = S (length chunks)) as Hids.
  { unfold ids. by rewrite mongo_fresh_ids_length. }
  rewrite Hd. clear Hd.
  unfold Main.generate_embeddings, Main.get_vector_store_type,
    Main.client_store_embeddings. rewrite Hmodel, Htype, Hclient.
  unfold Main.in_mongo. unfold_P.
  cbn [Main.mongo Main.redis Main.log]. fold embeddings. rewrite Hs.
  cbn [of_outcome Main.mongo Main.redis Main.log].
  eexists _, _, _, _. split; [by apply (main_mongo_statistics self store)|].
  split; [done|].
  split; [by apply (main_mongo_statistics self store)|].
  cbn [total_chunks by_file_type Main.mongo Mongo.collection Main.s_total_chunks
       Main.s_file_type].
  assert (mongo_types
            (Mongo.mkWorld (Mongo.collection (Main.mongo w) ++ zip ids docs)
               (Mongo.next_id (Main.mongo w) + N.of_nat (length docs)) []
               (Mongo.log (Main.mongo w)) (Mongo.clock (Main.mongo w)))
          = mongo_types (Main.mongo w) ++ (file_type <$> c0 :: chunks)) as ->.
  { unfold mongo_types. cbn [Mongo.collection]. rewrite fmap_app. f_equal.
    apply mongo_zip_types; [|by rewrite Hrows].
    rewrite Hids, zip_length_min, Hrows. simpl length. lia. }
  assert (Forall (λ t, t = ft) (file_type <$> c0 :: chunks)) as Htypes.
  { by apply Forall_fmap. }
  assert (file_type c0 = ft) as -> by (by inversion Hall).
  assert (length (file_type <$> c0 :: chunks) = S (length chunks)) as Hlen
    by (by rewrite length_fmap).
  pose proof (count_in_nonneg (mongo_types (Main.mongo w)) ft) as Hnn.
  split_and!.
  - rewrite length_app, length_zip_with. simpl length. lia.
  - rewrite !tally_lookup, lookup_empty, bool_decide_eq_true_2 by done.
    rewrite count_in_app, (count_in_same _ ft Htypes), Hlen. simpl andb.
    destruct (Z.ltb_spec 0 (count_in (mongo_types (Main.mongo w)) ft + Z.of_nat (S (length chunks))));
      [|lia].
    destruct (Z.ltb_spec 0 (count_in (mongo_types (Main.mongo w)) ft)); simpl.
    + f_equal; simpl length; lia.
    + f_equal; simpl length; lia.
  - intros t Hne'. rewrite !tally_lookup, lookup_empty.
    by rewrite count_in_app, (count_in_other _ ft t Htypes Hne'), Z.add_0_r.
Qed.

(** ** The further theorems at work on sample data *)

(** The third server call of the statistics fails. *)
Lemma statistics_failure_policy_witness :
  (Mongo.get_statistics mongo_interrupted).1
  = Raise (mkExn PyMongo_OperationFailure "operation was interrupted")
  ∧ (Redis.get_statistics small_store redis_interrupted).1 = Ok (mkStatistics 0 ∅).
Proof.
  destruct (statistics_failure_policy small_store (Redis.mkIndex "doc:" 2) 2
              (mkExn PyMongo_OperationFailure "operation was interrupted")
              (mkExn Redis_TimeoutError "Timeout reading from socket")
              [] [] mongo_interrupted redis_interrupted)
    as [Hm (rw' & Hr & _)];
    [vm_compute; lia|reflexivity|reflexivity|vm_compute; reflexivity|].
  by rewrite Hm, Hr.
Defined.

(** The first of three pairs is written, the command for the second
    fails. *)
Lemma redis_store_stops_at_first_failure_witness :
  ∃ w',
    Redis.store_embeddings small_store three_chunks three_vectors "a.txt"
      redis_failing_second
    = (Raise (mkExn Redis_ConnectionError "Connection reset by peer"), w')
    ∧ is_Some (Redis.hashes w' !! "doc:a.txt:0:0")
    ∧ Redis.hashes w' !! "doc:a.txt:1:1" = None.
Proof.
  destruct (redis_store_stops_at_first_failure small_store three_chunks three_vectors
              "a.txt" 1 (mkExn Redis_ConnectionError "Connection reset by peer") []
              redis_failing_second)
    as (w' & Hs & _ & _ & Hstored & Hother); [vm_compute; lia|reflexivity|].
  exists w'. split; [done|]. split.
  - pose proof (Hstored 0 (sample_chunk "txt" 0) [1%float; 0%float]
                  ltac:(lia) eq_refl eq_refl) as H0.
    change (Redis.doc_id small_store "a.txt" 0 (sample_chunk "txt" 0))
      with "doc:a.txt:0:0" in H0.
    by rewrite H0.
  - rewrite Hother; [reflexivity|]. intros Hin. vm_compute in Hin.
    apply list_elem_of_singleton in Hin. discriminate Hin.
Defined.

(** Three pairs stored twice. *)
Lemma storing_a_document_twice_witness :
  (∃ ids1 ids2 mw1 mw2,
      Mongo.store_embeddings three_chunks three_vectors "a.txt" empty_mongo
      = (Ok ids1, mw1)
      ∧ Mongo.store_embeddings three_chunks three_vectors "a.txt" mw1 = (Ok ids2, mw2)
      ∧ length (Mongo.collection mw2) = 6)
  ∧ ∃ ids rw1 rw2,
      Redis.store_embeddings small_store three_chunks three_vectors "a.txt" redis_ready
      = (Ok ids, rw1)
      ∧ Redis.store_embeddings small_store three_chunks three_vectors "a.txt" rw1
        = (Ok ids, rw2)
      ∧ dom (Redis.hashes rw2) = dom (Redis.hashes rw1).
Proof.
  destruct (storing_a_document_twice small_store three_chunks three_vectors "a.txt"
              empty_mongo redis_ready) as [Hm Hr];
    [reflexivity|reflexivity|discriminate|].
  split.
  - destruct Hm as (ids1 & ids2 & mw1 & mw2 & H1 & H2 & _ & _ & _ & Hlen).
    by exists ids1, ids2, mw1, mw2.
  - destruct Hr as (ids & rw1 & rw2 & H1 & H2 & _ & Hdom). by exists ids, rw1, rw2.
Defined.

(** Two documents, three pairs, three keys. *)
Lemma documents_with_different_names_share_no_key_witness :
  ∃ ids w',
    Redis.store_all small_store two_batches redis_ready = (Ok ids, w')
    ∧ NoDup (concat ids)
    ∧ size (Redis.hashes w') = 3.
Proof.
  destruct (documents_with_different_names_share_no_key small_store two_batches
              redis_ready) as (ids & w' & Hs & Hnd & Hlen & _ & Hsize).
  - reflexivity.
  - apply (bool_decide_unpack _). vm_compute. reflexivity.
  - exists ids, w'. split_and!; [done|done|]. rewrite Hsize by reflexivity.
    rewrite Hlen. reflexivity.
Defined.

(** Page numbers [3], [0] and none, stored and searched. *)
Lemma redis_store_then_search_witness :
  ∃ ids w1 results w2,
    Redis.store_embeddings small_store paged_chunks three_vectors "b.pdf" redis_ready
    = (Ok ids, w1)
    ∧ Redis.similarity_search small_store [1%float; 0%float] 3 None w1
      = (Ok results, w2)
    ∧ r_page_number <$> results = [Some 3%Z; None; None].
Proof.
  destruct (redis_store_then_search small_store paged_chunks three_vectors "b.pdf"
              [1%float; 0%float] 3 None redis_ready)
    as (ids & w1 & results & w2 & Hs & Hq & _); [reflexivity|reflexivity|].
  exists ids, w1, results, w2. split_and!; [done|done|].
  assert ((Redis.similarity_search small_store [1%float; 0%float] 3 None
             (after (Redis.store_embeddings small_store paged_chunks three_vectors
                       "b.pdf") redis_ready)).1 = Ok results) as Hr.
  { unfold after. rewrite Hs. simpl. by rewrite Hq. }
  vm_compute in Hr. injection Hr as <-. reflexivity.
Defined.

(** Three pairs stored and searched with the first vector. *)
Lemma mongo_store_then_search_witness :
  ∃ ids w1 results,
    Mongo.store_embeddings three_chunks three_vectors "a.txt" empty_mongo = (Ok ids, w1)
    ∧ Mongo.similarity_search [1%float; 0%float] 2 None w1 = (Ok results, w1)
    ∧ length results = 2.
Proof.
  destruct (mongo_store_then_search three_chunks three_vectors "a.txt"
              [1%float; 0%float] 2 None empty_mongo)
    as (ids & w1 & results & Hs & Hq & _);
    [reflexivity|reflexivity|discriminate|repeat constructor|].
  exists ids, w1, results. split_and!; [done|done|].
  assert ((Mongo.similarity_search [1%float; 0%float] 2 None
             (after (Mongo.store_embeddings three_chunks three_vectors "a.txt")
                    empty_mongo)).1 = Ok results) as Hr.
  { unfold after. rewrite Hs. simpl. by rewrite Hq. }
  vm_compute in Hr. injection Hr as <-. reflexivity.
Defined.

(** Two of the three documents are of type [txt]. *)
Lemma mongo_search_filter_and_count_witness :
  ∃ results,
    Mongo.similarity_search [1%float; 0%float] 5 (Some "txt") mongo_three
    = (Ok results, mongo_three)
    ∧ length results = 2
    ∧ Forall (λ r, r_file_type r = "txt") results.
Proof.
  destruct (mongo_search_filter_and_count [1%float; 0%float] 5 (Some "txt") mongo_three)
    as (results & Hs & _ & Hlen & _ & Hft & _).
  - reflexivity.
  - vm_compute. repeat constructor.
  - exists results. split_and!; [done|by rewrite Hlen|by apply Hft].
Defined.

(** The statistics of the collection of three documents. *)
Lemma mongo_statistics_of_any_collection_witness :
  ∃ stats,
    Mongo.get_statistics mongo_three = (Ok stats, mongo_three)
    ∧ total_chunks stats = 3%Z
    ∧ by_file_type stats !! "txt" = Some 2%Z.
Proof.
  destruct (mongo_statistics_of_any_collection mongo_three)
    as (stats & Hs & Htotal & Hby & _); [reflexivity|].
  exists stats. split_and!; [done|by rewrite Htotal|].
  apply Hby. split_and!; [|reflexivity|reflexivity].
  unfold known_file_types. rewrite !elem_of_cons. tauto.
Defined.

(** The text file has two paragraphs with text and a blank one between
    them. *)
Lemma extracted_chunks_are_well_formed_witness :
  ∃ chunks w',
    Main.extract_text sample_env "docs/a.txt" sample_world = (Return chunks, w')
    ∧ text <$> chunks = ["First paragraph."; "Second one."]
    ∧ chunk_index <$> chunks = [0%Z; 2%Z]
    ∧ StronglySorted precedes chunks.
Proof.
  destruct (extracted_chunks_are_well_formed sample_env "docs/a.txt" sample_world
              (Main.extract_text sample_env "docs/a.txt" sample_world).2
              [mkChunk "First paragraph." None 0 "docs/a.txt" "txt";
               mkChunk "Second one." None 2 "docs/a.txt" "txt"])
    as (_ & _ & Hsorted & _); [vm_compute; reflexivity|].
  eexists _, _. split_and!; [vm_compute; reflexivity|reflexivity|reflexivity|done].
Defined.

(** The chunks of pages one and three of the PDF file come back with
    their page numbers. *)
Lemma extracted_pages_survive_the_index_witness :
  ∃ chunks ids rw1 results rw2,
    (Main.extract_text sample_env "docs/b.pdf" sample_world).1 = Return chunks
    ∧ Redis.store_embeddings small_store chunks three_vectors "b.pdf" redis_ready
      = (Ok ids, rw1)
    ∧ Redis.similarity_search small_store [1%float; 0%float] 3 None rw1
      = (Ok results, rw2)
    ∧ r_page_number <$> results = [Some 1%Z; Some 1%Z; Some 3%Z].
Proof.
  destruct (extracted_pages_survive_the_index sample_env "docs/b.pdf" sample_world
              (Main.extract_text sample_env "docs/b.pdf" sample_world).2
              [mkChunk "Page one." (Some 1%Z) 0 "docs/b.pdf" "pdf";
               mkChunk "More on page one." (Some 1%Z) 1 "docs/b.pdf" "pdf";
               mkChunk "Page three." (Some 3%Z) 0 "docs/b.pdf" "pdf"]
              small_store three_vectors "b.pdf" [1%float; 0%float] 3 None redis_ready)
    as (ids & rw1 & results & rw2 & Hs & Hq & _);
    [vm_compute; reflexivity|reflexivity|reflexivity|].
  eexists _, ids, rw1, results, rw2. split_and!; [vm_compute; reflexivity|done|done|].
  assert ((Redis.similarity_search small_store [1%float; 0%float] 3 None
             (after (Redis.store_embeddings small_store
                       [mkChunk "Page one." (Some 1%Z) 0 "docs/b.pdf" "pdf";
                        mkChunk "More on page one." (Some 1%Z) 1 "docs/b.pdf" "pdf";
                        mkChunk "Page three." (Some 3%Z) 0 "docs/b.pdf" "pdf"]
                       three_vectors "b.pdf") redis_ready)).1 = Ok results) as Hr.
  { unfold after. rewrite Hs. simpl. by rewrite Hq. }
  vm_compute in Hr. injection Hr as <-. reflexivity.
Defined.

(** A file that is not there, a file of blanks, and a vectorizer without
    client. *)
Lemma process_document_failures_store_nothing_witness :
  (Main.process_document sample_env sample_vectorizer "docs/missing.txt" None
     sample_world).1
  = Throw (FileNotFoundError "File not found: docs/missing.txt")
  ∧ (Main.process_document sample_env sample_vectorizer "docs/blank.txt" None
       sample_world).1
    = Throw (Py (mkExn ValueError "No text content found in document"))
  ∧ Main.mongo (Main.process_document sample_env broken_vectorizer "docs/a.txt" None
                  sample_world).2 = empty_mongo.
Proof.
  destruct (process_document_failures_store_nothing sample_env sample_vectorizer
              "docs/missing.txt" None sample_world) as [Hmissing _].
  destruct (process_document_failures_store_nothing sample_env sample_vectorizer
              "docs/blank.txt" None sample_world) as [_ Hblank].
  destruct (process_document_failures_store_nothing sample_env broken_vectorizer
              "docs/a.txt" None sample_world) as [_ Hbroken].
  split_and!.
  - by rewrite Hmissing.
  - destruct Hblank as (_ & [-> _] & _); reflexivity.
  - destruct Hbroken as (_ & _ & [_ [-> _]]); [reflexivity|by right; right|reflexivity].
Defined.

(** The text file goes into the collection. *)
Lemma process_document_stores_what_it_extracts_witness :
  ∃ summary w',
    Main.process_document sample_env sample_vectorizer "docs/a.txt" None sample_world
    = (Return summary, w')
    ∧ Main.s_document_name summary = "a.txt"
    ∧ Main.s_total_chunks summary = 2%Z
    ∧ length (Mongo.collection (Main.mongo w')) = 2.
Proof.
  destruct (process_document_stores_what_it_extracts sample_env sample_vectorizer
              "docs/a.txt" None sample_world
              [mkChunk "First paragraph." None 0 "docs/a.txt" "txt";
               mkChunk "Second one." None 2 "docs/a.txt" "txt"]
              sample_encoder "MongoDB")
    as [Hmongo _];
    [reflexivity|vm_compute; reflexivity|discriminate|reflexivity|reflexivity
    |reflexivity|].
  destruct (Hmongo (Mongo.mkStore small_config 2 true))
    as (summary & w' & ids & Hp & Hs & _ & _ & Hname & Htotal & _);
    [reflexivity|reflexivity|].
  exists summary, w'. split_and!; [done|by rewrite Hname|by rewrite Htotal|].
  apply (f_equal (λ x, length (Mongo.collection x.2))) in Hs.
  vm_compute in Hs. symmetry. exact Hs.
Defined.

(** The directory of the samples: four files have a default extension. *)
Lemma documents_found_are_sorted_and_wanted_witness :
  Main.get_documents_from_path sample_env "docs" None false
  = Return ["docs/a.txt"; "docs/b.pdf"; "docs/blank.txt"; "docs/c.docx"]
  ∧ Sorted (λ a b, String.leb a b = true)
           ["docs/a.txt"; "docs/b.pdf"; "docs/blank.txt"; "docs/c.docx"].
Proof.
  destruct (documents_found_are_sorted_and_wanted sample_env "docs" None false
              ["docs/a.txt"; "docs/b.pdf"; "docs/blank.txt"; "docs/c.docx"])
    as (Hsorted & _).
  - vm_compute. reflexivity.
  - intros items [= <-]. repeat constructor.
  - repeat constructor.
  - split; [vm_compute; reflexivity|done].
Defined.

(** Console at [ERROR], file at [DEBUG]: an [INFO] record does not
    reach the file. *)
Lemma file_level_does_not_set_the_file_handler_witness :
  ∃ logger,
    Utils.mylogger (λ _, None) "logs/app.log" 40 10 = Return logger
    ∧ Utils.reaches_file 30 logger 20 = false.
Proof.
  eexists. split; [reflexivity|].
  eapply (file_level_does_not_set_the_file_handler (λ _, None) "logs/app.log" 40 10 30 20);
    [reflexivity| |lia].
  rewrite !elem_of_cons. tauto.
Defined.

(** The sample environment asks for the exact scan only. *)
Lemma getConfigs_follows_targets_and_never_enables_ssl_witness :
  ∃ config_params,
    Utils.getConfigs sample_environ sample_now = Return config_params
    ∧ config_params !! "TARGETS" = Some (Utils.VList [1%Z])
    ∧ config_params !! "MONGO_PORT" = Some (Utils.VStr "27017")
    ∧ config_params !! "REDIS_SSL" = None.
Proof.
  assert (match Utils.getConfigs sample_environ sample_now with
          | Return _ => True
          | Throw _ => False
          end) as Hreturns by (vm_compute; exact I).
  destruct (Utils.getConfigs sample_environ sample_now) as [config_params|e] eqn:Hc;
    [|destruct Hreturns].
  destruct (getConfigs_follows_targets_and_never_enables_ssl sample_environ sample_now
              config_params Hc)
    as (targets & Ht & (v & Hv & Hfor) & Hmongo & _ & _ & Hssl & _).
  vm_compute in Hv. injection Hv as <-.
  vm_compute in Hfor. injection Hfor as <-.
  exists config_params. split_and!; [done|done|..].
  - rewrite Forall_forall in Hmongo.
    destruct (Hmongo "MONGO_PORT") as (port & Hport & ->).
    { unfold mongo_keys. rewrite !elem_of_cons. tauto. }
    vm_compute in Hport. by injection Hport as <-.
  - exact Hssl.
Defined.

(** Both stores asked for: the 35 messages. *)
Lemma echo_config_accepts_what_getConfigs_returns_witness :
  ∃ config_params msgs,
    Utils.getConfigs both_environ sample_now = Return config_params
    ∧ Utils.echo_config both_environ config_params = (Return (), msgs)
    ∧ length msgs = 35.
Proof.
  assert (match Utils.getConfigs both_environ sample_now with
          | Return c =>
              c !! "ECHOCONFIG" = Some (Utils.VInt 1)
              ∧ c !! "TARGETS" = Some (Utils.VList [1%Z; 3%Z])
          | Throw _ => False
          end) as Hreturns by (vm_compute; split; reflexivity).
  destruct (Utils.getConfigs both_environ sample_now) as [config_params|e] eqn:Hc;
    [|destruct Hreturns].
  destruct Hreturns as [Hecho Htargets].
  destruct (echo_config_accepts_what_getConfigs_returns both_environ sample_now
              config_params Hc)
    as (msgs & echo & targets & Hmsgs & Hecho' & Htargets' & Hlength).
  rewrite Hecho in Hecho'. injection Hecho' as <-.
  rewrite Htargets in Htargets'. injection Htargets' as <-.
  exists config_params, msgs. split_and!; [done|done|exact Hlength].
Defined.

(** Other credentials, the same messages. *)
Lemma echo_config_shows_no_credentials_witness :
  ∃ config_params config_params',
    Utils.getConfigs both_environ sample_now = Return config_params
    ∧ Utils.getConfigs other_credentials sample_now = Return config_params'
    ∧ config_params !! "MONGO_PASSWORD" ≠ config_params' !! "MONGO_PASSWORD"
    ∧ Utils.echo_config both_environ config_params
      = Utils.echo_config other_credentials config_params'.
Proof.
  assert (match Utils.getConfigs both_environ sample_now with
          | Return c => c !! "MONGO_PASSWORD" = Some (Utils.VStr "secret")
          | Throw _ => False
          end) as Hreturns by (vm_compute; reflexivity).
  assert (match Utils.getConfigs other_credentials sample_now with
          | Return c => c !! "MONGO_PASSWORD" = Some (Utils.VStr "hunter2")
          | Throw _ => False
          end) as Hreturns' by (vm_compute; reflexivity).
  destruct (Utils.getConfigs both_environ sample_now) as [config_params|e] eqn:Hc;
    [|destruct Hreturns].
  destruct (Utils.getConfigs other_credentials sample_now) as [config_params'|e] eqn:Hc';
    [|destruct Hreturns'].
  exists config_params, config_params'. split_and!; [done|done|..].
  - rewrite Hreturns, Hreturns'. discriminate.
  - apply (echo_config_shows_no_credentials both_environ other_credentials sample_now);
      [|done|done].
    intros key Hkey. unfold other_credentials.
    rewrite !lookup_insert_ne; [done|..];
      intros <-; apply Hkey; unfold not_echoed; rewrite !elem_of_cons; tauto.
Defined.

(** The text file, counted: two chunks of type [txt]. *)
Lemma processed_document_is_counted_witness :
  ∃ before summary w' after,
    (Main.get_statistics sample_vectorizer sample_world).1 = Return before
    ∧ Main.process_document sample_env sample_vectorizer "docs/a.txt" None sample_world
      = (Return summary, w')
    ∧ (Main.get_statistics sample_vectorizer w').1 = Return after
    ∧ total_chunks before = 0%Z
    ∧ total_chunks after = 2%Z
    ∧ by_file_type after !! "txt" = Some 2%Z.
Proof.
  destruct (processed_document_is_counted sample_env sample_vectorizer
              "docs/a.txt" None sample_world
              [mkChunk "First paragraph." None 0 "docs/a.txt" "txt";
               mkChunk "Second one." None 2 "docs/a.txt" "txt"]
              sample_encoder "MongoDB" (Mongo.mkStore small_config 2 true))
    as (before & summary & w' & after & Hbefore & Hp & Hafter & Htotal & Htype & _);
    [reflexivity|vm_compute; reflexivity|discriminate|reflexivity|reflexivity
    |reflexivity|reflexivity|reflexivity|].
  assert (total_chunks before = 0%Z ∧ by_file_type before !! "txt" = None)
    as [Hbefore_total Hbefore_txt].
  { vm_compute in Hbefore. injection Hbefore as <-. split; reflexivity. }
  assert (Main.s_total_chunks summary = 2%Z ∧ Main.s_file_type summary = "txt")
    as [Hsummary_total Hsummary_type].
  { apply (f_equal (λ x, match x.1 with
                         | Return s => (Main.s_total_chunks s, Main.s_file_type s)
                         | Throw _ => (0%Z, "")
                         end)) in Hp.
    vm_compute in Hp. injection Hp as Hn Ht.
    split; [symmetry; exact Hn|symmetry; exact Ht]. }
  exists before, summary, w', after. split_and!; [done|done|done|done|..].
  - by rewrite Htotal, Hbefore_total, Hsummary_total.
  - rewrite Hsummary_type, Hbefore_txt, Hsummary_total in Htype. exact Htype.
Defined.
